(** * Classroom feedback server: the question classification and clustering
      pipeline

    A shallow embedding of the server's [FreeAI] and [EnhancedAI] classes and
    of its [submit-question] socket handler, with the properties the
    specification states about them.

    Conventions of the embedding:
    - a JavaScript string is a [string] whose characters are its code units,
      taken below 256 (Basic Latin and Latin-1), so that [length] is the
      JavaScript [length];
    - the part-of-speech tagger ([compromise]) is an external library: it is
      a parameter of the development, a record of three functions;
    - the remote classification service, the database and the socket are the
      environment: their answers are inputs and the calls made to them are
      recorded in a trace. *)

From Stdlib Require Import String Ascii List Bool Arith PeanoNat NArith ZArith.
From Stdlib Require Import QArith Qreduction Lia Permutation Sorted.
Import ListNotations.
Local Open Scope string_scope.
Local Open Scope list_scope.
Local Open Scope nat_scope.

(** ** JavaScript strings *)

Module JsString.

(** [String.prototype.toLowerCase] on one code unit below 256: the letters
    A-Z and the Latin-1 capitals U+00C0-U+00DE (the multiplication sign
    U+00D7 apart) move up by 32, every other unit is left as it is. *)
Definition lower_unit (c : ascii) : ascii :=
  let n := nat_of_ascii c in
  if ((65 <=? n) && (n <=? 90))
     || ((192 <=? n) && (n <=? 222) && negb (n =? 215))
  then ascii_of_nat (n + 32)
  else c.

Fixpoint toLowerCase (s : string) : string :=
  match s with
  | EmptyString => EmptyString
  | String c s' => String (lower_unit c) (toLowerCase s')
  end.

(** [s.includes(pat)]: [pat] occurs in [s] at some position. *)
Fixpoint includes (s pat : string) : bool :=
  String.prefix pat s
  || match s with
     | EmptyString => false
     | String _ s' => includes s' pat
     end.

(** [words.join(sep)]. *)
Fixpoint join (sep : string) (words : list string) : string :=
  match words with
  | [] => ""
  | [w] => w
  | w :: ws => (w ++ sep ++ join sep ws)%string
  end.

End JsString.

Import JsString.

(** ** The part-of-speech tagger

    [compromise(text)] followed by [.nouns()], [.verbs()] and
    [.adjectives()], each read with [.out('array')]. *)

Record Tagger : Type := {
  nouns : string -> list string;
  verbs : string -> list string;
  adjectives : string -> list string
}.

(** A text is blank when it has no letter and no digit: the empty text and
    the texts made only of punctuation and spaces. *)
Definition is_word_unit (c : ascii) : bool :=
  let n := nat_of_ascii c in
  ((48 <=? n) && (n <=? 57)) || ((65 <=? n) && (n <=? 90))
  || ((97 <=? n) && (n <=? 122)) || (192 <=? n).

Fixpoint blank (s : string) : bool :=
  match s with
  | EmptyString => true
  | String c s' => negb (is_word_unit c) && blank s'
  end.

(** The terms the tagger reports for a text, in the order in which
    [extractKeywords] spreads them. *)
Definition reported (nlp : Tagger) (text : string) : list string :=
  nouns nlp text ++ verbs nlp text ++ adjectives nlp text.

(** A tagger for examples: every maximal run of non-space characters that
    begins with a letter or a digit is a noun; there are no verbs and no
    adjectives. *)
Module WordTagger.

Fixpoint split_spaces (acc : string) (s : string) : list string :=
  match s with
  | EmptyString => [acc]
  | String c s' =>
      if Ascii.eqb c " "%char then acc :: split_spaces "" s'
      else split_spaces (acc ++ String c "")%string s'
  end.

Definition starts_word (w : string) : bool :=
  match w with
  | EmptyString => false
  | String c _ => is_word_unit c
  end.

Definition tagger : Tagger := {|
  nouns := fun text => filter starts_word (split_spaces "" text);
  verbs := fun _ => [];
  adjectives := fun _ => []
|}.

End WordTagger.

(** A tagger for the examples of one term: a text that is not empty is
    reported whole as one noun, whatever its characters, the way
    [compromise] reports a run of punctuation such as [...] or [!!!]; the
    empty text has no term. *)
Module PhraseTagger.

Definition tagger : Tagger := {|
  nouns := fun text => match text with
                       | EmptyString => []
                       | _ => [text]
                       end;
  verbs := fun _ => [];
  adjectives := fun _ => []
|}.

End PhraseTagger.

(** ** JavaScript numbers

    The numbers of the pipeline are quotients of two set sizes and the
    confidences of the remote service. A quotient is kept as a fraction in
    lowest terms, so that two quotients are equal exactly when their
    fractions are. Division of doubles is correctly rounded and the sizes
    are at most 10, so comparing the fractions (with each other, and with
    the literal 0.3) gives what comparing the doubles gives. A confidence
    is the fraction its double stands for; the doubles of the literals 0.6
    and 0.7 lie just below these fractions, with no double in between. *)

Module JsNumber.

Inductive number : Type :=
| NaN
| Infinity
| Fin (q : Q).

(** [i / u] for two sizes. *)
Definition div (i u : nat) : number :=
  match u, i with
  | O, O => NaN
  | O, S _ => Infinity
  | S _, _ => Fin (Qred (Z.of_nat i # Pos.of_nat u))
  end.

(** [x > y] for a literal [y]. *)
Definition gt (x : number) (y : Q) : bool :=
  match x with
  | NaN => false
  | Infinity => true
  | Fin q => negb (Qle_bool q y)
  end.

(** The sign of [x - y] as a comparison function's result is read by
    [Array.prototype.sort]: a [NaN] result counts as [+0]. *)
Definition sub_sign (x y : number) : comparison :=
  match x, y with
  | Fin p, Fin q => (p ?= q)%Q
  | Infinity, Fin _ => Gt
  | Fin _, Infinity => Lt
  | _, _ => Eq
  end.

End JsNumber.

(** ** JavaScript arrays and sets *)

Module JsArray.

Section Sort.

Context {A : Type}.
Variable comparefn : A -> A -> comparison.

(** [Array.prototype.sort(comparefn)] is stable (ECMAScript 2019): when
    [comparefn] is a consistent comparator the result is the one of any
    stable sort, here insertion from the right. [comparefn a b = Gt]
    stands for a positive result: [a] goes after [b]. *)
Fixpoint insert (x : A) (l : list A) : list A :=
  match l with
  | [] => [x]
  | y :: l' =>
      match comparefn x y with
      | Gt => y :: insert x l'
      | _ => x :: l
      end
  end.

Fixpoint sort (l : list A) : list A :=
  match l with
  | [] => []
  | x :: l' => insert x (sort l')
  end.

End Sort.

(** [slice(0, n)]. *)
Definition slice0 {A : Type} (n : nat) (l : list A) : list A := firstn n l.

End JsArray.

Module JsSet.

(** A [Set] of strings, as the list of its members in insertion order. *)
Definition has (s : list string) (x : string) : bool :=
  existsb (String.eqb x) s.

Definition add (s : list string) (x : string) : list string :=
  if has s x then s else s ++ [x].

(** [new Set(array)]. *)
Definition of_array (l : list string) : list string :=
  fold_left add l [].

Definition size (s : list string) : nat := length s.

End JsSet.

(** ** A plain object used as a table: [const keywordFreq = {}] *)

Module JsObject.

(** The values the frequency table holds: a count, or a text (see
    [bump]). *)
Inductive value : Type :=
| Number (n : nat)
| Text (s : string).

(** What a property read gives. *)
Inductive read : Type :=
| Undefined
| Own (v : value)
| Inherited (name : string).

(** The own properties in creation order. *)
Definition object : Type := list (string * value).

Definition empty : object := [].

(** The members every plain object inherits from [Object.prototype]. *)
Definition prototype_names : list string :=
  [ "constructor"; "__defineGetter__"; "__defineSetter__"; "hasOwnProperty";
    "__lookupGetter__"; "__lookupSetter__"; "isPrototypeOf";
    "propertyIsEnumerable"; "toString"; "valueOf"; "__proto__";
    "toLocaleString" ].

Definition inherited (key : string) : bool :=
  existsb (String.eqb key) prototype_names.

Fixpoint own (o : object) (key : string) : option value :=
  match o with
  | [] => None
  | (k, v) :: o' => if String.eqb k key then Some v else own o' key
  end.

(** [o[key]]: the own property, else the inherited member, else
    [undefined]. *)
Definition get (o : object) (key : string) : read :=
  match own o key with
  | Some v => Own v
  | None => if inherited key then Inherited key else Undefined
  end.

Fixpoint update (o : object) (key : string) (v : value) : object :=
  match o with
  | [] => [(key, v)]
  | (k, w) :: o' =>
      if String.eqb k key then (k, v) :: o' else (k, w) :: update o' key v
  end.

(** [o[key] = v] for a number or a string [v]: the setter of [__proto__]
    ignores such a value; any other key gets an own property, a new one
    going last. *)
Definition set (o : object) (key : string) (v : value) : object :=
  if String.eqb key "__proto__" then o else update o key v.

(** What [String(member)] gives for an inherited member: the text of the
    prototype object for [__proto__], and else the source text of a
    built-in function, which is named as the member is, but for
    [constructor], the function [Object]. *)
Definition member_text (name : string) : string :=
  if String.eqb name "__proto__" then "[object Object]"
  else if String.eqb name "constructor"
  then "function Object() { [native code] }"
  else ("function " ++ name ++ "() { [native code] }")%string.

(** The decimal value of a string of digits. *)
Fixpoint digits (acc : N) (s : string) : option N :=
  match s with
  | EmptyString => Some acc
  | String c s' =>
      let n := N_of_ascii c in
      if ((48 <=? n) && (n <=? 57))%N then digits (10 * acc + (n - 48))%N s'
      else None
  end.

(** An array index is the canonical decimal text of an integer between 0
    and 2^32 - 2. *)
Definition array_index (key : string) : option N :=
  match key with
  | EmptyString => None
  | String c rest =>
      if Ascii.eqb c "0"%char
      then (if String.eqb rest "" then Some 0%N else None)
      else match digits 0%N key with
           | Some n => if (n <=? 4294967294)%N then Some n else None
           | None => None
           end
  end.

Definition index_of (p : string * value) : N :=
  match array_index (fst p) with
  | Some n => n
  | None => 0%N
  end.

Definition is_index (p : string * value) : bool :=
  match array_index (fst p) with
  | Some _ => true
  | None => false
  end.

(** [Object.entries(o)]: the properties whose key is an array index, in
    ascending order of index, then the others in creation order. *)
Definition entries (o : object) : list (string * value) :=
  JsArray.sort (fun p r => (index_of p ?= index_of r)%N) (filter is_index o)
  ++ filter (fun p => negb (is_index p)) o.

End JsObject.

(** [a === b] for two values that are a string or [undefined]. *)
Definition strict_eq (a b : option string) : bool :=
  match a, b with
  | Some x, Some y => String.eqb x y
  | None, None => true
  | _, _ => false
  end.

(** ** Records of the pipeline *)

(** A row of the table [questions] as the pipeline reads it: [id] and
    [question_text]. The object pushed for the new question has a
    [question_text] and no [id]. *)
Record question : Type := {
  id : option string;
  question_text : string
}.

(** An element of the array [findSimilarQuestions] returns. *)
Record similar : Type := {
  questionId : option string;
  similarity : JsNumber.number;
  text : string
}.

(** The object [generateTopicSummary] returns. *)
Record summary : Type := {
  title : string;
  keywords : list string;
  questionCount : nat;
  urgency : string
}.

(** ** [class FreeAI] *)

Module FreeAI.

Definition categorizeQuestion (text : string) : string :=
  let lowerText := toLowerCase text in
  if includes lowerText "what is" || includes lowerText "define"
     || includes lowerText "meaning" || includes lowerText "mean"
  then "definition"
  else if includes lowerText "how to" || includes lowerText "steps"
          || includes lowerText "process" || includes lowerText "procedure"
  then "process"
  else if includes lowerText "why" || includes lowerText "reason"
          || includes lowerText "because" || includes lowerText "purpose"
  then "reasoning"
  else if includes lowerText "example" || includes lowerText "instance"
          || includes lowerText "case" || includes lowerText "sample"
  then "examples"
  else if includes lowerText "confused" || includes lowerText "unclear"
          || includes lowerText "understand" || includes lowerText "explain"
  then "clarification"
  else "general".

(** [(keywordFreq[keyword] || 0) + 1]: an absent count starts at 1 and a
    count goes up by 1; an inherited member or a text is truthy and [+]
    appends the text of 1 to it. *)
Definition bump (r : JsObject.read) : JsObject.value :=
  match r with
  | JsObject.Undefined => JsObject.Number 1
  | JsObject.Own (JsObject.Number n) => JsObject.Number (n + 1)
  | JsObject.Own (JsObject.Text "") => JsObject.Number 1
  | JsObject.Own (JsObject.Text s) => JsObject.Text (s ++ "1")
  | JsObject.Inherited name => JsObject.Text (JsObject.member_text name ++ "1")
  end.

(** The comparison function [([,a], [,b]) => b - a] of the ranking: the
    difference of two counts; with a text on either side the difference
    is [NaN], which the sort reads as [+0], since the texts of [bump] do
    not read as numbers. On a table that holds a text and two different
    counts the function is an inconsistent comparator, for which the
    language leaves the order of the sorted array to the engine, and
    [JsArray.sort] need not give the order of the engine there. The
    properties of the ranking are stated for tables of counts, and for
    tables on which every comparison gives zero, where the function is
    consistent and the sort, being stable, leaves the array as it is. *)
Definition by_count_desc (p r : string * JsObject.value) : comparison :=
  match snd r, snd p with
  | JsObject.Number b, JsObject.Number a => Nat.compare b a
  | _, _ => Eq
  end.

(** The comparison function [(a, b) => b.similarity - a.similarity]. *)
Definition by_similarity_desc (a b : similar) : comparison :=
  JsNumber.sub_sign (similarity b) (similarity a).

Section WithTagger.

Variable nlp : Tagger.

Definition extractKeywords (text : string) : list string :=
  JsArray.slice0 5
    (filter (fun word => 2 <? String.length word)
       (nouns nlp text ++ verbs nlp text ++ adjectives nlp text)).

(** The Jaccard quotient of the body of the [forEach]. *)
Definition jaccard (newKeywords existingKeywords : list string)
  : JsNumber.number :=
  let intersection :=
    JsSet.of_array (filter (JsSet.has existingKeywords) newKeywords) in
  let union := JsSet.of_array (newKeywords ++ existingKeywords) in
  JsNumber.div (JsSet.size intersection) (JsSet.size union).

(** One round of the [forEach]: [similarities.push] when the quotient
    passes the threshold. *)
Definition compare_with (newKeywords : list string)
    (similarities : list similar) (existing : question) : list similar :=
  let existingKeywords :=
    JsSet.of_array (extractKeywords (toLowerCase (question_text existing))) in
  let similarity := jaccard newKeywords existingKeywords in
  if JsNumber.gt similarity (3 # 10)
  then similarities ++ [ {| questionId := id existing;
                            similarity := similarity;
                            text := question_text existing |} ]
  else similarities.

Definition findSimilarQuestions (newQuestion : string)
    (existingQuestions : list question) : list similar :=
  let newKeywords :=
    JsSet.of_array (extractKeywords (toLowerCase newQuestion)) in
  let similarities :=
    fold_left (compare_with newKeywords) existingQuestions [] in
  JsArray.sort by_similarity_desc similarities.

(** [allKeywords] after the first [forEach]. *)
Definition allKeywords (questions : list question) : list string :=
  fold_left (fun all q => all ++ extractKeywords (question_text q))
    questions [].

(** [keywordFreq] after the second [forEach]. *)
Definition keywordFreq (all : list string) : JsObject.object :=
  fold_left
    (fun freq keyword =>
       JsObject.set freq keyword (bump (JsObject.get freq keyword)))
    all JsObject.empty.

Definition topKeywords (all : list string) : list string :=
  map fst
    (JsArray.slice0 3
       (JsArray.sort by_count_desc (JsObject.entries (keywordFreq all)))).

Definition generateTopicSummary (questions : list question)
  : option summary :=
  match questions with
  | [] => None
  | _ =>
      let top := topKeywords (allKeywords questions) in
      Some {| title := join " & " top;
              keywords := top;
              questionCount := length questions;
              urgency := if 2 <? length questions then "high"
                         else if 1 <? length questions then "medium"
                         else "low" |}
  end.

End WithTagger.

End FreeAI.

(** ** The environment: remote service, database, socket *)

(** The answer of [hf.zeroShotClassification]. *)
Record zeroShot : Type := {
  labels : list string;
  scores : list Q
}.

(** An element of the answer of [hf.textClassification]. *)
Record classified : Type := {
  label : string;
  score : Q
}.

(** The client [hf]: each call rejects with an error message or resolves
    with an answer. *)
Record HfInference : Type := {
  zeroShotClassification : string -> string + zeroShot;
  textClassification : string -> string + list classified
}.

(** The process-wide configuration read at each call: the variable
    [AI_ENABLED] of the process environment and the client [hf], which is
    [null] when no API key is configured. *)
Record Config : Type := {
  env_AI_ENABLED : option string;
  hf : option HfInference
}.

(** The payload of a [submit-question] event. *)
Record submission : Type := {
  sessionCode : string;
  studentName : string;
  questionText : string;
  sentiment : string
}.

(** The parameters of the [INSERT INTO questions] statement. *)
Record insertion : Type := {
  ins_id : string;
  ins_session_id : string;
  ins_student_name : string;
  ins_question_text : string;
  ins_sentiment : string;
  ins_topic_cluster : string
}.

(** The object [questionData] broadcast as [new-question]. *)
Record questionData : Type := {
  qd_id : string;
  qd_sessionId : string;
  qd_studentName : string;
  qd_questionText : string;
  qd_sentiment : string;
  qd_category : string;
  qd_topicCluster : string;
  qd_similarQuestions : list similar;
  qd_topicSummary : option summary;
  qd_timestamp : nat;
  qd_upvotes : nat
}.

(** What one run of the handler gets from outside: the identifier
    [uuidv4()] draws, the answer of [db.all] (an error or the rows), the
    error of [db.run] if any, and the clock. *)
Record World : Type := {
  uuid : string;
  select_questions : string -> string + list question;
  insert_question : insertion -> option string;
  now : nat
}.

(** The calls made to the outside, in order. *)
Inductive event : Type :=
| CallZeroShot (inputs : string)
| CallTextClassification (inputs : string)
| DbAll (session : string)
| DbRun (row : insertion)
| Emit (room : string) (data : questionData).

(** ** Computations that call out and may throw *)

Module Js.

(** A computation extends the trace of calls and either throws an error
    message or returns a value. *)
Definition M (A : Type) : Type := list event -> (string + A) * list event.

Definition ret {A : Type} (a : A) : M A := fun tr => (inr a, tr).

Definition bind {A B : Type} (m : M A) (k : A -> M B) : M B :=
  fun tr =>
    match m tr with
    | (inl e, tr') => (inl e, tr')
    | (inr a, tr') => k a tr'
    end.

Definition throw {A : Type} (e : string) : M A := fun tr => (inl e, tr).

(** [try { m } catch (error) { handler(error) }]. *)
Definition try_catch {A : Type} (m : M A) (handler : string -> M A) : M A :=
  fun tr =>
    match m tr with
    | (inl e, tr') => handler e tr'
    | (inr a, tr') => (inr a, tr')
    end.

Definition call (ev : event) : M unit := fun tr => (inr tt, tr ++ [ev]).

(** [await promise]: the value, or the rejection rethrown. *)
Definition await {A : Type} (answer : string + A) : M A :=
  match answer with
  | inl e => throw e
  | inr a => ret a
  end.

(** [array[0].member]: a [TypeError] when the array is empty. *)
Definition first {A : Type} (l : list A) : M A :=
  match l with
  | [] => throw "TypeError"
  | a :: _ => ret a
  end.

Definition run {A : Type} (m : M A) : (string + A) * list event := m [].

Definition remote_calls (tr : list event) : nat :=
  length (filter (fun ev => match ev with
                            | CallZeroShot _ | CallTextClassification _ => true
                            | _ => false
                            end) tr).

End Js.

Declare Scope js_scope.
Delimit Scope js_scope with js.
Notation "x <- m ;; k" := (Js.bind m (fun x => k))
  (at level 61, m at next level, right associativity) : js_scope.
Notation "m ;;; k" := (Js.bind m (fun _ => k))
  (at level 61, right associativity) : js_scope.

(** ** [class EnhancedAI] *)

Module EnhancedAI.

Local Open Scope js_scope.

(** [process.env.AI_ENABLED !== 'false']. *)
Definition AI_ENABLED (cfg : Config) : bool :=
  match env_AI_ENABLED cfg with
  | Some v => negb (String.eqb v "false")
  | None => true
  end.

(** [label.split(' ')[0]]. *)
Fixpoint first_word (s : string) : string :=
  match s with
  | EmptyString => EmptyString
  | String c s' =>
      if Ascii.eqb c " "%char then EmptyString else String c (first_word s')
  end.

Definition categorizeQuestion (cfg : Config) (text : string) : Js.M string :=
  if negb (AI_ENABLED cfg) then Js.ret (FreeAI.categorizeQuestion text)
  else
    match hf cfg with
    | None => Js.ret (FreeAI.categorizeQuestion text)
    | Some client =>
        Js.try_catch
          (Js.call (CallZeroShot text) ;;;
           result <- Js.await (zeroShotClassification client text) ;;
           top <- Js.first (labels result) ;;
           let category := first_word (toLowerCase top) in
           confidence <- Js.first (scores result) ;;
           Js.ret category)
          (fun error => Js.ret (FreeAI.categorizeQuestion text))
    end.

Definition analyzeSentiment (cfg : Config) (text : string) : Js.M string :=
  if negb (AI_ENABLED cfg) || match hf cfg with None => true | Some _ => false end
  then Js.ret "neutral"
  else
    match hf cfg with
    | None => Js.ret "neutral"
    | Some client =>
        Js.try_catch
          (Js.call (CallTextClassification text) ;;;
           result <- Js.await (textClassification client text) ;;
           top <- Js.first result ;;
           let sentiment := toLowerCase (label top) in
           let confidence := score top in
           if String.eqb sentiment "negative"
              && JsNumber.gt (JsNumber.Fin confidence) (6 # 10)
           then Js.ret "confused"
           else if String.eqb sentiment "positive"
                   && JsNumber.gt (JsNumber.Fin confidence) (7 # 10)
           then Js.ret "excited"
           else Js.ret "neutral")
          (fun error => Js.ret "neutral")
    end.

End EnhancedAI.

(** ** The [submit-question] handler *)

Module Server.

Local Open Scope js_scope.

(** The two awaited calls at the head of the handler: the classification
    of a question text, its category and its analyzed sentiment. *)
Definition classify (cfg : Config) (text : string) : Js.M (string * string) :=
  category <- EnhancedAI.categorizeQuestion cfg text ;;
  analyzedSentiment <- EnhancedAI.analyzeSentiment cfg text ;;
  Js.ret (category, analyzedSentiment).

(** [if (err) existingQuestions = []]: the rows the callback of [db.all]
    goes on with. *)
Definition corpus_of (answer : string + list question) : list question :=
  match answer with
  | inl err => []
  | inr rows => rows
  end.

(** [s.questionId === q.id]. *)
Definition refers_to (s : similar) (q : question) : bool :=
  strict_eq (questionId s) (id q).

Section WithTagger.

Variable nlp : Tagger.

(** The callback of [db.run]. *)
Definition on_inserted (err : option string) (room : string)
    (data : questionData) : Js.M unit :=
  match err with
  | Some _ => Js.ret tt
  | None => Js.call (Emit room data)
  end.

(** The topic cluster: the rows a similar question refers to, then the
    new question. *)
Definition relatedQuestions (questionText : string)
    (similarQuestions : list similar) (existingQuestions : list question)
  : list question :=
  filter (fun q => existsb (fun s => refers_to s q) similarQuestions)
    existingQuestions
  ++ [ {| id := None; question_text := questionText |} ].

(** [topicSummary] and [topicCluster] in the callback of [db.all]. *)
Definition topicSummary (questionText : string)
    (existingQuestions : list question) : option summary :=
  FreeAI.generateTopicSummary nlp
    (relatedQuestions questionText
       (FreeAI.findSimilarQuestions nlp questionText existingQuestions)
       existingQuestions).

Definition topicCluster (category : string) (topicSummary : option summary)
  : string :=
  match topicSummary with
  | Some t => title t
  | None => category
  end.

(** The parameters bound to the [INSERT] statement. *)
Definition inserted_row (data : submission)
    (questionId analyzedSentiment topicCluster : string) : insertion :=
  {| ins_id := questionId;
     ins_session_id := sessionCode data;
     ins_student_name := studentName data;
     ins_question_text := questionText data;
     ins_sentiment := analyzedSentiment;
     ins_topic_cluster := topicCluster |}.

(** The object [questionData] built in the callback of [db.run]. *)
Definition broadcast_record (w : World) (data : submission)
    (questionId category topicCluster : string)
    (similarQuestions : list similar) (topicSummary : option summary)
  : questionData :=
  {| qd_id := questionId;
     qd_sessionId := sessionCode data;
     qd_studentName := studentName data;
     qd_questionText := questionText data;
     qd_sentiment := sentiment data;
     qd_category := category;
     qd_topicCluster := topicCluster;
     qd_similarQuestions := similarQuestions;
     qd_topicSummary := topicSummary;
     qd_timestamp := now w;
     qd_upvotes := 0 |}.

(** The callback of [db.all]. *)
Definition on_selected (w : World) (data : submission)
    (questionId category analyzedSentiment : string)
    (answer : string + list question) : Js.M unit :=
  let existingQuestions := corpus_of answer in
  let similarQuestions :=
    FreeAI.findSimilarQuestions nlp (questionText data) existingQuestions in
  let topicSummary := topicSummary (questionText data) existingQuestions in
  let topicCluster := topicCluster category topicSummary in
  let row :=
    inserted_row data questionId analyzedSentiment topicCluster in
  Js.call (DbRun row) ;;;
  on_inserted (insert_question w row) (sessionCode data)
    (broadcast_record w data questionId category topicCluster
       similarQuestions topicSummary).

(** The handler. The two callbacks run once the [try] block is left; no
    step of theirs throws, so that they are written inside it here. *)
Definition submit_question (cfg : Config) (w : World) (data : submission)
  : Js.M unit :=
  Js.try_catch
    (let questionId := uuid w in
     classification <- classify cfg (questionText data) ;;
     let (category, analyzedSentiment) := classification in
     Js.call (DbAll (sessionCode data)) ;;;
     on_selected w data questionId category analyzedSentiment
       (select_questions w (sessionCode data)))
    (fun error => Js.ret tt).

End WithTagger.

End Server.

(** ** The rule table of the specification *)

Module RuleTable.

(** The categories in precedence order, each with its phrases. *)
Definition rules : list (string * list string) :=
  [ ("definition", ["what is"; "define"; "meaning"; "mean"]);
    ("process", ["how to"; "steps"; "process"; "procedure"]);
    ("reasoning", ["why"; "reason"; "because"; "purpose"]);
    ("examples", ["example"; "instance"; "case"; "sample"]);
    ("clarification", ["confused"; "unclear"; "understand"; "explain"]) ].

(** First match wins; [general] when no rule matches. *)
Fixpoint first_match (rs : list (string * list string)) (lower : string) : string :=
  match rs with
  | [] => "general"
  | (category, phrases) :: rs' =>
      if existsb (includes lower) phrases then category
      else first_match rs' lower
  end.

Definition categories : list string :=
  map fst rules ++ ["general"].

End RuleTable.

(** ** The similarity and the ranking in the specification's words *)

Module JaccardSpec.

Definition member (x : string) (l : list string) : bool :=
  if in_dec string_dec x l then true else false.

(** The number of distinct words of a list. *)
Definition distinct (l : list string) : nat :=
  length (nodup string_dec l).

(** The sizes of the intersection and of the union of two keyword lists
    read as sets. *)
Definition common (a b : list string) : nat :=
  distinct (filter (fun x => member x b) a).

Definition either (a b : list string) : nat :=
  distinct (a ++ b).

(** [common / either > 0.30], with the division cleared. *)
Definition above_threshold (a b : list string) : bool :=
  3 * either a b <? 10 * common a b.

(** The quotient as a fraction, for a non-empty union. *)
Definition ratio (a b : list string) : Q :=
  Z.of_nat (common a b) # Pos.of_nat (either a b).

Section WithTagger.

Variable nlp : Tagger.

(** The keywords the matcher extracts from a text. *)
Definition keywords_of (text : string) : list string :=
  FreeAI.extractKeywords nlp (toLowerCase text).

(** The corpus members whose similarity with the new text is strictly
    greater than 0.30, in corpus order. *)
Definition matches (newText : string) (corpus : list question)
  : list question :=
  filter (fun q => above_threshold (keywords_of newText)
                     (keywords_of (question_text q)))
    corpus.

(** The result reported for a corpus member. *)
Definition result_of (newText : string) (q : question) : similar :=
  {| questionId := id q;
     similarity :=
       JsNumber.Fin (Qred (ratio (keywords_of newText)
                             (keywords_of (question_text q))));
     text := question_text q |}.

End WithTagger.

(** [a] has a score no greater than the score of [b]. *)
Definition score_le (a b : similar) : Prop :=
  exists p q, similarity a = JsNumber.Fin p /\ similarity b = JsNumber.Fin q
              /\ (p <= q)%Q.

(** The score of [r] is the number [x]. *)
Definition has_score (x : Q) (r : similar) : bool :=
  match similarity r with
  | JsNumber.Fin q => Qeq_bool q x
  | _ => false
  end.

End JaccardSpec.

Module TopicSpec.

(** How many times a keyword occurs in the cluster. *)
Definition frequency (all : list string) (keyword : string) : nat :=
  count_occ string_dec all keyword.

(** The distinct keywords in first-seen order. *)
Fixpoint first_seen_from (seen all : list string) : list string :=
  match all with
  | [] => []
  | k :: all' =>
      if JaccardSpec.member k seen then first_seen_from seen all'
      else k :: first_seen_from (k :: seen) all'
  end.

Definition first_seen (all : list string) : list string :=
  first_seen_from [] all.

Definition index_key (k : string) : bool :=
  match JsObject.array_index k with
  | Some _ => true
  | None => false
  end.

Definition index_value (k : string) : N :=
  match JsObject.array_index k with
  | Some n => n
  | None => 0%N
  end.

(** The order in which the frequency table lists its keywords: those that
    are array indices in ascending order of index, then the other ones
    in first-seen order. *)
Definition enumeration (all : list string) : list string :=
  JsArray.sort (fun k k' => (index_value k ?= index_value k')%N)
    (filter index_key (first_seen all))
  ++ filter (fun k => negb (index_key k)) (first_seen all).

(** A list of keywords ranked by descending frequency, the keywords of
    one frequency staying in the order of the list. *)
Definition rank (all order : list string) : list string :=
  JsArray.sort
    (fun k k' => Nat.compare (frequency all k') (frequency all k)) order.

Definition urgency_of (count : nat) : string :=
  if 2 <? count then "high" else if 1 <? count then "medium" else "low".

(** The label of the claim: ties broken by first-seen order. *)
Definition label_first_seen (all : list string) : string :=
  join " & " (firstn 3 (rank all (first_seen all))).

(** The table after the keywords [all]: the distinct keywords in
    first-seen order, each with its number of occurrences. *)
Definition counted (all : list string) (k : string) : string * JsObject.value :=
  (k, JsObject.Number (frequency all k)).

Definition table (all : list string) : JsObject.object :=
  map (counted all) (first_seen all).

(** No keyword is the name of a member of [Object.prototype]. *)
Definition plain_keys (all : list string) : Prop :=
  Forall (fun k => JsObject.inherited k = false) all.

End TopicSpec.

(** ** The fallbacks of the orchestrator in the specification's words *)

Module ClassifySpec.

(** The category, from the outcome of the category call alone: the first
    word of the first label, in lower case, of an answer that has a label
    and a score; the rule-based category after a rejected call and after
    an answer that lacks one of the two. *)
Definition category_after (text : string) (outcome : string + zeroShot)
  : string :=
  match outcome with
  | inl _ => FreeAI.categorizeQuestion text
  | inr answer =>
      match labels answer, scores answer with
      | top :: _, _ :: _ => EnhancedAI.first_word (toLowerCase top)
      | _, _ => FreeAI.categorizeQuestion text
      end
  end.

(** The sentiment, from the outcome of the sentiment call alone: that of
    the first element of an answer, by the two thresholds; [neutral] after
    a rejected call and after an empty answer. *)
Definition sentiment_after (outcome : string + list classified) : string :=
  match outcome with
  | inl _ => "neutral"
  | inr [] => "neutral"
  | inr (top :: _) =>
      if String.eqb (toLowerCase (label top)) "negative"
         && negb (Qle_bool (score top) (6 # 10))
      then "confused"
      else if String.eqb (toLowerCase (label top)) "positive"
              && negb (Qle_bool (score top) (7 # 10))
      then "excited"
      else "neutral"
  end.

End ClassifySpec.

(** A world whose corpus read gives the rows [rows]. *)
Definition with_corpus (w : World) (rows : list question) : World :=
  {| uuid := uuid w;
     select_questions := fun _ => inr rows;
     insert_question := insert_question w;
     now := now w |}.

(** ** Sample environments *)

Module Sample.

(** A client whose two calls reject. *)
Definition failing_client : HfInference :=
  {| zeroShotClassification := fun _ => inl "503";
     textClassification := fun _ => inl "timeout" |}.

(** A client whose category call rejects while its sentiment call
    answers. *)
Definition half_failing_client : HfInference :=
  {| zeroShotClassification := fun _ => inl "503";
     textClassification :=
       fun _ => inr [ {| label := "NEGATIVE"; score := 9 # 10 |} ] |}.

(** A client whose category call answers while its sentiment call
    rejects. *)
Definition half_answering_client : HfInference :=
  {| zeroShotClassification :=
       fun _ => inr {| labels := ["examples and cases"; "reasoning and why"];
                       scores := [8 # 10; 2 # 10] |};
     textClassification := fun _ => inl "timeout" |}.

(** A client whose two calls answer: a definition, asked by a student
    the sentiment model reads as negative. *)
Definition answering_client : HfInference :=
  {| zeroShotClassification :=
       fun _ => inr {| labels := ["definition and explanation";
                                  "general question"];
                       scores := [9 # 10; 1 # 10] |};
     textClassification :=
       fun _ => inr [ {| label := "negative"; score := 9 # 10 |} ] |}.

Definition enabled (client : HfInference) : Config :=
  {| env_AI_ENABLED := None; hf := Some client |}.

Definition disabled : Config :=
  {| env_AI_ENABLED := Some "false"; hf := None |}.

(** A world whose corpus read fails; [saved] tells whether the insert
    succeeds. *)
Definition broken_read (saved : bool) : World :=
  {| uuid := "7d0c";
     select_questions := fun _ => inl "SQLITE_BUSY";
     insert_question := fun _ => if saved then None else Some "SQLITE_FULL";
     now := 0 |}.

(** A world whose room holds the rows [rows]. *)
Definition room_with (rows : list question) : World :=
  {| uuid := "7d0c";
     select_questions := fun _ => inr rows;
     insert_question := fun _ => None;
     now := 0 |}.

(** What the student page sends: its [sentiment] is always [neutral]. *)
Definition asks (text : string) : submission :=
  {| sessionCode := "ROOM42";
     studentName := "Ann";
     questionText := text;
     sentiment := "neutral" |}.

End Sample.

(** ** More of the server and of the pages *)

(** The [candidate_labels] sent with every [hf.zeroShotClassification]
    call. *)
Definition candidate_labels : list string :=
  [ "definition and explanation";
    "process and procedures";
    "examples and cases";
    "reasoning and why";
    "clarification and confusion";
    "general question" ].

(** *** The socket service of the pages: [services/socket.js] *)

Module SocketService.

(** The payloads the pages hand to the service, with the members the
    server reads. *)
Record question_data : Type := {
  pd_sessionCode : string;
  pd_studentName : string;
  pd_questionText : string;
  pd_sentiment : string;
  pd_timestamp : nat
}.

Record sentiment_data : Type := {
  sd_sessionCode : string;
  sd_sentimentType : string;
  sd_studentId : string
}.

Record upvote_data : Type := {
  ud_questionId : string;
  ud_sessionCode : string
}.

(** What [socket.emit] sends. *)
Inductive message : Type :=
| JoinSession (sessionCode : string)
| SubmitQuestion (data : question_data)
| SubmitSentiment (data : sentiment_data)
| UpvoteQuestion (data : upvote_data).

(** What the service does to the socket library: [io(url)] giving the
    socket [socket], [socket.on], [socket.off], [socket.emit] and
    [socket.disconnect]. *)
Inductive action : Type :=
| Open (url : string) (socket : nat)
| Listen (socket : nat) (event : string)
| Unlisten (socket : nat) (event : string)
| Send (socket : nat) (m : message)
| Close (socket : nat).

(** [import.meta.env.VITE_API_URL || 'http://localhost:5001']. *)
Definition API_URL (VITE_API_URL : option string) : string :=
  match VITE_API_URL with
  | None | Some "" => "http://localhost:5001"
  | Some url => url
  end.

(** The service object: [this.socket], [null] at first; [created] counts
    the sockets [io] has made, which names the next one. *)
Record service : Type := {
  socket : option nat;
  created : nat
}.

Definition initial : service := {| socket := None; created := 0 |}.

(** The methods of the class. *)
Inductive method : Type :=
| connect
| disconnect
| joinSession (sessionCode : string)
| submitQuestion (data : question_data)
| submitSentiment (data : sentiment_data)
| upvoteQuestion (data : upvote_data)
| onNewQuestion
| onSentimentUpdate
| onQuestionUpvoted
| off (event : string)
| clearSession (roomId : string).

(** One call of a method: the service after it and what it did. *)
Definition invoke (url : string) (s : service) (m : method)
  : service * list action :=
  match m, socket s with
  | connect, None =>
      let fresh := created s in
      ({| socket := Some fresh; created := S fresh |},
       [Open url fresh; Listen fresh "connect"; Listen fresh "disconnect";
        Listen fresh "connect_error"])
  | connect, Some _ => (s, [])
  | disconnect, Some h => ({| socket := None; created := created s |}, [Close h])
  | disconnect, None => (s, [])
  | joinSession sessionCode, Some h => (s, [Send h (JoinSession sessionCode)])
  | submitQuestion data, Some h => (s, [Send h (SubmitQuestion data)])
  | submitSentiment data, Some h => (s, [Send h (SubmitSentiment data)])
  | upvoteQuestion data, Some h => (s, [Send h (UpvoteQuestion data)])
  | onNewQuestion, Some h => (s, [Listen h "new-question"])
  | onSentimentUpdate, Some h => (s, [Listen h "sentiment-update"])
  | onQuestionUpvoted, Some h => (s, [Listen h "question-upvoted"])
  | off event, Some h => (s, [Unlisten h event])
  | clearSession _, _ => (s, [])
  | _, None => (s, [])
  end.

(** A sequence of calls. *)
Fixpoint invoke_all (url : string) (s : service) (ms : list method)
  : service * list action :=
  match ms with
  | [] => (s, [])
  | m :: ms' =>
      let (s1, done1) := invoke url s m in
      let (s2, done2) := invoke_all url s1 ms' in
      (s2, done1 ++ done2)
  end.

(** The sockets a sequence of actions leaves open. *)
Definition live_after (open : list nat) (a : action) : list nat :=
  match a with
  | Open _ h => open ++ [h]
  | Close h => filter (fun k => negb (k =? h)) open
  | _ => open
  end.

Definition live (done : list action) : list nat :=
  fold_left live_after done [].

(** What holds of the service and of the sockets its actions left open:
    the open socket is the one the service holds, and it is one [io]
    made. *)
Definition tracked (s : service) (open : list nat) : Prop :=
  open = match socket s with
         | Some h => [h]
         | None => []
         end
  /\ forall h, socket s = Some h -> h < created s.

End SocketService.

(** *** The pages: [App.jsx] *)

Module Page.

(** [String.prototype.trim] removes white space and line terminators at
    both ends; below 256 these are the tab, the line feed, the vertical
    tab, the form feed, the carriage return, the space and the no-break
    space. *)
Definition is_white (c : ascii) : bool :=
  let n := nat_of_ascii c in
  ((9 <=? n) && (n <=? 13)) || (n =? 32) || (n =? 160).

Fixpoint trimStart (s : string) : string :=
  match s with
  | EmptyString => EmptyString
  | String c s' => if is_white c then trimStart s' else s
  end.

Fixpoint trimEnd (s : string) : string :=
  match s with
  | EmptyString => EmptyString
  | String c s' =>
      match trimEnd s' with
      | EmptyString => if is_white c then EmptyString else String c EmptyString
      | rest => String c rest
      end
  end.

Definition trim (s : string) : string := trimEnd (trimStart s).

Fixpoint all_white (s : string) : bool :=
  match s with
  | EmptyString => true
  | String c s' => is_white c && all_white s'
  end.

(** [s.split(sep)] for a separator of one character. *)
Fixpoint split_from (sep : ascii) (piece : string) (s : string) : list string :=
  match s with
  | EmptyString => [piece]
  | String c s' =>
      if Ascii.eqb c sep then piece :: split_from sep "" s'
      else split_from sep (piece ++ String c "")%string s'
  end.

Definition split (sep : ascii) (s : string) : list string :=
  split_from sep "" s.

(** [window.location.pathname.split('/')[2]]: [None] is [undefined]. *)
Definition roomId (pathname : string) : option string :=
  nth_error (split "/" pathname) 2.

Fixpoint has_unit (sep : ascii) (s : string) : bool :=
  match s with
  | EmptyString => false
  | String c s' => Ascii.eqb c sep || has_unit sep s'
  end.

(** **** The student page, [Room] *)

(** What the handler of the server destructures from the payload. *)
Definition received (data : SocketService.question_data) : submission :=
  {| sessionCode := SocketService.pd_sessionCode data;
     studentName := SocketService.pd_studentName data;
     questionText := SocketService.pd_questionText data;
     sentiment := SocketService.pd_sentiment data |}.

(** An element of [myQuestions]. *)
Record my_question : Type := {
  mq_data : SocketService.question_data;
  mq_status : string;
  mq_id : nat
}.

(** The state of the component. *)
Record room : Type := {
  studentName : string;
  question : string;
  myQuestions : list my_question
}.

(** What a submission of the form does besides changing the state. *)
Inductive effect : Type :=
| Alert (text : string)
| Socket (a : SocketService.action).

(** [submitQuestion(e)]: [date] is what [new Date()] gives and [now] what
    [Date.now()] gives; [url] is the address of the service. The service
    is not changed by its [submitQuestion] method. *)
Definition submitQuestion (url room_id : string) (date now : nat)
    (svc : SocketService.service) (st : room) : room * list effect :=
  if String.eqb (trim (question st)) "" || String.eqb (trim (studentName st)) ""
  then (st, [Alert "Please enter both name and question"])
  else
    let questionData :=
      {| SocketService.pd_sessionCode := room_id;
         SocketService.pd_studentName := studentName st;
         SocketService.pd_questionText := question st;
         SocketService.pd_sentiment := "neutral";
         SocketService.pd_timestamp := date |} in
    ({| studentName := studentName st;
        question := "";
        myQuestions :=
          myQuestions st
          ++ [ {| mq_data := questionData; mq_status := "submitted";
                  mq_id := now |} ] |},
     map Socket
       (snd (SocketService.invoke url svc
               (SocketService.submitQuestion questionData)))).

(** **** The teacher page, [Teacher] *)

(** A question of the list [questions]: a row loaded from
    [/api/debug/questions], which has no [category] member, or a record
    received as [new-question]. *)
Inductive listed : Type :=
| Loaded (row_id : string) (student_name question_text : string)
| Received (data : questionData).

(** [question.category || 'general']. *)
Definition category_of (q : listed) : string :=
  match q with
  | Loaded _ _ _ => "general"
  | Received data =>
      if String.eqb (qd_category data) "" then "general" else qd_category data
  end.

(** The object [groups] of the [reduce]: the own properties in creation
    order, each an array of questions. *)
Definition groups : Type := list (string * list listed).

Fixpoint own_group (g : groups) (key : string) : option (list listed) :=
  match g with
  | [] => None
  | (k, members) :: g' =>
      if String.eqb k key then Some members else own_group g' key
  end.

Fixpoint push_to (g : groups) (key : string) (q : listed) : groups :=
  match g with
  | [] => []
  | (k, members) :: g' =>
      if String.eqb k key then (k, members ++ [q]) :: g'
      else (k, members) :: push_to g' key q
  end.

(** One round of the [reduce]. An own array gets the question pushed.
    A category without an own array gets one, with the question, unless
    the plain object inherits a member of that name: this member is
    truthy, no array is made, and [push], which the member does not have,
    throws a [TypeError]. *)
Definition group_step (g : groups) (q : listed) : string + groups :=
  let category := category_of q in
  match own_group g category with
  | Some _ => inr (push_to g category q)
  | None =>
      if JsObject.inherited category then inl "TypeError"
      else inr (g ++ [(category, [q])])
  end.

Fixpoint reduce_groups (g : groups) (questions : list listed) : string + groups :=
  match questions with
  | [] => inr g
  | q :: questions' =>
      match group_step g q with
      | inl e => inl e
      | inr g' => reduce_groups g' questions'
      end
  end.

(** [groupedQuestions]. *)
Definition groupedQuestions (questions : list listed) : string + groups :=
  reduce_groups [] questions.

Definition group_index (p : string * list listed) : N :=
  match JsObject.array_index (fst p) with
  | Some n => n
  | None => 0%N
  end.

Definition group_is_index (p : string * list listed) : bool :=
  match JsObject.array_index (fst p) with
  | Some _ => true
  | None => false
  end.

(** [Object.entries(groupedQuestions)]. *)
Definition group_entries (g : groups) : list (string * list listed) :=
  JsArray.sort (fun p r => (group_index p ?= group_index r)%N)
    (filter group_is_index g)
  ++ filter (fun p => negb (group_is_index p)) g.

(** The comparison function [([,a], [,b]) => b.length - a.length]. *)
Definition by_size_desc (p r : string * list listed) : comparison :=
  Nat.compare (length (snd r)) (length (snd p)).

(** The groups in the order of display. *)
Definition displayed (g : groups) : list (string * list listed) :=
  JsArray.sort by_size_desc (group_entries g).

(** The [Most Common Category] of the analytics. *)
Definition mostCommonCategory (g : groups) : string :=
  match displayed g with
  | [] => "None"
  | (category, _) :: _ => category
  end.

(** The groups as a partition: one per category, in the order in which
    the categories were first seen, each with the questions of its
    category in the order of arrival. *)
Definition grouped (seen : list listed) : groups :=
  map (fun c => (c, filter (fun q => String.eqb (category_of q) c) seen))
    (TopicSpec.first_seen (map category_of seen)).

(** The sum of the numbers of questions the group headers show. *)
Definition total (g : groups) : nat :=
  list_sum (map (fun p => length (snd p)) g).

Definition is_loaded (q : listed) : bool :=
  match q with
  | Loaded _ _ _ => true
  | Received _ => false
  end.

End Page.

(** *** The database of the server *)

(** The three tables the server creates, each as the list of its rows in
    the order of insertion, and the statements the server runs on them.
    A [SELECT] without [ORDER BY] gives the rows in this order, as SQLite
    does when it scans a table. A statement fails here only when it
    breaks a constraint of the tables: the primary keys and the unique
    [code] of a session. Foreign keys are not enforced, as in SQLite by
    default. *)
Module Sqlite.

Record session_row : Type := {
  s_id : string;
  s_code : string;
  s_teacher_name : string;
  s_class_name : string;
  s_created_at : nat;
  s_is_active : bool
}.

Record question_row : Type := {
  q_id : string;
  q_session_id : string;
  q_student_name : string;
  q_question_text : string;
  q_sentiment : string;
  q_timestamp : nat;
  q_upvotes : nat;
  q_topic_cluster : string
}.

Record sentiment_row : Type := {
  t_id : string;
  t_session_id : string;
  t_student_id : string;
  t_sentiment_type : string;
  t_timestamp : nat
}.

Record Db : Type := {
  sessions : list session_row;
  questions : list question_row;
  sentiments : list sentiment_row
}.

Definition empty : Db := {| sessions := []; questions := []; sentiments := [] |}.

Definition mentions (x : string) (l : list string) : bool :=
  existsb (String.eqb x) l.

(** [INSERT INTO sessions (id, code, teacher_name, class_name)]: the
    other columns take their defaults, the time and 1. *)
Definition insert_session (db : Db) (now : nat)
    (id code teacher_name class_name : string) : string + Db :=
  if mentions id (map s_id (sessions db))
  then inl "SQLITE_CONSTRAINT: UNIQUE constraint failed: sessions.id"
  else if mentions code (map s_code (sessions db))
  then inl "SQLITE_CONSTRAINT: UNIQUE constraint failed: sessions.code"
  else inr {| sessions :=
                sessions db
                ++ [ {| s_id := id; s_code := code;
                        s_teacher_name := teacher_name;
                        s_class_name := class_name;
                        s_created_at := now; s_is_active := true |} ];
              questions := questions db;
              sentiments := sentiments db |}.

(** [SELECT * FROM sessions WHERE code = ? AND is_active = 1], read with
    [db.get]. *)
Definition active_session (db : Db) (code : string) : option session_row :=
  find (fun s => String.eqb (s_code s) code && s_is_active s) (sessions db).

(** [SELECT id FROM sessions WHERE code = ?], read with [db.get]. *)
Definition session_id (db : Db) (code : string) : option string :=
  option_map s_id (find (fun s => String.eqb (s_code s) code) (sessions db)).

(** [INSERT INTO questions (id, session_id, student_name, question_text,
    sentiment, topic_cluster)]: the time and no upvote by default. *)
Definition insert_question (db : Db) (now : nat) (row : insertion)
  : string + Db :=
  if mentions (ins_id row) (map q_id (questions db))
  then inl "SQLITE_CONSTRAINT: UNIQUE constraint failed: questions.id"
  else inr {| sessions := sessions db;
              questions :=
                questions db
                ++ [ {| q_id := ins_id row;
                        q_session_id := ins_session_id row;
                        q_student_name := ins_student_name row;
                        q_question_text := ins_question_text row;
                        q_sentiment := ins_sentiment row;
                        q_timestamp := now;
                        q_upvotes := 0;
                        q_topic_cluster := ins_topic_cluster row |} ];
              sentiments := sentiments db |}.

(** [SELECT * FROM questions WHERE session_id = ?]. *)
Definition questions_of (db : Db) (session : string) : list question_row :=
  filter (fun q => String.eqb (q_session_id q) session) (questions db).

Definition upvoted (q : question_row) : question_row :=
  {| q_id := q_id q; q_session_id := q_session_id q;
     q_student_name := q_student_name q;
     q_question_text := q_question_text q; q_sentiment := q_sentiment q;
     q_timestamp := q_timestamp q; q_upvotes := q_upvotes q + 1;
     q_topic_cluster := q_topic_cluster q |}.

(** [UPDATE questions SET upvotes = upvotes + 1 WHERE id = ?]: the
    database after it and the number of rows changed. *)
Definition upvote (db : Db) (id : string) : Db * nat :=
  ({| sessions := sessions db;
      questions :=
        map (fun q => if String.eqb (q_id q) id then upvoted q else q)
          (questions db);
      sentiments := sentiments db |},
   length (filter (fun q => String.eqb (q_id q) id) (questions db))).

(** [DELETE FROM questions WHERE session_id = ?]: the database after it
    and the number of rows changed. *)
Definition delete_questions (db : Db) (session : string) : Db * nat :=
  ({| sessions := sessions db;
      questions :=
        filter (fun q => negb (String.eqb (q_session_id q) session))
          (questions db);
      sentiments := sentiments db |},
   length (questions_of db session)).

(** [INSERT INTO sentiments (id, session_id, student_id,
    sentiment_type)]. *)
Definition insert_sentiment (db : Db) (now : nat)
    (id session student_id sentiment_type : string) : string + Db :=
  if mentions id (map t_id (sentiments db))
  then inl "SQLITE_CONSTRAINT: UNIQUE constraint failed: sentiments.id"
  else inr {| sessions := sessions db;
              questions := questions db;
              sentiments :=
                sentiments db
                ++ [ {| t_id := id; t_session_id := session;
                        t_student_id := student_id;
                        t_sentiment_type := sentiment_type;
                        t_timestamp := now |} ] |}.

(** The constraints of the tables. *)
Definition consistent (db : Db) : Prop :=
  NoDup (map s_id (sessions db))
  /\ NoDup (map s_code (sessions db))
  /\ NoDup (map q_id (questions db))
  /\ NoDup (map t_id (sentiments db)).

End Sqlite.

(** *** The routes and the other socket handlers of the server *)

Module Backend.

(** What the server sends to a room besides [new-question]. *)
Inductive server_message : Type :=
| SentimentUpdate (sentimentType : string) (timestamp : nat)
| QuestionUpvoted (questionId : string) (upvotes : nat)
| SessionCleared (roomId courseName : string).

(** The bodies of the answers of the routes. *)
Inductive body : Type :=
| Created (sessionId sessionCode teacherUrl studentUrl : string)
| Failed (error : string)
| Found (session : Sqlite.session_row)
| Cleared (success : bool) (message : string) (questionsRemoved : nat).

Inductive output : Type :=
| Broadcast (room : string) (m : server_message)
| Respond (status : nat) (b : body).

(** [String.prototype.toUpperCase] on a code unit of a numeral in base
    36, a digit, a letter from a to z or the point: the letters move down
    by 32. *)
Definition upper_unit (c : ascii) : ascii :=
  let n := nat_of_ascii c in
  if (97 <=? n) && (n <=? 122) then ascii_of_nat (n - 32) else c.

Fixpoint toUpperCase (s : string) : string :=
  match s with
  | EmptyString => EmptyString
  | String c s' => String (upper_unit c) (toUpperCase s')
  end.

(** The units of [Math.random().toString(36)]. *)
Definition numeral_unit (c : ascii) : bool :=
  let n := nat_of_ascii c in
  ((48 <=? n) && (n <=? 57)) || ((97 <=? n) && (n <=? 122)) || (n =? 46).

Fixpoint numeral (s : string) : bool :=
  match s with
  | EmptyString => true
  | String c s' => numeral_unit c && numeral s'
  end.

(** The units of a session code: digits, capital letters, the point. *)
Definition code_unit (c : ascii) : bool :=
  let n := nat_of_ascii c in
  ((48 <=? n) && (n <=? 57)) || ((65 <=? n) && (n <=? 90)) || (n =? 46).

Fixpoint code_text (s : string) : bool :=
  match s with
  | EmptyString => true
  | String c s' => code_unit c && code_text s'
  end.

(** [generateSessionCode()], where [random36] is what
    [Math.random().toString(36)] gives: [substring(2, 8)] keeps the 6
    units from the third one on, or those there are. *)
Definition generateSessionCode (random36 : string) : string :=
  toUpperCase (String.substring 2 6 random36).

(** [POST /api/create-session] with the body [{teacherName, className}];
    [uuid] is what [uuidv4()] draws. *)
Definition create_session (db : Sqlite.Db) (now : nat) (uuid random36 : string)
    (teacherName className : string) : Sqlite.Db * list output :=
  let sessionId := uuid in
  let sessionCode := generateSessionCode random36 in
  match Sqlite.insert_session db now sessionId sessionCode teacherName
          className with
  | inl err => (db, [Respond 500 (Failed err)])
  | inr db' =>
      (db', [Respond 200
               (Created sessionId sessionCode
                  ("http://localhost:3000/teacher/" ++ sessionCode)
                  ("http://localhost:3000/student/" ++ sessionCode))])
  end.

(** [GET /api/session/:code]. *)
Definition get_session (db : Sqlite.Db) (code : string) : list output :=
  match Sqlite.active_session db code with
  | None => [Respond 404 (Failed "Session not found")]
  | Some session => [Respond 200 (Found session)]
  end.

(** [POST /api/clear-session/:roomId] with the body [{courseName}]. *)
Definition clear_session (db : Sqlite.Db) (roomId courseName : string)
  : Sqlite.Db * list output :=
  let (db', changes) := Sqlite.delete_questions db roomId in
  (db',
   [Broadcast roomId (SessionCleared roomId courseName);
    Respond 200
      (Cleared true ("Session cleared for " ++ courseName) changes)]).

(** The handler of [submit-sentiment]; [now] is the time of the row and
    of the event. *)
Definition submit_sentiment (db : Sqlite.Db) (now : nat) (uuid : string)
    (data : SocketService.sentiment_data) : Sqlite.Db * list output :=
  match Sqlite.session_id db (SocketService.sd_sessionCode data) with
  | None => (db, [])
  | Some session =>
      let sentimentId := uuid in
      match Sqlite.insert_sentiment db now sentimentId session
              (SocketService.sd_studentId data)
              (SocketService.sd_sentimentType data) with
      | inl _ => (db, [])
      | inr db' =>
          (db',
           [Broadcast (SocketService.sd_sessionCode data)
              (SentimentUpdate (SocketService.sd_sentimentType data) now)])
      end
  end.

(** The handler of [upvote-question]: [this.changes] is the number of
    rows the statement changed. *)
Definition upvote_question (db : Sqlite.Db) (data : SocketService.upvote_data)
  : Sqlite.Db * list output :=
  let (db', changes) := Sqlite.upvote db (SocketService.ud_questionId data) in
  (db',
   [Broadcast (SocketService.ud_sessionCode data)
      (QuestionUpvoted (SocketService.ud_questionId data) changes)]).

(** A row as the handler of [submit-question] reads it. *)
Definition as_question (q : Sqlite.question_row) : question :=
  {| id := Some (Sqlite.q_id q); question_text := Sqlite.q_question_text q |}.

(** The world of one run of [submit-question] on the database [db]. *)
Definition world_of (db : Sqlite.Db) (now : nat) (uuid : string) : World :=
  {| uuid := uuid;
     select_questions :=
       fun session => inr (map as_question (Sqlite.questions_of db session));
     insert_question :=
       fun row =>
         match Sqlite.insert_question db now row with
         | inl err => Some err
         | inr _ => None
         end;
     now := now |}.

(** The database after a call of the handler: the insert it issued. *)
Definition after (now : nat) (db : Sqlite.Db) (ev : event) : Sqlite.Db :=
  match ev with
  | DbRun row =>
      match Sqlite.insert_question db now row with
      | inl _ => db
      | inr db' => db'
      end
  | _ => db
  end.

(** The handler of [submit-question] on the database. *)
Definition submit_question (nlp : Tagger) (cfg : Config) (db : Sqlite.Db)
    (now : nat) (uuid : string) (data : submission)
  : Sqlite.Db * list event :=
  let trace :=
    snd (Js.run (Server.submit_question nlp cfg (world_of db now uuid) data)) in
  (fold_left (after now) trace db, trace).

(** A request to the server with what it draws from outside. *)
Inductive request : Type :=
| CreateSession (now : nat) (uuid random36 teacherName className : string)
| ClearSession (roomId courseName : string)
| SubmitQuestion (cfg : Config) (now : nat) (uuid : string) (data : submission)
| SubmitSentiment (now : nat) (uuid : string)
    (data : SocketService.sentiment_data)
| UpvoteQuestion (data : SocketService.upvote_data).

(** The database after a request. A request is taken alone: all its
    statements run before those of the next request. *)
Definition serve (nlp : Tagger) (db : Sqlite.Db) (r : request) : Sqlite.Db :=
  match r with
  | CreateSession now uuid random36 teacherName className =>
      fst (create_session db now uuid random36 teacherName className)
  | ClearSession roomId courseName => fst (clear_session db roomId courseName)
  | SubmitQuestion cfg now uuid data =>
      fst (submit_question nlp cfg db now uuid data)
  | SubmitSentiment now uuid data => fst (submit_sentiment db now uuid data)
  | UpvoteQuestion data => fst (upvote_question db data)
  end.

Definition is_create (r : request) : bool :=
  match r with
  | CreateSession _ _ _ _ _ => true
  | _ => false
  end.

(** The upvotes stored for the question [id]. *)
Definition stored_upvotes (db : Sqlite.Db) (id : string) : option nat :=
  option_map Sqlite.q_upvotes
    (find (fun q => String.eqb (Sqlite.q_id q) id) (Sqlite.questions db)).

(** [n] upvotes of one question in a row: the database after them and
    what was broadcast. *)
Fixpoint upvote_times (n : nat) (db : Sqlite.Db)
    (data : SocketService.upvote_data) : Sqlite.Db * list output :=
  match n with
  | O => (db, [])
  | S n' =>
      let (db1, out1) := upvote_question db data in
      let (db2, out2) := upvote_times n' db1 data in
      (db2, out1 ++ out2)
  end.

End Backend.

(** * Properties *)

(** ** Strings *)

Module JsStringFacts.

Lemma lower_unit_idem (c : ascii) : lower_unit (lower_unit c) = lower_unit c.
Proof.
  destruct c as [[] [] [] [] [] [] [] []]; reflexivity.
Qed.

Lemma toLowerCase_idem (s : string) : toLowerCase (toLowerCase s) = toLowerCase s.
Proof.
  induction s as [|c s IH]; simpl; [reflexivity|].
  now rewrite lower_unit_idem, IH.
Qed.

Lemma toLowerCase_length (s : string) :
  String.length (toLowerCase s) = String.length s.
Proof.
  induction s as [|c s IH]; simpl; congruence.
Qed.

Lemma prefix_append (p s : string) :
  String.prefix p s = true <-> exists rest, s = (p ++ rest)%string.
Proof.
  revert s; induction p as [|c p IH]; intros s; destruct s as [|d s]; simpl.
  - split; [intros _; now exists "" | reflexivity].
  - split; [intros _; now exists (String d s) | reflexivity].
  - split; [discriminate | intros [r Hr]; discriminate].
  - destruct (ascii_dec c d) as [->|Hcd].
    + rewrite IH. split; intros [r Hr]; exists r; simpl; congruence.
    + split; [discriminate | intros [r Hr]; simpl in Hr; congruence].
Qed.

(** [includes] is substring search. *)
Lemma includes_spec (s pat : string) :
  includes s pat = true <-> exists before after, s = (before ++ pat ++ after)%string.
Proof.
  induction s as [|c s IH].
  - destruct pat as [|d pat]; simpl.
    + split; [intros _; now exists "", "" | reflexivity].
    + split; [discriminate | intros [b [a H]]; destruct b; discriminate].
  - change (includes (String c s) pat)
      with (String.prefix pat (String c s) || includes s pat).
    rewrite orb_true_iff, prefix_append, IH. split.
    + intros [[r Hr] | [b [a H]]].
      * now exists "", r.
      * exists (String c b), a. simpl. now rewrite H.
    + intros [b [a H]]. destruct b as [|d b]; simpl in H.
      * left. now exists a.
      * right. exists b, a. congruence.
Qed.

End JsStringFacts.

(** ** The stable sort *)

Module SortFacts.

Section Generic.

Context {A : Type}.
Variable comparefn : A -> A -> comparison.

Local Abbreviation insert := (JsArray.insert comparefn).
Local Abbreviation sort := (JsArray.sort comparefn).

Lemma insert_perm (x : A) (l : list A) : Permutation (insert x l) (x :: l).
Proof.
  induction l as [|y l IH]; simpl; [reflexivity|].
  destruct (comparefn x y); try reflexivity.
  rewrite IH. apply perm_swap.
Qed.

Lemma sort_perm (l : list A) : Permutation (sort l) l.
Proof.
  induction l as [|x l IH]; simpl; [reflexivity|].
  rewrite insert_perm. now constructor.
Qed.

Lemma sort_In (l : list A) (x : A) : In x (sort l) <-> In x l.
Proof.
  split; apply Permutation_in;
    [apply sort_perm | symmetry; apply sort_perm].
Qed.

Lemma sort_length (l : list A) : length (sort l) = length l.
Proof. apply Permutation_length, sort_perm. Qed.

(** Sortedness, for a list whose elements the comparison function
    orders consistently. *)
Section Sorted.

Variable ok : A -> Prop.
Variable before : A -> A -> Prop.
Hypothesis not_after : forall x y, ok x -> ok y ->
  comparefn x y <> Gt -> before x y.
Hypothesis after : forall x y, ok x -> ok y ->
  comparefn x y = Gt -> before y x.
Hypothesis before_trans : forall x y z, ok x -> ok y -> ok z ->
  before x y -> before y z -> before x z.

Lemma insert_sorted (x : A) (l : list A) :
  ok x -> Forall ok l -> StronglySorted before l ->
  StronglySorted before (insert x l).
Proof.
  intros Hx Hl Hs. induction l as [|y l IH]; simpl.
  - constructor; constructor.
  - inversion Hl as [|? ? Hy Hl']; subst.
    inversion Hs as [|? ? Hs' Hall]; subst.
    destruct (comparefn x y) eqn:E.
    + constructor; [assumption|]. constructor.
      * apply not_after; congruence.
      * rewrite Forall_forall in *. intros z Hz.
        apply before_trans with y; auto.
        apply not_after; congruence.
    + constructor; [assumption|]. constructor.
      * apply not_after; congruence.
      * rewrite Forall_forall in *. intros z Hz.
        apply before_trans with y; auto.
        apply not_after; congruence.
    + constructor; [now apply IH|].
      rewrite Forall_forall in *. intros z Hz.
      apply (Permutation_in _ (insert_perm x l)) in Hz.
      destruct Hz as [<-|Hz]; auto.
Qed.

Lemma sort_sorted (l : list A) :
  Forall ok l -> StronglySorted before (sort l).
Proof.
  induction l as [|x l IH]; simpl; intros Hl; [constructor|].
  inversion Hl; subst. apply insert_sorted; auto.
  rewrite Forall_forall in *. intros z Hz. rewrite sort_In in Hz. auto.
Qed.

End Sorted.

(** Stability: a class of elements that the comparison function never
    moves an element of past another keeps its order. *)
Section Stable.

Variable class : A -> bool.
Hypothesis apart : forall x y,
  comparefn x y = Gt -> class x = true -> class y = false.

Lemma insert_filter (x : A) (l : list A) :
  filter class (insert x l) = filter class (x :: l).
Proof.
  induction l as [|y l IH]; [reflexivity|].
  simpl insert. destruct (comparefn x y) eqn:E; try reflexivity.
  simpl. simpl in IH. rewrite IH.
  destruct (class x) eqn:Cx; [|reflexivity].
  now rewrite (apart x y E Cx).
Qed.

Lemma sort_filter (l : list A) : filter class (sort l) = filter class l.
Proof.
  induction l as [|x l IH]; [reflexivity|].
  simpl sort. rewrite insert_filter. simpl. now rewrite IH.
Qed.

End Stable.

End Generic.

(** Sorting commutes with a map that respects the comparison. *)
Lemma sort_map {A B : Type} (f : A -> B)
    (cmpA : A -> A -> comparison) (cmpB : B -> B -> comparison)
    (l : list A) :
  (forall a a', In a l -> In a' l -> cmpB (f a) (f a') = cmpA a a') ->
  JsArray.sort cmpB (map f l) = map f (JsArray.sort cmpA l).
Proof.
  induction l as [|x l IH]; intros H; [reflexivity|].
  simpl. rewrite IH by (intros; apply H; now right).
  assert (Hin : forall a, In a (JsArray.sort cmpA l) -> In a l)
    by (intros a; apply sort_In).
  assert (Hx : forall a, In a (JsArray.sort cmpA l) ->
               cmpB (f x) (f a) = cmpA x a)
    by (intros a Ha; apply H; [now left | right; auto]).
  clear IH H Hin. induction (JsArray.sort cmpA l) as [|y s IHs]; [reflexivity|].
  simpl. rewrite Hx by now left.
  destruct (cmpA x y); try reflexivity.
  simpl. f_equal. apply IHs. intros a Ha. apply Hx. now right.
Qed.

(** In a sorted list the first [n] elements come before the others. *)
Lemma firstn_before {A : Type} (before : A -> A -> Prop) (n : nat)
    (l : list A) (x y : A) :
  StronglySorted before l ->
  In x (firstn n l) -> In y l -> ~ In y (firstn n l) -> before x y.
Proof.
  intros Hs. revert n. induction Hs as [|a l Hs IH Hall]; intros n Hx Hy Hn.
  - destruct n; contradiction.
  - destruct n as [|n]; [contradiction|]. simpl in Hx, Hn.
    destruct Hy as [->|Hy]; [exfalso; apply Hn; now left|].
    destruct Hx as [<-|Hx].
    + rewrite Forall_forall in Hall. auto.
    + apply (IH n); auto.
Qed.

End SortFacts.

(** ** The rule-based categorizer *)

Module CategorizerFacts.

Import RuleTable.

Lemma categorizeQuestion_first_match (text : string) :
  FreeAI.categorizeQuestion text = first_match rules (toLowerCase text).
Proof.
  unfold FreeAI.categorizeQuestion, rules, first_match, existsb.
  repeat rewrite orb_false_r. repeat rewrite orb_assoc. reflexivity.
Qed.

Lemma first_match_category (rs : list (string * list string)) (lower : string) :
  In (first_match rs lower) (map fst rs ++ ["general"]).
Proof.
  induction rs as [|[category phrases] rs IH]; simpl; [now left|].
  destruct (existsb (includes lower) phrases); [now left | now right].
Qed.

(** When a rule fires no later rule is looked at. *)
Lemma first_match_wins (category : string) (phrases : list string)
    (rs : list (string * list string)) (lower phrase : string) :
  In phrase phrases -> includes lower phrase = true ->
  first_match ((category, phrases) :: rs) lower = category.
Proof.
  intros Hin Hinc. simpl.
  assert (E : existsb (includes lower) phrases = true)
    by (apply existsb_exists; eauto).
  now rewrite E.
Qed.

(** C5. [categorizeQuestion] is a total function of the text alone. It
    lower-cases the text, walks the rule table in the order definition,
    process, reasoning, examples, clarification, and answers with the
    first category one of whose phrases occurs in the text, or with
    general when none does; the case of the letters makes no difference;
    the six texts of the specification get the categories listed there. *)
Theorem categorizeQuestion_precedence :
  (forall text,
     FreeAI.categorizeQuestion text = first_match rules (toLowerCase text))
  /\ map fst rules
     = ["definition"; "process"; "reasoning"; "examples"; "clarification"]
  /\ (forall text, In (FreeAI.categorizeQuestion text) categories)
  /\ (forall text,
        FreeAI.categorizeQuestion (toLowerCase text)
        = FreeAI.categorizeQuestion text)
  /\ (forall category phrases rs lower phrase,
        In phrase phrases ->
        (exists before after,
            lower = (before ++ phrase ++ after)%string) ->
        first_match ((category, phrases) :: rs) lower = category)
  /\ FreeAI.categorizeQuestion "What is ROI?" = "definition"
  /\ FreeAI.categorizeQuestion "How to compute IRR" = "process"
  /\ FreeAI.categorizeQuestion "Why does this happen" = "reasoning"
  /\ FreeAI.categorizeQuestion "Can you give an example" = "examples"
  /\ FreeAI.categorizeQuestion "I'm confused about this" = "clarification"
  /\ FreeAI.categorizeQuestion "Tell me about bonds" = "general".
Proof.
  split; [exact categorizeQuestion_first_match|].
  split; [reflexivity|].
  split.
  { intros text. rewrite categorizeQuestion_first_match.
    apply first_match_category. }
  split.
  { intros text. rewrite !categorizeQuestion_first_match.
    now rewrite JsStringFacts.toLowerCase_idem. }
  split.
  { intros category phrases rs lower phrase Hin Hsub.
    apply first_match_wins with phrase; [assumption|].
    now apply JsStringFacts.includes_spec. }
  repeat split; vm_compute; reflexivity.
Qed.

(** The hypotheses of the first-match clause hold of a text that matches
    the phrase [why] of the third rule and no earlier rule. *)
Lemma categorizeQuestion_precedence_witness :
  first_match
    [("reasoning", ["why"; "reason"; "because"; "purpose"]);
     ("examples", ["example"; "instance"; "case"; "sample"])]
    "why does this happen" = "reasoning".
Proof.
  destruct categorizeQuestion_precedence as (_ & _ & _ & _ & H & _).
  apply (H "reasoning" ["why"; "reason"; "because"; "purpose"] _
           "why does this happen" "why").
  - simpl. now left.
  - exists "", " does this happen". reflexivity.
Defined.

End CategorizerFacts.

(** ** The keyword extractor *)

Module KeywordFacts.

Lemma extractKeywords_length (nlp : Tagger) (text : string) :
  length (FreeAI.extractKeywords nlp text) <= 5.
Proof.
  unfold FreeAI.extractKeywords, JsArray.slice0. apply firstn_le_length.
Qed.

Lemma In_firstn {A : Type} (n : nat) (l : list A) (x : A) :
  In x (firstn n l) -> In x l.
Proof.
  intros H. rewrite <- (firstn_skipn n l). apply in_or_app. now left.
Qed.

Lemma extractKeywords_long (nlp : Tagger) (text word : string) :
  In word (FreeAI.extractKeywords nlp text) -> 3 <= String.length word.
Proof.
  unfold FreeAI.extractKeywords, JsArray.slice0. intros H.
  apply In_firstn, filter_In in H. destruct H as [_ H].
  apply Nat.ltb_lt in H. lia.
Qed.

Lemma extractKeywords_reported (nlp : Tagger) (text word : string) :
  In word (FreeAI.extractKeywords nlp text) -> In word (reported nlp text).
Proof.
  unfold FreeAI.extractKeywords, JsArray.slice0, reported. intros H.
  apply In_firstn, filter_In in H. exact (proj1 H).
Qed.

(** No keyword comes out exactly when no reported term is longer than 2:
    the code has no other filter. *)
Lemma extractKeywords_empty (nlp : Tagger) (text : string) :
  FreeAI.extractKeywords nlp text = []
  <-> Forall (fun word => String.length word <= 2) (reported nlp text).
Proof.
  unfold FreeAI.extractKeywords, JsArray.slice0.
  fold (reported nlp text).
  induction (reported nlp text) as [|word terms IH]; cbn [filter].
  - split; [constructor | reflexivity].
  - destruct (2 <? String.length word) eqn:E.
    + split; [discriminate|]. intros H. apply Forall_inv in H.
      apply Nat.ltb_lt in E. lia.
    + apply Nat.ltb_ge in E. rewrite IH. split.
      * intros H. now constructor.
      * intros H. now apply Forall_inv_tail in H.
Qed.

(** C9, as the code has it. For every tagger and every text,
    [extractKeywords] returns at most 5 entries, each of length at least
    3 and each a term the tagger reports for the text. It returns none
    exactly when the tagger reports no term longer than 2: so for the
    empty text, when the tagger reports no term for it. The code has no
    filter but the one on the length: nothing is said of punctuation, and
    a text of punctuation yields the terms of 3 characters or more that
    the tagger reports for it. *)
Theorem extractKeywords_bounds (nlp : Tagger) (text : string) :
  length (FreeAI.extractKeywords nlp text) <= 5
  /\ Forall (fun word => 3 <= String.length word)
       (FreeAI.extractKeywords nlp text)
  /\ (forall word, In word (FreeAI.extractKeywords nlp text) ->
                   In word (reported nlp text))
  /\ (FreeAI.extractKeywords nlp text = []
      <-> Forall (fun word => String.length word <= 2) (reported nlp text))
  /\ (reported nlp "" = [] -> FreeAI.extractKeywords nlp "" = []).
Proof.
  split; [apply extractKeywords_length|].
  split; [apply Forall_forall; intros word; apply extractKeywords_long|].
  split; [intros word; apply extractKeywords_reported|].
  split; [apply extractKeywords_empty|].
  intros Hnone. apply extractKeywords_empty. rewrite Hnone. constructor.
Qed.

(** C9 as stated fails at the text [...], which is made of punctuation:
    the tagger reports it as a term, as [compromise] does, the term has 3
    characters, and it is returned as a keyword. This holds with every
    tagger that reports this term. *)
Lemma punctuation_only_keyword :
  blank "..." = true
  /\ FreeAI.extractKeywords PhraseTagger.tagger "..." = ["..."]
  /\ forall nlp : Tagger,
       In "..." (reported nlp "...") -> FreeAI.extractKeywords nlp "..." <> [].
Proof.
  split; [reflexivity|]. split; [reflexivity|].
  intros nlp Hin Hnone. apply extractKeywords_empty in Hnone.
  rewrite Forall_forall in Hnone. specialize (Hnone _ Hin).
  simpl in Hnone. lia.
Qed.

End KeywordFacts.

(** ** Sets of keywords *)

Module SetFacts.

Import JaccardSpec.

Lemma has_In (s : list string) (x : string) : JsSet.has s x = true <-> In x s.
Proof.
  unfold JsSet.has. rewrite existsb_exists. split.
  - intros [y [Hy E]]. apply String.eqb_eq in E. now subst.
  - intros H. exists x. split; [assumption | apply String.eqb_refl].
Qed.

Lemma member_In (x : string) (l : list string) : member x l = true <-> In x l.
Proof.
  unfold member. destruct (in_dec string_dec x l); split; intros; auto.
  discriminate.
Qed.

Lemma add_In (s : list string) (x y : string) :
  In y (JsSet.add s x) <-> In y s \/ y = x.
Proof.
  unfold JsSet.add. destruct (JsSet.has s x) eqn:E.
  - apply has_In in E. split; [now left | intros [H| ->]; assumption].
  - rewrite in_app_iff. simpl. intuition congruence.
Qed.

Lemma add_NoDup (s : list string) (x : string) :
  NoDup s -> NoDup (JsSet.add s x).
Proof.
  intros H. unfold JsSet.add. destruct (JsSet.has s x) eqn:E; [assumption|].
  apply NoDup_app; [assumption | constructor; [intros []|constructor] |].
  intros y Hy [<-|[]]. apply has_In in Hy. congruence.
Qed.

Lemma fold_add_In (l acc : list string) (y : string) :
  In y (fold_left JsSet.add l acc) <-> In y acc \/ In y l.
Proof.
  revert acc. induction l as [|x l IH]; intros acc; simpl.
  - tauto.
  - rewrite IH, add_In. intuition congruence.
Qed.

Lemma fold_add_NoDup (l acc : list string) :
  NoDup acc -> NoDup (fold_left JsSet.add l acc).
Proof.
  revert acc. induction l as [|x l IH]; intros acc H; simpl; [assumption|].
  apply IH, add_NoDup, H.
Qed.

Lemma of_array_In (l : list string) (y : string) :
  In y (JsSet.of_array l) <-> In y l.
Proof. unfold JsSet.of_array. rewrite fold_add_In. simpl. tauto. Qed.

Lemma of_array_NoDup (l : list string) : NoDup (JsSet.of_array l).
Proof. apply fold_add_NoDup. constructor. Qed.

(** The size of a set is the number of distinct members of the array it
    was built from. *)
Lemma size_distinct (l l' : list string) :
  (forall y, In y l <-> In y l') ->
  JsSet.size (JsSet.of_array l) = distinct l'.
Proof.
  intros H. unfold JsSet.size, distinct. apply Permutation_length.
  apply NoDup_Permutation; [apply of_array_NoDup | apply NoDup_nodup |].
  intros y. now rewrite of_array_In, nodup_In.
Qed.

Lemma common_le_either (a b : list string) : common a b <= either a b.
Proof.
  unfold common, either, distinct. apply NoDup_incl_length.
  - apply NoDup_nodup.
  - intros y. rewrite !nodup_In, filter_In, in_app_iff. tauto.
Qed.

(** The quotient the code computes is the quotient of the sizes of the
    intersection and of the union. *)
Lemma jaccard_sizes (a b : list string) :
  FreeAI.jaccard (JsSet.of_array a) (JsSet.of_array b)
  = JsNumber.div (common a b) (either a b).
Proof.
  unfold FreeAI.jaccard, common, either. f_equal.
  - apply size_distinct. intros y.
    rewrite !filter_In, of_array_In, has_In, of_array_In, member_In. tauto.
  - apply size_distinct. intros y.
    rewrite !in_app_iff, !of_array_In. tauto.
Qed.

(** [i / u > 0.3] in integers. *)
Lemma gt_div (i u : nat) :
  JsNumber.gt (JsNumber.div i u) (3 # 10) = (3 * u <? 10 * i).
Proof.
  destruct u as [|u].
  - destruct i; reflexivity.
  - unfold JsNumber.div, JsNumber.gt.
    assert (E : Qle_bool (Qred (Z.of_nat i # Pos.of_nat (S u))) (3 # 10)
                = (10 * i <=? 3 * S u)).
    { apply eq_true_iff_eq. rewrite Qle_bool_iff, Qred_correct, Nat.leb_le.
      unfold Qle. cbn [Qnum Qden].
      rewrite <- (Nat2Pos.id (S u)) at 2 by discriminate.
      rewrite <- positive_nat_Z. lia. }
    rewrite E. rewrite Nat.ltb_antisym. reflexivity.
Qed.

End SetFacts.

(** ** The similarity matcher *)

Module SimilarityFacts.

Import JaccardSpec.

Section WithTagger.

Variable nlp : Tagger.

Lemma similarity_of (newText qtext : string) :
  FreeAI.jaccard
    (JsSet.of_array (FreeAI.extractKeywords nlp (toLowerCase newText)))
    (JsSet.of_array (FreeAI.extractKeywords nlp (toLowerCase qtext)))
  = JsNumber.div (common (keywords_of nlp newText) (keywords_of nlp qtext))
      (either (keywords_of nlp newText) (keywords_of nlp qtext)).
Proof. apply SetFacts.jaccard_sizes. Qed.

(** One round of the loop pushes the result of a member above the
    threshold and nothing else. *)
Lemma compare_with_pushes (newText : string) (acc : list similar)
    (q : question) :
  FreeAI.compare_with nlp
    (JsSet.of_array (FreeAI.extractKeywords nlp (toLowerCase newText)))
    acc q
  = acc ++ map (result_of nlp newText) (matches nlp newText [q]).
Proof.
  unfold FreeAI.compare_with, matches. simpl.
  rewrite similarity_of, SetFacts.gt_div.
  fold (above_threshold (keywords_of nlp newText)
          (keywords_of nlp (question_text q))).
  destruct (above_threshold _ _) eqn:E; simpl; [|now rewrite app_nil_r].
  unfold result_of, ratio. do 3 f_equal.
  unfold above_threshold in E. apply Nat.ltb_lt in E.
  pose proof (SetFacts.common_le_either (keywords_of nlp newText)
                (keywords_of nlp (question_text q))) as Hle.
  destruct (either _ _) as [|u]; [lia|]. reflexivity.
Qed.

Lemma similarities_pushed (newText : string) (corpus : list question)
    (acc : list similar) :
  fold_left
    (FreeAI.compare_with nlp
       (JsSet.of_array (FreeAI.extractKeywords nlp (toLowerCase newText))))
    corpus acc
  = acc ++ map (result_of nlp newText) (matches nlp newText corpus).
Proof.
  revert acc. induction corpus as [|q corpus IH]; intros acc.
  - simpl. now rewrite app_nil_r.
  - cbn [fold_left]. rewrite IH, compare_with_pushes, <- app_assoc.
    f_equal. rewrite <- map_app. f_equal.
    unfold matches. simpl.
    now destruct (above_threshold _ _).
Qed.

Lemma findSimilarQuestions_sorted_matches (newText : string)
    (corpus : list question) :
  FreeAI.findSimilarQuestions nlp newText corpus
  = JsArray.sort FreeAI.by_similarity_desc
      (map (result_of nlp newText) (matches nlp newText corpus)).
Proof.
  unfold FreeAI.findSimilarQuestions. now rewrite similarities_pushed.
Qed.

End WithTagger.

Lemma above_threshold_ratio (a b : list string) :
  above_threshold a b = true -> (3 # 10 < Qred (ratio a b))%Q.
Proof.
  unfold above_threshold, ratio. intros H. apply Nat.ltb_lt in H.
  rewrite Qred_correct. unfold Qlt. cbn [Qnum Qden].
  pose proof (SetFacts.common_le_either a b) as Hle.
  destruct (either a b) as [|u]; [lia|].
  rewrite <- (Nat2Pos.id (S u)) in H by discriminate.
  rewrite <- positive_nat_Z. lia.
Qed.

Lemma by_similarity_desc_apart (x : Q) (a b : similar) :
  FreeAI.by_similarity_desc a b = Gt ->
  has_score x a = true -> has_score x b = false.
Proof.
  unfold FreeAI.by_similarity_desc, has_score, JsNumber.sub_sign.
  destruct (similarity b) as [| |qb], (similarity a) as [| |qa];
    try discriminate; try reflexivity.
  intros Hc Ha. apply Qeq_bool_iff in Ha.
  destruct (Qeq_bool qb x) eqn:Hb; [|reflexivity].
  apply Qeq_bool_iff in Hb. rewrite <- Qgt_alt in Hc.
  rewrite Ha, Hb in Hc. now apply Qlt_irrefl in Hc.
Qed.

(** C3. [findSimilarQuestions] returns the results of exactly the corpus
    members whose Jaccard similarity over keyword sets is strictly greater
    than 0.30 (a quotient equal to 0.30 is not above the threshold), in
    descending order of score, the results of one score keeping the order
    of the corpus; an empty corpus yields an empty result. *)
Theorem findSimilarQuestions_threshold_order (nlp : Tagger)
    (newText : string) (corpus : list question) :
  let found := FreeAI.findSimilarQuestions nlp newText corpus in
  let expected := map (result_of nlp newText) (matches nlp newText corpus) in
  Permutation found expected
  /\ StronglySorted (fun a b => score_le b a) found
  /\ (forall x, filter (has_score x) found = filter (has_score x) expected)
  /\ (forall r, In r found ->
        exists q, similarity r = JsNumber.Fin q /\ (3 # 10 < q)%Q)
  /\ (forall a b, 10 * common a b = 3 * either a b ->
                  above_threshold a b = false)
  /\ FreeAI.findSimilarQuestions nlp newText [] = [].
Proof.
  intros found expected. subst found.
  rewrite findSimilarQuestions_sorted_matches. fold expected.
  split; [apply SortFacts.sort_perm|].
  split.
  { apply SortFacts.sort_sorted
      with (ok := fun r => exists q, similarity r = JsNumber.Fin q).
    - intros a b [qa Ha] [qb Hb] Hc. exists qb, qa.
      unfold FreeAI.by_similarity_desc in Hc. rewrite Ha, Hb in Hc.
      simpl in Hc. repeat split; try assumption; now apply Qle_alt.
    - intros a b [qa Ha] [qb Hb] Hc. exists qa, qb.
      unfold FreeAI.by_similarity_desc in Hc. rewrite Ha, Hb in Hc.
      simpl in Hc. repeat split; try assumption.
      apply Qlt_le_weak. now apply Qgt_alt.
    - intros a b c _ _ _ (pb & qa & Hb & Ha & H1) (pc & qb & Hc & Hb' & H2).
      exists pc, qa. repeat split; try assumption.
      assert (pb = qb) by congruence. subst.
      now apply Qle_trans with qb.
    - apply Forall_forall. intros r Hr. subst expected.
      apply in_map_iff in Hr. destruct Hr as [q [<- _]].
      eexists. reflexivity. }
  split.
  { intros x. apply SortFacts.sort_filter. apply by_similarity_desc_apart. }
  split.
  { intros r Hr. rewrite SortFacts.sort_In in Hr. subst expected.
    apply in_map_iff in Hr. destruct Hr as [q [<- Hq]].
    eexists. split; [reflexivity|].
    apply filter_In in Hq. destruct Hq as [_ Hq].
    now apply above_threshold_ratio. }
  split.
  { intros a b H. unfold above_threshold. apply Nat.ltb_ge. lia. }
  reflexivity.
Qed.

(** Two keyword lists with 3 common words out of 10: the quotient is
    0.30 and the pair is not above the threshold. *)
Lemma findSimilarQuestions_threshold_order_witness :
  above_threshold ["k1"; "k2"; "k3"; "a1"; "a2"; "a3"; "a4"]
    ["k1"; "k2"; "k3"; "b1"; "b2"; "b3"] = false.
Proof.
  destruct (findSimilarQuestions_threshold_order WordTagger.tagger "" [])
    as (_ & _ & _ & _ & H & _).
  apply H. vm_compute. reflexivity.
Defined.

(** C4, as the code has it. When the keyword sets of the new text and of
    a corpus member are both empty, the quotient of the two sizes is
    computed without failure and is [NaN]; [NaN > 0.3] is false, so the
    round of the loop pushes nothing and the member is absent from the
    result: the result is the one for the corpus without that member. *)
Theorem empty_keyword_sets_excluded (nlp : Tagger) (newText : string)
    (q : question) (acc : list similar) (earlier later : list question) :
  keywords_of nlp newText = [] ->
  keywords_of nlp (question_text q) = [] ->
  let newKeywords := JsSet.of_array (keywords_of nlp newText) in
  let existingKeywords := JsSet.of_array (keywords_of nlp (question_text q)) in
  FreeAI.jaccard newKeywords existingKeywords = JsNumber.NaN
  /\ JsNumber.gt (FreeAI.jaccard newKeywords existingKeywords) (3 # 10) = false
  /\ FreeAI.compare_with nlp newKeywords acc q = acc
  /\ FreeAI.findSimilarQuestions nlp newText (earlier ++ q :: later)
     = FreeAI.findSimilarQuestions nlp newText (earlier ++ later).
Proof.
  intros Hnew Hq newKeywords existingKeywords.
  assert (Hj : FreeAI.jaccard newKeywords existingKeywords = JsNumber.NaN).
  { subst newKeywords existingKeywords. rewrite Hnew, Hq. reflexivity. }
  assert (Hm : matches nlp newText [q] = []).
  { unfold matches. simpl. now rewrite Hnew, Hq. }
  split; [exact Hj|]. split; [now rewrite Hj|]. split.
  - subst newKeywords. unfold keywords_of.
    rewrite compare_with_pushes, Hm. simpl. apply app_nil_r.
  - rewrite !findSimilarQuestions_sorted_matches. do 2 f_equal.
    unfold matches in *. rewrite !filter_app. f_equal.
    change (q :: later) with ([q] ++ later). now rewrite filter_app, Hm.
Qed.

Lemma empty_keyword_sets_excluded_witness :
  FreeAI.findSimilarQuestions PhraseTagger.tagger ""
    ([] ++ {| id := Some "q1"; question_text := "" |}
        :: [ {| id := Some "q2"; question_text := "..." |} ])
  = FreeAI.findSimilarQuestions PhraseTagger.tagger ""
      ([] ++ [ {| id := Some "q2"; question_text := "..." |} ]).
Proof.
  apply (empty_keyword_sets_excluded PhraseTagger.tagger ""
           {| id := Some "q1"; question_text := "" |} []);
    reflexivity.
Defined.

(** C4 as stated fails at the empty text against the empty text. The
    tagger reports no term for the empty text, both keyword sets are
    empty, and the similarity the loop computes is [NaN], not 0. This
    holds with every tagger that reports no term for the empty text. *)
Lemma empty_keyword_sets_similarity_not_zero :
  keywords_of PhraseTagger.tagger "" = []
  /\ FreeAI.jaccard (JsSet.of_array (keywords_of PhraseTagger.tagger ""))
       (JsSet.of_array (keywords_of PhraseTagger.tagger ""))
     <> JsNumber.Fin 0
  /\ forall nlp : Tagger,
       reported nlp "" = [] ->
       keywords_of nlp "" = []
       /\ FreeAI.jaccard (JsSet.of_array (keywords_of nlp ""))
            (JsSet.of_array (keywords_of nlp ""))
          = JsNumber.NaN.
Proof.
  split; [reflexivity|]. split; [vm_compute; discriminate|].
  intros nlp Hnone.
  assert (E : keywords_of nlp "" = []).
  { unfold keywords_of, FreeAI.extractKeywords. cbn [toLowerCase].
    fold (reported nlp ""). now rewrite Hnone. }
  split; [exact E|]. rewrite E. reflexivity.
Qed.

End SimilarityFacts.

(** ** The classification orchestrator *)

Module ClassifyFacts.

Ltac run_js :=
  unfold Js.run, Server.classify, EnhancedAI.categorizeQuestion,
    EnhancedAI.analyzeSentiment, Js.try_catch, Js.bind, Js.call, Js.await,
    Js.first, Js.ret, Js.throw in *.

(** C2. With the kill switch off, whatever the credential, or with no
    credential, [classify] returns the rule-based category and [neutral]
    and leaves the trace of calls as it was: it calls the remote service
    zero times. *)
Theorem classify_kill_switch (cfg : Config) (text : string)
    (tr : list event) :
  EnhancedAI.AI_ENABLED cfg = false \/ hf cfg = None ->
  Server.classify cfg text tr
  = (inr (FreeAI.categorizeQuestion text, "neutral"), tr)
  /\ Js.remote_calls (snd (Js.run (Server.classify cfg text))) = 0.
Proof.
  intros H.
  assert (E : forall tr', Server.classify cfg text tr'
              = (inr (FreeAI.categorizeQuestion text, "neutral"), tr')).
  { intros tr'. run_js. destruct H as [H|H]; rewrite H; simpl; [reflexivity|].
    destruct (EnhancedAI.AI_ENABLED cfg); reflexivity. }
  split; [apply E|]. unfold Js.run. now rewrite E.
Qed.

Lemma classify_kill_switch_witness :
  Js.run (Server.classify
            {| env_AI_ENABLED := Some "false"; hf := Some Sample.failing_client |}
            "What is ROI?")
  = (inr ("definition", "neutral"), []).
Proof.
  apply (classify_kill_switch
           {| env_AI_ENABLED := Some "false"; hf := Some Sample.failing_client |}
           "What is ROI?" []).
  left. reflexivity.
Defined.

(** C7. With the remote service enabled, [classify] never throws: it
    makes the two calls and returns a pair, whatever either call does.
    The category is the one the outcome of the category call alone
    gives, and the sentiment the one the outcome of the sentiment call
    alone gives: a rejected category call gives the rule-based category
    and leaves the sentiment to the sentiment call, a rejected sentiment
    call gives [neutral] and leaves the category to the category call. *)
Theorem classify_remote_errors (cfg : Config) (client : HfInference)
    (text : string) :
  EnhancedAI.AI_ENABLED cfg = true -> hf cfg = Some client ->
  Js.run (Server.classify cfg text)
  = (inr (ClassifySpec.category_after text
            (zeroShotClassification client text),
          ClassifySpec.sentiment_after (textClassification client text)),
     [CallZeroShot text; CallTextClassification text])
  /\ (forall e, zeroShotClassification client text = inl e ->
        ClassifySpec.category_after text (zeroShotClassification client text)
        = FreeAI.categorizeQuestion text)
  /\ (forall e, textClassification client text = inl e ->
        ClassifySpec.sentiment_after (textClassification client text)
        = "neutral").
Proof.
  intros Hon Hhf. split.
  - run_js. rewrite Hon, Hhf. simpl.
    destruct (zeroShotClassification client text) as [e1|[ls ss]]; simpl;
      [|destruct ls as [|l ls]; [|destruct ss as [|sc ss]]; simpl];
      (destruct (textClassification client text) as [e2|cs]; simpl;
       [|destruct cs as [|[lb sc'] cs]; simpl;
         [|destruct (_ && _); [|destruct (_ && _)]]]);
      reflexivity.
  - split; intros e ->; reflexivity.
Qed.

Lemma classify_remote_errors_witness :
  Js.run (Server.classify
            {| env_AI_ENABLED := None; hf := Some Sample.half_failing_client |}
            "Why does this happen")
  = (inr ("reasoning", "confused"),
     [CallZeroShot "Why does this happen";
      CallTextClassification "Why does this happen"]).
Proof.
  apply (classify_remote_errors
           {| env_AI_ENABLED := None; hf := Some Sample.half_failing_client |}
           Sample.half_failing_client "Why does this happen");
    reflexivity.
Defined.

(** The other fallback alone: an answered category call with a rejected
    sentiment call. *)
Example classify_sentiment_fallback_only :
  Js.run (Server.classify
            {| env_AI_ENABLED := None; hf := Some Sample.half_answering_client |}
            "Why does this happen")
  = (inr ("examples", "neutral"),
     [CallZeroShot "Why does this happen";
      CallTextClassification "Why does this happen"]).
Proof. vm_compute. reflexivity. Qed.

End ClassifyFacts.

(** ** The ingestion pipeline *)

Module PipelineFacts.

(** [classify] returns a pair from every trace, in every configuration
    and whatever the remote calls do. *)
Lemma classify_total (cfg : Config) (text : string) (tr : list event) :
  exists category sentiment tr',
    Server.classify cfg text tr = (inr (category, sentiment), tr').
Proof.
  ClassifyFacts.run_js.
  destruct (EnhancedAI.AI_ENABLED cfg); simpl;
    [|do 3 eexists; reflexivity].
  destruct (hf cfg) as [client|]; simpl; [|do 3 eexists; reflexivity].
  destruct (zeroShotClassification client text) as [e1|[ls ss]]; simpl;
    [|destruct ls as [|l ls]; [|destruct ss as [|s ss]]; simpl];
    (destruct (textClassification client text) as [e2|cs]; simpl;
     [|destruct cs as [|[lb sc] cs]; simpl;
       [|destruct (_ && _); [|destruct (_ && _)]]]);
    do 3 eexists; reflexivity.
Qed.

(** The handler classifies, reads the corpus and hands the answer of the
    read to its callback. *)
Lemma submit_question_steps (nlp : Tagger) (cfg : Config) (w : World)
    (data : submission) :
  exists category sentiment calls,
    Js.run (Server.classify cfg (questionText data))
    = (inr (category, sentiment), calls)
    /\ Js.run (Server.submit_question nlp cfg w data)
       = Server.on_selected nlp w data (uuid w) category sentiment
           (select_questions w (sessionCode data))
           (calls ++ [DbAll (sessionCode data)]).
Proof.
  destruct (classify_total cfg (questionText data) [])
    as (category & sentiment & calls & E).
  exists category, sentiment, calls. split; [exact E|].
  unfold Js.run, Server.submit_question, Js.try_catch, Js.bind at 1.
  unfold Js.run in E. rewrite E.
  unfold Js.bind, Js.call.
  destruct (Server.on_selected nlp w data (uuid w) category sentiment
              (select_questions w (sessionCode data))
              (calls ++ [DbAll (sessionCode data)])) as [[e|[]] tr] eqn:R;
    [|reflexivity].
  exfalso. revert R.
  unfold Server.on_selected, Server.on_inserted, Js.bind, Js.call, Js.ret.
  destruct (insert_question w _); discriminate.
Qed.

(** The cluster handed to the summarizer ends with the new question. *)
Lemma generateTopicSummary_some (nlp : Tagger) (related : list question)
    (q : question) :
  exists t, FreeAI.generateTopicSummary nlp (related ++ [q]) = Some t
            /\ title t
               = join " & " (FreeAI.topKeywords
                               (FreeAI.allKeywords nlp (related ++ [q]))).
Proof.
  unfold FreeAI.generateTopicSummary.
  destruct (related ++ [q]) eqn:E.
  - now apply app_eq_nil in E.
  - eexists. split; reflexivity.
Qed.

(** C1 at a failing input. The room is empty, the student page sends its
    constant [neutral], the sentiment model answers [negative] with
    confidence 0.9: the analyzed sentiment is [confused], the row written
    to the database has it, and the record that is broadcast has
    [neutral], the value of the client. *)
Theorem broadcast_sentiment_is_client_value :
  exists calls row record,
    Js.run (Server.classify (Sample.enabled Sample.answering_client)
              "What is ROI?")
    = (inr ("definition", "confused"), calls)
    /\ Js.run (Server.submit_question WordTagger.tagger
                 (Sample.enabled Sample.answering_client)
                 (Sample.room_with []) (Sample.asks "What is ROI?"))
       = (inr tt, calls ++ [DbAll "ROOM42"; DbRun row; Emit "ROOM42" record])
    /\ ins_sentiment row = "confused"
    /\ qd_sentiment record = "neutral"
    /\ qd_sentiment record <> "confused".
Proof.
  do 3 eexists. split; [vm_compute; reflexivity|].
  split; [vm_compute; reflexivity|].
  split; [reflexivity|]. split; [reflexivity | discriminate].
Qed.

(** In every run the record that is broadcast carries the [sentiment] of
    the payload, and the row carries the analyzed sentiment. *)
Lemma submit_question_sentiments (nlp : Tagger) (cfg : Config) (w : World)
    (data : submission) :
  exists category analyzed calls,
    Js.run (Server.classify cfg (questionText data))
    = (inr (category, analyzed), calls)
    /\ (forall row,
          In (DbRun row) (snd (Js.run (Server.submit_question nlp cfg w data)))
          -> ins_sentiment row = analyzed)
    /\ (forall room record,
          In (Emit room record)
            (snd (Js.run (Server.submit_question nlp cfg w data)))
          -> qd_sentiment record = sentiment data).
Proof.
  destruct (submit_question_steps nlp cfg w data)
    as (category & analyzed & calls & E & R).
  exists category, analyzed, calls. split; [exact E|].
  assert (Hcalls : forall ev, In ev calls ->
            match ev with DbRun _ | Emit _ _ => False | _ => True end).
  { intros ev Hev. revert E. ClassifyFacts.run_js.
    destruct (EnhancedAI.AI_ENABLED cfg); simpl;
      [|intros [= _ _ <-]; destruct Hev].
    destruct (hf cfg) as [client|]; simpl; [|intros [= _ _ <-]; destruct Hev].
    destruct (zeroShotClassification client (questionText data))
      as [e1|[ls ss]]; simpl;
      [|destruct ls as [|l ls]; [|destruct ss as [|s ss]]; simpl];
      (destruct (textClassification client (questionText data))
         as [e2|cs]; simpl;
       [|destruct cs as [|[lb sc] cs]; simpl;
         [|destruct (_ && _); [|destruct (_ && _)]]]);
      intros [= _ _ <-]; simpl in Hev;
      repeat (destruct Hev as [<-|Hev]; [exact I|]); destruct Hev. }
  rewrite R. unfold Server.on_selected, Server.on_inserted, Js.bind, Js.call,
    Js.ret.
  split.
  - intros row Hrow. destruct (insert_question w _); simpl in Hrow;
      rewrite !in_app_iff in Hrow; simpl in Hrow;
      repeat match goal with
             | H : _ \/ _ |- _ => destruct H
             | H : In _ calls |- _ => apply Hcalls in H; contradiction
             | H : DbRun _ = DbRun _ |- _ => injection H as <-; reflexivity
             | H : _ = DbRun _ |- _ => discriminate H
             | H : False |- _ => contradiction
             end.
  - intros room record Hrec. destruct (insert_question w _); simpl in Hrec;
      rewrite !in_app_iff in Hrec; simpl in Hrec;
      repeat match goal with
             | H : _ \/ _ |- _ => destruct H
             | H : In _ calls |- _ => apply Hcalls in H; contradiction
             | H : Emit _ _ = Emit _ _ |- _ => injection H as <- <-; reflexivity
             | H : _ = Emit _ _ |- _ => discriminate H
             | H : False |- _ => contradiction
             end.
Qed.

(** The calls of [classify] are calls to the remote service. *)
Lemma classify_calls_remote (cfg : Config) (text category sentiment : string)
    (calls : list event) :
  Js.run (Server.classify cfg text) = (inr (category, sentiment), calls) ->
  Js.remote_calls calls = length calls.
Proof.
  ClassifyFacts.run_js.
  destruct (EnhancedAI.AI_ENABLED cfg); simpl; [|intros [= _ _ <-]; reflexivity].
  destruct (hf cfg) as [client|]; simpl; [|intros [= _ _ <-]; reflexivity].
  destruct (zeroShotClassification client text) as [e1|[ls ss]]; simpl;
    [|destruct ls as [|l ls]; [|destruct ss as [|s ss]]; simpl];
    (destruct (textClassification client text) as [e2|cs]; simpl;
     [|destruct cs as [|[lb sc] cs]; simpl;
       [|destruct (_ && _); [|destruct (_ && _)]]]);
    intros [= _ _ <-]; reflexivity.
Qed.

(** The whole run of the handler: the calls of the classification, the
    read of the corpus, the insert, and the broadcast when the insert
    succeeded. *)
Lemma submit_question_trace (nlp : Tagger) (cfg : Config) (w : World)
    (data : submission) :
  exists category analyzed calls,
    Js.run (Server.classify cfg (questionText data))
    = (inr (category, analyzed), calls)
    /\ let rows := Server.corpus_of (select_questions w (sessionCode data)) in
       let found := FreeAI.findSimilarQuestions nlp (questionText data) rows in
       let topic := Server.topicSummary nlp (questionText data) rows in
       let cluster := Server.topicCluster category topic in
       let row := Server.inserted_row data (uuid w) analyzed cluster in
       Js.run (Server.submit_question nlp cfg w data)
       = (inr tt,
          calls ++ DbAll (sessionCode data) :: DbRun row
            :: match insert_question w row with
               | Some _ => []
               | None =>
                   [Emit (sessionCode data)
                      (Server.broadcast_record w data (uuid w) category
                         cluster found topic)]
               end).
Proof.
  destruct (submit_question_steps nlp cfg w data)
    as (category & analyzed & calls & E & R).
  exists category, analyzed, calls. split; [exact E|].
  intros rows found topic cluster row. rewrite R.
  unfold Server.on_selected, Server.on_inserted, Js.bind, Js.call, Js.ret.
  fold rows. fold found. fold topic. fold cluster. fold row.
  destruct (insert_question w row); rewrite <- !app_assoc; reflexivity.
Qed.

(** C8, as the code has it. When the read of the corpus fails the
    handler goes on as it does with an empty corpus: the run is the run
    in the world whose read gives no row. It does not abort: the question
    is classified and the insert is issued, with the analyzed sentiment.
    When the insert succeeds the record is broadcast to the room, with
    the category of the classification and an empty similarity set; when
    the insert fails as well, the run ends there and nothing is
    broadcast. *)
Theorem corpus_read_failure_degrades (nlp : Tagger) (cfg : Config)
    (w : World) (data : submission) (err : string) :
  select_questions w (sessionCode data) = inl err ->
  Js.run (Server.submit_question nlp cfg w data)
  = Js.run (Server.submit_question nlp cfg (with_corpus w []) data)
  /\ exists category analyzed calls row,
       Js.run (Server.classify cfg (questionText data))
       = (inr (category, analyzed), calls)
       /\ ins_question_text row = questionText data
       /\ ins_session_id row = sessionCode data
       /\ ins_sentiment row = analyzed
       /\ (insert_question w row <> None ->
           Js.run (Server.submit_question nlp cfg w data)
           = (inr tt, calls ++ [DbAll (sessionCode data); DbRun row]))
       /\ (insert_question w row = None ->
           exists record,
             Js.run (Server.submit_question nlp cfg w data)
             = (inr tt, calls ++ [DbAll (sessionCode data); DbRun row;
                                  Emit (sessionCode data) record])
             /\ qd_questionText record = questionText data
             /\ qd_category record = category
             /\ qd_similarQuestions record = []).
Proof.
  intros Herr.
  destruct (submit_question_trace nlp cfg w data)
    as (category & analyzed & calls & E & R).
  destruct (submit_question_trace nlp cfg (with_corpus w []) data)
    as (category' & analyzed' & calls' & E' & R').
  rewrite E in E'. injection E' as <- <- <-.
  cbv zeta in R, R'. rewrite Herr in R.
  cbn [Server.corpus_of with_corpus select_questions uuid insert_question now]
    in R, R'.
  split; [now rewrite R, R'|].
  exists category, analyzed, calls,
    (Server.inserted_row data (uuid w) analyzed
       (Server.topicCluster category
          (Server.topicSummary nlp (questionText data) []))).
  split; [exact E|]. split; [reflexivity|]. split; [reflexivity|].
  split; [reflexivity|]. split.
  - intros Hins. rewrite R.
    destruct (insert_question w _); [reflexivity | contradiction].
  - intros Hins. rewrite R, Hins. eexists.
    split; [reflexivity|]. repeat split.
Qed.

Lemma corpus_read_failure_degrades_witness :
  Js.run (Server.submit_question WordTagger.tagger Sample.disabled
            (Sample.broken_read true) (Sample.asks "Why does this happen"))
  = Js.run (Server.submit_question WordTagger.tagger Sample.disabled
              (with_corpus (Sample.broken_read true) [])
              (Sample.asks "Why does this happen")).
Proof.
  apply (corpus_read_failure_degrades WordTagger.tagger Sample.disabled
           (Sample.broken_read true) (Sample.asks "Why does this happen")
           "SQLITE_BUSY").
  reflexivity.
Defined.

(** C8 as stated fails when the insert fails after the read: the
    question is classified and the insert is issued, but the row is not
    stored and no record is broadcast, whatever the tagger. *)
Lemma read_and_insert_failure_not_delivered :
  let w := Sample.broken_read false in
  let data := Sample.asks "Why does this happen" in
  select_questions w (sessionCode data) = inl "SQLITE_BUSY"
  /\ forall nlp : Tagger,
       exists row,
         Js.run (Server.submit_question nlp Sample.disabled w data)
         = (inr tt, [DbAll "ROOM42"; DbRun row])
         /\ insert_question w row = Some "SQLITE_FULL"
         /\ forall room record,
              ~ In (Emit room record)
                  (snd (Js.run (Server.submit_question nlp Sample.disabled
                                  w data))).
Proof.
  intros w data. split; [reflexivity|]. intros nlp.
  destruct (submit_question_trace nlp Sample.disabled w data)
    as (category & analyzed & calls & E & R).
  vm_compute in E. injection E as <- <- <-.
  cbv zeta in R. cbn [w Sample.broken_read insert_question app] in R.
  eexists. split; [exact R|]. split; [reflexivity|].
  intros room record Hin. rewrite R in Hin. cbn [snd] in Hin.
  destruct Hin as [Hin|[Hin|[]]]; discriminate.
Qed.

(** The run of the witness: a failed read, then the insert and the
    broadcast. *)
Example corpus_read_failure_run :
  exists row record,
    Js.run (Server.submit_question WordTagger.tagger Sample.disabled
              (Sample.broken_read true) (Sample.asks "Why does this happen"))
    = (inr tt, [DbAll "ROOM42"; DbRun row; Emit "ROOM42" record])
    /\ qd_category record = "reasoning"
    /\ qd_similarQuestions record = [].
Proof.
  do 2 eexists. split; [vm_compute; reflexivity|]. split; reflexivity.
Qed.

(** C10. Whatever the corpus, the cluster handed to the summarizer holds
    the new question and is not empty, the summarizer returns a summary,
    and the topic label is the title of that summary, in the row that is
    inserted and in the record that is broadcast: the category is never
    used as the label. The title is the empty string when the cluster
    yields no keyword. *)
Theorem topic_label_from_summary (nlp : Tagger) (cfg : Config) (w : World)
    (data : submission) :
  let rows := Server.corpus_of (select_questions w (sessionCode data)) in
  let cluster :=
    Server.relatedQuestions (questionText data)
      (FreeAI.findSimilarQuestions nlp (questionText data) rows) rows in
  let trace := snd (Js.run (Server.submit_question nlp cfg w data)) in
  In {| id := None; question_text := questionText data |} cluster
  /\ cluster <> []
  /\ exists t,
       FreeAI.generateTopicSummary nlp cluster = Some t
       /\ (forall category,
             Server.topicCluster category
               (FreeAI.generateTopicSummary nlp cluster) = title t)
       /\ (exists row, In (DbRun row) trace)
       /\ (forall row, In (DbRun row) trace -> ins_topic_cluster row = title t)
       /\ (forall room record, In (Emit room record) trace ->
             qd_topicSummary record = Some t
             /\ qd_topicCluster record = title t)
       /\ (FreeAI.allKeywords nlp cluster = [] -> title t = "").
Proof.
  intros rows cluster trace.
  split; [apply in_or_app; right; now left|].
  split; [intros H; now apply app_eq_nil in H|].
  destruct (generateTopicSummary_some nlp
              (filter (fun q => existsb (fun s => Server.refers_to s q)
                                  (FreeAI.findSimilarQuestions nlp
                                     (questionText data) rows)) rows)
              {| id := None; question_text := questionText data |})
    as (t & Ht & Htitle).
  fold (Server.relatedQuestions (questionText data)
          (FreeAI.findSimilarQuestions nlp (questionText data) rows) rows)
    in Ht, Htitle.
  fold cluster in Ht, Htitle.
  exists t. split; [exact Ht|]. split; [intros c; now rewrite Ht|].
  destruct (submit_question_trace nlp cfg w data)
    as (category & analyzed & calls & E & R).
  cbv zeta in R. fold rows in R. unfold Server.topicSummary in R.
  fold cluster in R. rewrite Ht in R. simpl Server.topicCluster in R.
  pose proof (classify_calls_remote _ _ _ _ _ E) as Hremote.
  assert (Hcalls : forall ev, In ev calls ->
            match ev with DbRun _ | Emit _ _ => False | _ => True end).
  { clear - Hremote. induction calls as [|c calls IH]; [intros ? []|].
    unfold Js.remote_calls in *. simpl in Hremote.
    pose proof (filter_length_le
                  (fun ev => match ev with
                             | CallZeroShot _ | CallTextClassification _ => true
                             | _ => false
                             end) calls) as Hle.
    destruct c; simpl in Hremote; try lia;
      (intros ev [<-|Hev]; [exact I | apply IH; [lia | exact Hev]]). }
  subst trace. rewrite R. cbn [snd].
  split; [|split; [|split]].
  - eexists. apply in_or_app. right. right. now left.
  - intros row Hrow. apply in_app_or in Hrow.
    destruct Hrow as [Hrow|[Hrow|[Hrow|Hrow]]].
    + apply Hcalls in Hrow. contradiction.
    + discriminate.
    + injection Hrow as <-. reflexivity.
    + destruct (insert_question w _); [destruct Hrow|].
      destruct Hrow as [Hrow|[]]. discriminate.
  - intros room record Hrec. apply in_app_or in Hrec.
    destruct Hrec as [Hrec|[Hrec|[Hrec|Hrec]]].
    + apply Hcalls in Hrec. contradiction.
    + discriminate.
    + discriminate.
    + destruct (insert_question w _); [destruct Hrec|].
      destruct Hrec as [Hrec|[]]. injection Hrec as <- <-.
      split; reflexivity.
  - intros Hnone. rewrite Htitle, Hnone. reflexivity.
Qed.

Lemma topic_label_from_summary_witness :
  exists t,
    FreeAI.generateTopicSummary WordTagger.tagger
      (Server.relatedQuestions "??" [] []) = Some t
    /\ title t = "".
Proof.
  destruct (topic_label_from_summary WordTagger.tagger Sample.disabled
              (Sample.room_with []) (Sample.asks "??"))
    as (_ & _ & t & Ht & _ & _ & _ & _ & Hempty).
  exists t. split; [exact Ht|]. apply Hempty. reflexivity.
Defined.

End PipelineFacts.

(** ** The frequency table *)

Module TableFacts.

Import TopicSpec.

Lemma first_seen_from_In (all seen : list string) (k : string) :
  In k (first_seen_from seen all) <-> In k all /\ ~ In k seen.
Proof.
  revert seen. induction all as [|x all IH]; intros seen; simpl; [tauto|].
  destruct (JaccardSpec.member x seen) eqn:E.
  - apply SetFacts.member_In in E. rewrite IH.
    intuition (subst; tauto).
  - assert (~ In x seen)
      by (intros H; apply SetFacts.member_In in H; congruence).
    simpl. rewrite IH. simpl.
    destruct (string_dec x k) as [->|Hne]; intuition congruence.
Qed.

Lemma first_seen_from_NoDup (all seen : list string) :
  NoDup (first_seen_from seen all).
Proof.
  revert seen. induction all as [|x all IH]; intros seen; simpl;
    [constructor|].
  destruct (JaccardSpec.member x seen); [apply IH|].
  constructor; [|apply IH].
  rewrite first_seen_from_In. simpl. tauto.
Qed.

Lemma first_seen_In (all : list string) (k : string) :
  In k (first_seen all) <-> In k all.
Proof. unfold first_seen. rewrite first_seen_from_In. simpl. tauto. Qed.

Lemma first_seen_NoDup (all : list string) : NoDup (first_seen all).
Proof. apply first_seen_from_NoDup. Qed.

(** A keyword seen for the first time goes last; one seen before changes
    nothing. *)
Lemma first_seen_from_snoc (all seen : list string) (x : string) :
  first_seen_from seen (all ++ [x])
  = first_seen_from seen all
    ++ (if JaccardSpec.member x seen || JaccardSpec.member x all
        then [] else [x]).
Proof.
  revert seen. induction all as [|k all IH]; intros seen; simpl.
  - rewrite orb_false_r. now destruct (JaccardSpec.member x seen).
  - destruct (JaccardSpec.member k seen) eqn:Ek; rewrite IH.
    + f_equal.
      replace (JaccardSpec.member x seen || JaccardSpec.member x (k :: all))
        with (JaccardSpec.member x seen || JaccardSpec.member x all);
        [reflexivity|].
      apply eq_true_iff_eq. rewrite !orb_true_iff, !SetFacts.member_In.
      apply SetFacts.member_In in Ek. simpl.
      intuition (subst; tauto).
    + simpl. f_equal.
      replace (JaccardSpec.member x (k :: seen) || JaccardSpec.member x all)
        with (JaccardSpec.member x seen || JaccardSpec.member x (k :: all));
        [reflexivity|].
      apply eq_true_iff_eq. rewrite !orb_true_iff, !SetFacts.member_In.
      simpl. tauto.
Qed.

Lemma first_seen_snoc (all : list string) (x : string) :
  first_seen (all ++ [x])
  = first_seen all ++ (if JaccardSpec.member x all then [] else [x]).
Proof. unfold first_seen. now rewrite first_seen_from_snoc. Qed.

Lemma frequency_snoc (all : list string) (x k : string) :
  frequency (all ++ [x]) k
  = frequency all k + (if String.eqb k x then 1 else 0).
Proof.
  unfold frequency. rewrite count_occ_app. simpl.
  destruct (string_dec x k) as [->|Hne].
  - now rewrite String.eqb_refl.
  - destruct (String.eqb_spec k x); [congruence | reflexivity].
Qed.

Lemma own_map (g : string -> JsObject.value) (l : list string) (x : string) :
  JsObject.own (map (fun k => (k, g k)) l) x
  = if JaccardSpec.member x l then Some (g x) else None.
Proof.
  induction l as [|k l IH]; simpl.
  - reflexivity.
  - destruct (String.eqb_spec k x) as [->|Hne].
    + unfold JaccardSpec.member.
      destruct (in_dec string_dec x (x :: l)) as [_|H]; [reflexivity|].
      exfalso. apply H. now left.
    + rewrite IH. unfold JaccardSpec.member.
      destruct (in_dec string_dec x l), (in_dec string_dec x (k :: l));
        simpl in *; try reflexivity; intuition congruence.
Qed.

Lemma update_absent (g : string -> JsObject.value) (l : list string)
    (x : string) (v : JsObject.value) :
  ~ In x l ->
  JsObject.update (map (fun k => (k, g k)) l) x v
  = map (fun k => (k, g k)) l ++ [(x, v)].
Proof.
  induction l as [|k l IH]; intros H; simpl; [reflexivity|].
  destruct (String.eqb_spec k x) as [->|Hne].
  - exfalso. apply H. now left.
  - rewrite IH; [reflexivity|]. intros Hin. apply H. now right.
Qed.

Lemma update_present (g : string -> JsObject.value) (l : list string)
    (x : string) (v : JsObject.value) :
  NoDup l -> In x l ->
  JsObject.update (map (fun k => (k, g k)) l) x v
  = map (fun k => (k, if String.eqb k x then v else g k)) l.
Proof.
  induction l as [|k l IH]; intros Hnd Hin; [destruct Hin|].
  inversion Hnd as [|? ? Hk Hnd']; subst. simpl.
  destruct (String.eqb_spec k x) as [->|Hne].
  - f_equal. apply map_ext_in. intros a Ha.
    destruct (String.eqb_spec a x); [congruence | reflexivity].
  - f_equal. apply IH; [assumption|]. destruct Hin; congruence.
Qed.

(** One round of the counting loop on a keyword that is not the name of
    an inherited member. *)
Lemma count_step (all : list string) (x : string) :
  JsObject.inherited x = false ->
  JsObject.set (table all) x (FreeAI.bump (JsObject.get (table all) x))
  = table (all ++ [x]).
Proof.
  intros Hx. unfold JsObject.set.
  assert (Hp : String.eqb x "__proto__" = false).
  { destruct (String.eqb_spec x "__proto__") as [->|]; [discriminate Hx|].
    reflexivity. }
  rewrite Hp. unfold JsObject.get, table, counted.
  rewrite own_map, first_seen_snoc.
  replace (JaccardSpec.member x (first_seen all))
    with (JaccardSpec.member x all)
    by (apply eq_true_iff_eq;
        now rewrite !SetFacts.member_In, first_seen_In).
  destruct (JaccardSpec.member x all) eqn:E.
  - simpl FreeAI.bump. rewrite app_nil_r.
    rewrite update_present;
      [|apply first_seen_NoDup
       |apply first_seen_In; now apply SetFacts.member_In].
    apply map_ext. intros k. rewrite frequency_snoc.
    destruct (String.eqb_spec k x) as [->|]; [reflexivity|].
    now rewrite Nat.add_0_r.
  - rewrite Hx. simpl FreeAI.bump.
    assert (Hn : ~ In x all)
      by (intros H; apply SetFacts.member_In in H; congruence).
    rewrite update_absent by (now rewrite first_seen_In).
    rewrite map_app. simpl. f_equal.
    + apply map_ext_in. intros k Hk. rewrite frequency_snoc.
      rewrite first_seen_In in Hk.
      destruct (String.eqb_spec k x); [subst; contradiction|].
      now rewrite Nat.add_0_r.
    + rewrite frequency_snoc, String.eqb_refl. unfold frequency.
      now rewrite (proj1 (count_occ_not_In string_dec all x) Hn).
Qed.

Lemma keywordFreq_from (rest all : list string) :
  plain_keys rest ->
  fold_left
    (fun freq keyword =>
       JsObject.set freq keyword (FreeAI.bump (JsObject.get freq keyword)))
    rest (table all)
  = table (all ++ rest).
Proof.
  revert all. induction rest as [|x rest IH]; intros all Hp; simpl.
  - now rewrite app_nil_r.
  - inversion Hp; subst. rewrite count_step by assumption.
    rewrite IH by assumption. now rewrite <- app_assoc.
Qed.

(** The frequency table holds the distinct keywords in first-seen order
    with their numbers of occurrences. *)
Lemma keywordFreq_table (all : list string) :
  plain_keys all -> FreeAI.keywordFreq all = table all.
Proof.
  intros Hp. unfold FreeAI.keywordFreq.
  change JsObject.empty with (table []). now rewrite keywordFreq_from.
Qed.

End TableFacts.

(** ** The topic summarizer *)

Module SummaryFacts.

Import TopicSpec.

Lemma filter_map {A B : Type} (p : B -> bool) (f : A -> B) (l : list A) :
  filter p (map f l) = map f (filter (fun a => p (f a)) l).
Proof.
  induction l as [|a l IH]; simpl; [reflexivity|].
  destruct (p (f a)); simpl; now rewrite IH.
Qed.

(** [Object.entries] lists the table in the order [enumeration]. *)
Lemma entries_table (all : list string) :
  JsObject.entries (table all) = map (counted all) (enumeration all).
Proof.
  unfold JsObject.entries, table, enumeration.
  rewrite map_app, !filter_map. f_equal.
  apply SortFacts.sort_map. reflexivity.
Qed.

Lemma topKeywords_ranked (all : list string) :
  plain_keys all ->
  FreeAI.topKeywords all = firstn 3 (rank all (enumeration all)).
Proof.
  intros Hp. unfold FreeAI.topKeywords, JsArray.slice0, rank.
  rewrite (TableFacts.keywordFreq_table all Hp), entries_table.
  rewrite (SortFacts.sort_map (counted all)
             (fun k k' => Nat.compare (frequency all k') (frequency all k)))
    by reflexivity.
  rewrite firstn_map, map_map. simpl. apply map_id.
Qed.

Lemma allKeywords_flat_map (nlp : Tagger) (questions : list question) :
  FreeAI.allKeywords nlp questions
  = flat_map (fun q => FreeAI.extractKeywords nlp (question_text q))
      questions.
Proof.
  unfold FreeAI.allKeywords.
  assert (H : forall acc,
    fold_left (fun all q => all ++ FreeAI.extractKeywords nlp (question_text q))
      questions acc
    = acc ++ flat_map (fun q => FreeAI.extractKeywords nlp (question_text q))
               questions).
  { induction questions as [|q questions IH]; intros acc; simpl.
    - now rewrite app_nil_r.
    - now rewrite IH, app_assoc. }
  apply H.
Qed.

Lemma enumeration_perm (all : list string) :
  Permutation (enumeration all) (first_seen all).
Proof.
  unfold enumeration. rewrite SortFacts.sort_perm.
  induction (first_seen all) as [|k l IH]; simpl; [reflexivity|].
  destruct (index_key k); simpl.
  - now constructor.
  - rewrite <- Permutation_middle. now constructor.
Qed.

(** Without array indices among the keywords the table lists them in
    first-seen order. *)
Lemma enumeration_first_seen (all : list string) :
  Forall (fun k => index_key k = false) all ->
  enumeration all = first_seen all.
Proof.
  intros H. unfold enumeration.
  assert (Hf : Forall (fun k => index_key k = false) (first_seen all)).
  { rewrite Forall_forall in *. intros k Hk. apply H.
    now apply TableFacts.first_seen_In. }
  induction Hf as [|k l Hk Hl IH]; [reflexivity|].
  simpl. rewrite Hk. simpl.
  destruct (filter index_key l) as [|k' l'] eqn:E.
  - simpl in *. now f_equal.
  - exfalso. assert (Hin : In k' (filter index_key l))
      by (rewrite E; now left).
    apply filter_In in Hin. destruct Hin as [Hin Hidx].
    rewrite Forall_forall in Hl. rewrite (Hl k' Hin) in Hidx. discriminate.
Qed.

Lemma rank_sorted (all order : list string) :
  StronglySorted (fun k k' => frequency all k' <= frequency all k)
    (rank all order).
Proof.
  apply SortFacts.sort_sorted with (ok := fun _ => True).
  - intros k k' _ _ H.
    destruct (Nat.compare_spec (frequency all k') (frequency all k));
      try lia. congruence.
  - intros k k' _ _ H. apply Nat.compare_gt_iff in H. lia.
  - intros; lia.
  - apply Forall_forall. auto.
Qed.

Lemma rank_ties (all order : list string) (c : nat) :
  filter (fun k => frequency all k =? c) (rank all order)
  = filter (fun k => frequency all k =? c) order.
Proof.
  apply SortFacts.sort_filter. intros k k' H Hk.
  apply Nat.compare_gt_iff in H. apply Nat.eqb_eq in Hk.
  apply Nat.eqb_neq. lia.
Qed.

(** The summarizer on tables of counts. [generateTopicSummary] returns
    none for an empty cluster. For a cluster that is not empty it returns a summary
    whose title is its keywords joined with [" & "], whose [questionCount]
    is the size of the cluster and whose urgency is high above 2
    questions, medium above 1, else low. When no keyword of the cluster is
    the name of a member inherited from [Object.prototype], the keywords
    of the summary are the first 3 (all of them when there are fewer) of
    the distinct keywords of the cluster ranked by descending frequency:
    no keyword left out is more frequent than one kept, and keywords of
    one frequency stay in the order in which the table lists them, which
    is array indices first, in ascending order, then the other keywords
    in first-seen order; this is first-seen order when no keyword is an
    array index. *)
Theorem generateTopicSummary_ranking (nlp : Tagger)
    (questions : list question) :
  FreeAI.generateTopicSummary nlp [] = None
  /\ (questions <> [] ->
      let all := FreeAI.allKeywords nlp questions in
      let ranked := rank all (enumeration all) in
      exists t,
        FreeAI.generateTopicSummary nlp questions = Some t
        /\ all = flat_map (fun q => FreeAI.extractKeywords nlp (question_text q))
                   questions
        /\ title t = join " & " (keywords t)
        /\ questionCount t = length questions
        /\ urgency t = urgency_of (length questions)
        /\ (plain_keys all ->
            keywords t = firstn 3 ranked
            /\ Permutation ranked (first_seen all)
            /\ length (keywords t) = Nat.min 3 (length (first_seen all))
            /\ (forall k k', In k (keywords t) -> In k' all ->
                  ~ In k' (keywords t) ->
                  frequency all k' <= frequency all k)
            /\ (forall c,
                  filter (fun k => frequency all k =? c) ranked
                  = filter (fun k => frequency all k =? c) (enumeration all))
            /\ (Forall (fun k => index_key k = false) all ->
                title t = label_first_seen all))).
Proof.
  split; [reflexivity|].
  intros Hne all ranked.
  destruct questions as [|q questions]; [contradiction|].
  eexists. split; [reflexivity|].
  split; [apply allKeywords_flat_map|].
  split; [reflexivity|]. split; [reflexivity|]. split; [reflexivity|].
  intros Hp. cbn [keywords title].
  fold all. rewrite (topKeywords_ranked all Hp). fold ranked.
  assert (Hperm : Permutation ranked (first_seen all)).
  { unfold ranked, rank. rewrite SortFacts.sort_perm.
    apply enumeration_perm. }
  split; [reflexivity|]. split; [exact Hperm|]. split.
  { rewrite length_firstn. now rewrite (Permutation_length Hperm). }
  split.
  { intros k k' Hk Hk' Hout.
    apply (SortFacts.firstn_before
             (fun k k' => frequency all k' <= frequency all k) 3 ranked);
      try assumption.
    - apply rank_sorted.
    - apply (Permutation_in _ (Permutation_sym Hperm)).
      now apply TableFacts.first_seen_In. }
  split; [intros c; apply rank_ties|].
  intros Hidx. unfold label_first_seen, ranked.
  now rewrite (enumeration_first_seen all Hidx).
Qed.

(** C6 at a failing input. The five questions [error], [stocks], [apple],
    [constructor] and [constructor] have one keyword each, and
    [constructor] is the most frequent keyword of the cluster. It has no
    count in the table: [keywordFreq[keyword]] reads the member
    [constructor] that the plain object inherits, which is truthy, and
    [+ 1] makes a text of it. With the text every comparison of the sort
    gives zero, the array stays in the order of the table, and the label
    is made of the three keywords that occur once: the most frequent
    keyword is left out of it. The keyword [__proto__] is lost in another
    way: its assignment stores nothing, and a cluster with this one
    keyword gets the empty label. *)
Theorem inherited_keyword_not_counted (nlp : Tagger) :
  FreeAI.extractKeywords nlp "error" = ["error"] ->
  FreeAI.extractKeywords nlp "stocks" = ["stocks"] ->
  FreeAI.extractKeywords nlp "apple" = ["apple"] ->
  FreeAI.extractKeywords nlp "constructor" = ["constructor"] ->
  let cluster :=
    [ {| id := Some "q1"; question_text := "error" |};
      {| id := Some "q2"; question_text := "stocks" |};
      {| id := Some "q3"; question_text := "apple" |};
      {| id := Some "q4"; question_text := "constructor" |};
      {| id := None; question_text := "constructor" |} ] in
  let all := FreeAI.allKeywords nlp cluster in
  all = ["error"; "stocks"; "apple"; "constructor"; "constructor"]
  /\ frequency all "constructor" = 2
  /\ (forall k, In k all -> frequency all k <= frequency all "constructor")
  /\ label_first_seen all = "constructor & error & stocks"
  /\ FreeAI.keywordFreq all
     = [ ("error", JsObject.Number 1); ("stocks", JsObject.Number 1);
         ("apple", JsObject.Number 1);
         ("constructor",
          JsObject.Text "function Object() { [native code] }11") ]
  /\ (forall p r, In p (JsObject.entries (FreeAI.keywordFreq all)) ->
                  In r (JsObject.entries (FreeAI.keywordFreq all)) ->
                  FreeAI.by_count_desc p r = Eq)
  /\ FreeAI.generateTopicSummary nlp cluster
     = Some {| title := "error & stocks & apple";
               keywords := ["error"; "stocks"; "apple"];
               questionCount := 5;
               urgency := "high" |}
  /\ (FreeAI.extractKeywords nlp "__proto__" = ["__proto__"] ->
      FreeAI.generateTopicSummary nlp
        [ {| id := None; question_text := "__proto__" |} ]
      = Some {| title := ""; keywords := []; questionCount := 1;
                urgency := "low" |}).
Proof.
  intros He Hs Ha Hc cluster all.
  assert (E : all = ["error"; "stocks"; "apple"; "constructor"; "constructor"]).
  { subst all cluster. unfold FreeAI.allKeywords.
    cbn [fold_left question_text]. rewrite He, Hs, Ha, Hc. reflexivity. }
  split; [exact E|].
  assert (G : FreeAI.generateTopicSummary nlp cluster
              = Some {| title := join " & " (FreeAI.topKeywords all);
                        keywords := FreeAI.topKeywords all;
                        questionCount := 5; urgency := "high" |})
    by reflexivity.
  rewrite G, E. clear G E.
  split; [reflexivity|]. split.
  { intros k Hk. simpl in Hk.
    repeat (destruct Hk as [<-|Hk]; [vm_compute; lia|]). destruct Hk. }
  split; [reflexivity|]. split; [reflexivity|]. split.
  { intros p r Hp Hr. vm_compute in Hp, Hr.
    repeat (destruct Hp as [<-|Hp]; [|]);
      try (destruct Hp);
      repeat (destruct Hr as [<-|Hr]; [reflexivity|]); destruct Hr. }
  split; [reflexivity|].
  intros Hp. unfold FreeAI.generateTopicSummary, FreeAI.allKeywords.
  cbn [fold_left question_text]. rewrite Hp. reflexivity.
Qed.

Lemma inherited_keyword_not_counted_witness :
  FreeAI.generateTopicSummary PhraseTagger.tagger
    [ {| id := Some "q1"; question_text := "error" |};
      {| id := Some "q2"; question_text := "stocks" |};
      {| id := Some "q3"; question_text := "apple" |};
      {| id := Some "q4"; question_text := "constructor" |};
      {| id := None; question_text := "constructor" |} ]
  = Some {| title := "error & stocks & apple";
            keywords := ["error"; "stocks"; "apple"];
            questionCount := 5;
            urgency := "high" |}
  /\ FreeAI.generateTopicSummary PhraseTagger.tagger
       [ {| id := None; question_text := "__proto__" |} ]
     = Some {| title := ""; keywords := []; questionCount := 1;
               urgency := "low" |}.
Proof.
  destruct (inherited_keyword_not_counted PhraseTagger.tagger)
    as (_ & _ & _ & _ & _ & _ & Hsummary & Hproto); try reflexivity.
  split; [exact Hsummary | apply Hproto; reflexivity].
Defined.

End SummaryFacts.


(** * Further properties of the pipeline *)

(** ** What the matcher reports *)

Module MatcherFacts.

Import JaccardSpec.

Lemma distinct_same (l l' : list string) :
  (forall y, In y l <-> In y l') -> distinct l = distinct l'.
Proof.
  intros H. unfold distinct. apply Permutation_length.
  apply NoDup_Permutation; try apply NoDup_nodup.
  intros y. now rewrite !nodup_In.
Qed.

Lemma distinct_positive (l : list string) : l <> [] -> 0 < distinct l.
Proof.
  destruct l as [|x l]; [contradiction|]. intros _. unfold distinct.
  assert (H : In x (nodup string_dec (x :: l))) by (apply nodup_In; now left).
  destruct (nodup string_dec (x :: l)); [destruct H | simpl; lia].
Qed.

Lemma common_shared (a b : list string) :
  0 < common a b -> exists k, In k a /\ In k b.
Proof.
  unfold common, distinct. intros H.
  destruct (nodup string_dec (filter (fun x => member x b) a)) as [|k l] eqn:E;
    [simpl in H; lia|].
  assert (Hk : In k (nodup string_dec (filter (fun x => member x b) a)))
    by (rewrite E; now left).
  apply nodup_In, filter_In in Hk. destruct Hk as [Ha Hb].
  exists k. split; [assumption | now apply SetFacts.member_In].
Qed.

Lemma ratio_at_most_one (a b : list string) : (Qred (ratio a b) <= 1)%Q.
Proof.
  rewrite Qred_correct. unfold ratio, Qle. cbn [Qnum Qden].
  pose proof (SetFacts.common_le_either a b) as Hle.
  destruct (either a b) as [|u].
  - assert (common a b = 0) by lia. rewrite H. simpl. lia.
  - rewrite <- (Nat2Pos.id (S u)) in Hle by discriminate.
    rewrite <- positive_nat_Z. lia.
Qed.

Lemma ratio_one (a b : list string) :
  0 < either a b -> common a b = either a b -> Qred (ratio a b) = 1%Q.
Proof.
  intros Hpos Heq. change 1%Q with (Qred 1). apply Qred_complete.
  unfold ratio, Qeq. cbn [Qnum Qden]. rewrite Heq.
  destruct (either a b) as [|u]; [lia|].
  rewrite <- (Nat2Pos.id (S u)) at 1 by discriminate.
  rewrite <- positive_nat_Z. lia.
Qed.

(** A new question from which no keyword is extracted is similar to no
    question, whatever the corpus. *)
Theorem no_keyword_no_match (nlp : Tagger) (newText : string)
    (corpus : list question) :
  keywords_of nlp newText = [] ->
  FreeAI.findSimilarQuestions nlp newText corpus = [].
Proof.
  intros Hnew. rewrite SimilarityFacts.findSimilarQuestions_sorted_matches.
  assert (Hm : matches nlp newText corpus = []).
  { unfold matches. rewrite Hnew.
    induction corpus as [|q corpus IH]; [reflexivity|]. simpl. exact IH. }
  now rewrite Hm.
Qed.

Lemma no_keyword_no_match_witness :
  FreeAI.findSimilarQuestions WordTagger.tagger "?!"
    [ {| id := Some "q1"; question_text := "What is ROI?" |};
      {| id := Some "q2"; question_text := "" |} ] = [].
Proof.
  apply (no_keyword_no_match WordTagger.tagger "?!"). reflexivity.
Defined.

(** A corpus member whose keywords are, as a set, those of the new
    question is reported with the score 1, provided there is a keyword. *)
Theorem same_keywords_score_one (nlp : Tagger) (newText : string)
    (q : question) (corpus : list question) :
  In q corpus ->
  keywords_of nlp newText <> [] ->
  (forall k, In k (keywords_of nlp newText)
             <-> In k (keywords_of nlp (question_text q))) ->
  In {| questionId := id q; similarity := JsNumber.Fin 1;
        text := question_text q |}
     (FreeAI.findSimilarQuestions nlp newText corpus).
Proof.
  intros Hq Hne Hsame.
  rewrite SimilarityFacts.findSimilarQuestions_sorted_matches.
  apply SortFacts.sort_In.
  set (a := keywords_of nlp newText) in *.
  set (b := keywords_of nlp (question_text q)) in *.
  assert (Hc : common a b = distinct a).
  { unfold common. apply distinct_same. intros y.
    rewrite filter_In, SetFacts.member_In. specialize (Hsame y). tauto. }
  assert (He : either a b = distinct a).
  { unfold either. apply distinct_same. intros y.
    rewrite in_app_iff. specialize (Hsame y). tauto. }
  pose proof (distinct_positive a Hne) as Hpos.
  replace {| questionId := id q; similarity := JsNumber.Fin 1;
             text := question_text q |}
    with (result_of nlp newText q).
  - apply in_map. unfold matches. apply filter_In. split; [assumption|].
    fold a b. unfold above_threshold. apply Nat.ltb_lt. lia.
  - unfold result_of. fold a b. rewrite ratio_one; [reflexivity | lia | lia].
Qed.

Lemma same_keywords_score_one_witness :
  In {| questionId := Some "q1"; similarity := JsNumber.Fin 1;
        text := "What does ROI mean?" |}
     (FreeAI.findSimilarQuestions WordTagger.tagger "what DOES roi mean?"
        [ {| id := Some "q0"; question_text := "Tell me about bonds" |};
          {| id := Some "q1"; question_text := "What does ROI mean?" |} ]).
Proof.
  apply (same_keywords_score_one WordTagger.tagger "what DOES roi mean?"
           {| id := Some "q1"; question_text := "What does ROI mean?" |}).
  - right. now left.
  - discriminate.
  - intros k. reflexivity.
Defined.

(** Every reported result is the result of a corpus member that shares a
    keyword with the new question; it carries the id and the text of that
    member and a score of at most 1; the result is never longer than the
    corpus. *)
Theorem found_shares_a_keyword (nlp : Tagger) (newText : string)
    (corpus : list question) :
  let found := FreeAI.findSimilarQuestions nlp newText corpus in
  length found <= length corpus
  /\ forall r, In r found ->
       exists q, In q corpus
                 /\ questionId r = id q /\ text r = question_text q
                 /\ (exists k, In k (keywords_of nlp newText)
                               /\ In k (keywords_of nlp (question_text q)))
                 /\ exists p, similarity r = JsNumber.Fin p /\ (p <= 1)%Q.
Proof.
  intros found. subst found.
  rewrite SimilarityFacts.findSimilarQuestions_sorted_matches. split.
  - rewrite SortFacts.sort_length, length_map. apply filter_length_le.
  - intros r Hr. apply SortFacts.sort_In, in_map_iff in Hr.
    destruct Hr as (q & <- & Hq). apply filter_In in Hq.
    destruct Hq as [Hq Hth]. exists q.
    split; [assumption|]. split; [reflexivity|]. split; [reflexivity|]. split.
    + apply common_shared. unfold above_threshold in Hth.
      apply Nat.ltb_lt in Hth. lia.
    + eexists. split; [reflexivity | apply ratio_at_most_one].
Qed.

End MatcherFacts.

(** ** What the summarizer and the cluster hold *)

Module ClusterFacts.

Import JaccardSpec.

Lemma update_keys_present (o : JsObject.object) (k : string)
    (v : JsObject.value) :
  In k (map fst o) -> map fst (JsObject.update o k v) = map fst o.
Proof.
  induction o as [|[k' w] o IH]; intros H; [destruct H|]. simpl.
  destruct (String.eqb_spec k' k) as [->|Hne]; [reflexivity|].
  simpl. f_equal. apply IH. destruct H as [H|H]; [simpl in H; congruence|exact H].
Qed.

Lemma update_keys_absent (o : JsObject.object) (k : string)
    (v : JsObject.value) :
  ~ In k (map fst o) -> map fst (JsObject.update o k v) = map fst o ++ [k].
Proof.
  induction o as [|[k' w] o IH]; intros H; [reflexivity|]. simpl.
  destruct (String.eqb_spec k' k) as [->|Hne].
  - exfalso. apply H. now left.
  - simpl. f_equal. apply IH. intros Hin. apply H. now right.
Qed.

(** Whatever the keywords, the table never holds a key twice and holds
    only keywords it was given. *)
Lemma table_keys (all : list string) (o : JsObject.object) :
  NoDup (map fst o) ->
  let o' := fold_left
              (fun freq keyword =>
                 JsObject.set freq keyword
                   (FreeAI.bump (JsObject.get freq keyword)))
              all o in
  NoDup (map fst o')
  /\ forall k, In k (map fst o') -> In k (map fst o) \/ In k all.
Proof.
  revert o. induction all as [|x all IH]; intros o Hnd; simpl.
  - split; [assumption | now left].
  - set (o1 := JsObject.set o x (FreeAI.bump (JsObject.get o x))).
    assert (H1 : NoDup (map fst o1)
                 /\ forall k, In k (map fst o1) -> In k (map fst o) \/ k = x).
    { unfold o1, JsObject.set. destruct (String.eqb x "__proto__").
      - split; [assumption | now left].
      - destruct (in_dec string_dec x (map fst o)) as [Hin|Hout].
        + rewrite update_keys_present by assumption.
          split; [assumption | now left].
        + rewrite update_keys_absent by assumption. split.
          * apply NoDup_app; [assumption | constructor; [intros []|constructor] |].
            intros k Hk [<-|[]]. contradiction.
          * intros k Hk. apply in_app_or in Hk.
            destruct Hk as [Hk|[<-|[]]]; [now left | now right]. }
    destruct H1 as [Hnd1 Hin1]. destruct (IH o1 Hnd1) as [Hnd' Hin'].
    split; [exact Hnd'|]. intros k Hk. destruct (Hin' k Hk) as [H|H].
    + destruct (Hin1 k H) as [H'| ->]; [now left | right; now left].
    + right. now right.
Qed.

Lemma entries_perm (o : JsObject.object) : Permutation (JsObject.entries o) o.
Proof.
  unfold JsObject.entries. rewrite SortFacts.sort_perm.
  induction o as [|p o IH]; simpl; [reflexivity|].
  destruct (JsObject.is_index p); simpl.
  - now constructor.
  - rewrite <- Permutation_middle. now constructor.
Qed.

Lemma NoDup_firstn {A : Type} (n : nat) (l : list A) :
  NoDup l -> NoDup (firstn n l).
Proof.
  intros H. rewrite <- (firstn_skipn n l) in H.
  now apply NoDup_app_remove_r in H.
Qed.

(** For every cluster, the keywords of the summary are at most 3, pairwise
    distinct, and each one is a keyword extracted from a question of the
    cluster; there is no summary only for the empty cluster. *)
Theorem topic_keywords_distinct (nlp : Tagger) (questions : list question) :
  match FreeAI.generateTopicSummary nlp questions with
  | None => questions = []
  | Some t =>
      NoDup (keywords t)
      /\ length (keywords t) <= 3
      /\ forall k, In k (keywords t) ->
           exists q, In q questions
                     /\ In k (FreeAI.extractKeywords nlp (question_text q))
  end.
Proof.
  destruct questions as [|q0 questions]; [reflexivity|].
  cbn [FreeAI.generateTopicSummary keywords].
  set (all := FreeAI.allKeywords nlp (q0 :: questions)).
  unfold FreeAI.topKeywords, JsArray.slice0.
  destruct (table_keys all JsObject.empty (NoDup_nil _)) as [Hnd Hin].
  fold (FreeAI.keywordFreq all) in Hnd, Hin.
  assert (Hperm : Permutation
                    (map fst (JsArray.sort FreeAI.by_count_desc
                                (JsObject.entries (FreeAI.keywordFreq all))))
                    (map fst (FreeAI.keywordFreq all))).
  { apply Permutation_map. rewrite SortFacts.sort_perm. apply entries_perm. }
  rewrite <- firstn_map. split; [|split].
  - apply NoDup_firstn.
    apply (Permutation_NoDup (Permutation_sym Hperm) Hnd).
  - apply firstn_le_length.
  - intros k Hk. apply KeywordFacts.In_firstn in Hk.
    apply (Permutation_in _ Hperm) in Hk.
    destruct (Hin k Hk) as [[]|Hall].
    unfold all in Hall. rewrite SummaryFacts.allKeywords_flat_map in Hall.
    apply in_flat_map in Hall. exact Hall.
Qed.

Lemma strict_eq_true (a b : option string) : strict_eq a b = true <-> a = b.
Proof.
  destruct a as [x|], b as [y|]; simpl; split; try discriminate;
    try reflexivity.
  - intros H. apply String.eqb_eq in H. now subst.
  - intros [= ->]. apply String.eqb_refl.
Qed.

Lemma NoDup_map_injective {A B : Type} (f : A -> B) (l : list A) (a b : A) :
  NoDup (map f l) -> In a l -> In b l -> f a = f b -> a = b.
Proof.
  induction l as [|x l IH]; intros Hnd Ha Hb E; [destruct Ha|].
  simpl in Hnd. inversion Hnd as [|? ? Hx Hnd']; subst.
  destruct Ha as [<-|Ha], Hb as [<-|Hb]; try reflexivity.
  - exfalso. apply Hx. rewrite E. now apply in_map.
  - exfalso. apply Hx. rewrite <- E. now apply in_map.
  - now apply IH.
Qed.

(** When the rows of the room have pairwise distinct ids, the cluster of
    the handler is the matched rows, in corpus order, followed by the new
    question: the summary counts one question more than the similarity
    set holds, and its urgency is low without a similar question, medium
    with one, high with two or more. *)
Theorem cluster_is_matches_and_new (nlp : Tagger) (questionText : string)
    (rows : list question) :
  NoDup (map id rows) ->
  let found := FreeAI.findSimilarQuestions nlp questionText rows in
  Server.relatedQuestions questionText found rows
  = matches nlp questionText rows
    ++ [ {| id := None; question_text := questionText |} ]
  /\ exists t,
       Server.topicSummary nlp questionText rows = Some t
       /\ questionCount t = S (length found)
       /\ urgency t = TopicSpec.urgency_of (S (length found)).
Proof.
  intros Hnd found.
  assert (Hrel : Server.relatedQuestions questionText found rows
                 = matches nlp questionText rows
                   ++ [ {| id := None; question_text := questionText |} ]).
  { unfold Server.relatedQuestions. f_equal. unfold matches.
    apply filter_ext_in. intros q Hq. apply eq_true_iff_eq.
    rewrite existsb_exists. subst found.
    rewrite SimilarityFacts.findSimilarQuestions_sorted_matches. split.
    - intros (r & Hr & Href). apply SortFacts.sort_In, in_map_iff in Hr.
      destruct Hr as (q' & <- & Hq'). apply filter_In in Hq'.
      destruct Hq' as [Hq' Hth]. unfold Server.refers_to in Href.
      apply strict_eq_true in Href. simpl in Href.
      now rewrite <- (NoDup_map_injective id rows q' q Hnd Hq' Hq Href).
    - intros Hth. exists (result_of nlp questionText q). split.
      + apply SortFacts.sort_In, in_map, filter_In. now split.
      + unfold Server.refers_to. now apply strict_eq_true. }
  split; [exact Hrel|].
  assert (Hlen : length found = length (matches nlp questionText rows)).
  { subst found. rewrite SimilarityFacts.findSimilarQuestions_sorted_matches.
    now rewrite SortFacts.sort_length, length_map. }
  unfold Server.topicSummary. fold found. rewrite Hrel.
  destruct (PipelineFacts.generateTopicSummary_some nlp
              (matches nlp questionText rows)
              {| id := None; question_text := questionText |})
    as (t & Ht & _).
  exists t. split; [exact Ht|].
  assert (Hc : questionCount t
               = length (matches nlp questionText rows
                         ++ [ {| id := None; question_text := questionText |} ])
               /\ urgency t = TopicSpec.urgency_of (questionCount t)).
  { revert Ht. unfold FreeAI.generateTopicSummary.
    destruct (matches nlp questionText rows ++ _); [discriminate|].
    intros [= <-]. split; reflexivity. }
  destruct Hc as [Hc Hu]. rewrite Hu, Hc, length_app, <- Hlen. simpl.
  rewrite Nat.add_1_r. split; reflexivity.
Qed.

Lemma cluster_is_matches_and_new_witness :
  exists t,
    Server.topicSummary WordTagger.tagger "What does ROI mean?"
      [ {| id := Some "q1"; question_text := "what does roi mean?" |};
        {| id := Some "q2"; question_text := "Tell me about bonds" |};
        {| id := Some "q3"; question_text := "does ROI mean? profit" |} ]
    = Some t
    /\ questionCount t = 3
    /\ urgency t = "high".
Proof.
  destruct (cluster_is_matches_and_new WordTagger.tagger "What does ROI mean?"
              [ {| id := Some "q1"; question_text := "what does roi mean?" |};
                {| id := Some "q2"; question_text := "Tell me about bonds" |};
                {| id := Some "q3"; question_text := "does ROI mean? profit" |} ])
    as (_ & t & Ht & Hcount & Hurgency).
  - repeat constructor; simpl; intuition discriminate.
  - exists t. split; [exact Ht|]. split; [exact Hcount | exact Hurgency].
Defined.

End ClusterFacts.

(** ** The two remote calls *)

Module OrchestratorFacts.

Lemma first_word_no_space (s : string) :
  includes (EnhancedAI.first_word s) " " = false.
Proof.
  induction s as [|c s IH]; [reflexivity|]. simpl EnhancedAI.first_word.
  destruct (Ascii.eqb c " ") eqn:E; [reflexivity|].
  change (includes (String c (EnhancedAI.first_word s)) " ")
    with (String.prefix " " (String c (EnhancedAI.first_word s))
          || includes (EnhancedAI.first_word s) " ").
  rewrite IH, orb_false_r.
  destruct (String.prefix " " (String c (EnhancedAI.first_word s))) eqn:P;
    [|reflexivity].
  apply JsStringFacts.prefix_append in P. destruct P as [rest Hrest].
  simpl in Hrest. injection Hrest as -> _. discriminate E.
Qed.

Lemma Qle_bool_false (x y : Q) : Qle_bool x y = false -> (y < x)%Q.
Proof.
  intros H. apply Qnot_le_lt. intros Hle. apply Qle_bool_iff in Hle.
  congruence.
Qed.

(** [analyzeSentiment] never throws, returns one of the three sentiments
    in every configuration and whatever the remote call does, and calls
    the remote service at most once. *)
Theorem analyzeSentiment_range (cfg : Config) (text : string)
    (tr : list event) :
  exists s tr',
    EnhancedAI.analyzeSentiment cfg text tr = (inr s, tr')
    /\ In s ["neutral"; "confused"; "excited"]
    /\ (tr' = tr \/ tr' = tr ++ [CallTextClassification text]).
Proof.
  ClassifyFacts.run_js.
  destruct (EnhancedAI.AI_ENABLED cfg); simpl;
    [|do 2 eexists; split; [reflexivity|]; split; [now left | now left]].
  destruct (hf cfg) as [client|]; simpl;
    [|do 2 eexists; split; [reflexivity|]; split; [now left | now left]].
  destruct (textClassification client text) as [e|[|[lb sc] cs]]; simpl;
    [| |destruct (_ && _); [|destruct (_ && _)]];
    do 2 eexists; (split; [reflexivity|]); (split; [|now right]);
    simpl; tauto.
Qed.

(** With the service enabled and an answer that has a first element, the
    sentiment is decided by that element alone: [confused] exactly for the
    label [negative], in any letter case, with a confidence strictly above
    0.6; [excited] exactly for [positive] strictly above 0.7; [neutral] in
    every other case, a confidence of exactly 0.6 or 0.7 included. *)
Theorem analyzeSentiment_thresholds (cfg : Config) (client : HfInference)
    (text : string) (top : classified) (others : list classified) :
  EnhancedAI.AI_ENABLED cfg = true -> hf cfg = Some client ->
  textClassification client text = inr (top :: others) ->
  exists s,
    Js.run (EnhancedAI.analyzeSentiment cfg text)
    = (inr s, [CallTextClassification text])
    /\ (s = "confused"
        <-> toLowerCase (label top) = "negative" /\ (6 # 10 < score top)%Q)
    /\ (s = "excited"
        <-> toLowerCase (label top) = "positive" /\ (7 # 10 < score top)%Q)
    /\ (s <> "confused" -> s <> "excited" -> s = "neutral").
Proof.
  intros Hon Hhf Hans. ClassifyFacts.run_js. rewrite Hon, Hhf. simpl.
  rewrite Hans. simpl.
  destruct (String.eqb (toLowerCase (label top)) "negative") eqn:En;
    destruct (String.eqb (toLowerCase (label top)) "positive") eqn:Ep;
    destruct (Qle_bool (score top) (6 # 10)) eqn:E6;
    destruct (Qle_bool (score top) (7 # 10)) eqn:E7;
    simpl; eexists; (split; [reflexivity|]);
    repeat match goal with
           | H : String.eqb _ _ = true |- _ => apply String.eqb_eq in H
           | H : String.eqb _ _ = false |- _ => apply String.eqb_neq in H
           | H : Qle_bool _ _ = true |- _ =>
               apply Qle_bool_iff, Qle_not_lt in H
           | H : Qle_bool _ _ = false |- _ => apply Qle_bool_false in H
           end;
    try (exfalso; congruence);
    repeat split; intros; try discriminate; try tauto; try congruence.
Qed.

Lemma analyzeSentiment_thresholds_witness :
  exists s,
    Js.run (EnhancedAI.analyzeSentiment
              (Sample.enabled Sample.half_failing_client) "I am lost")
    = (inr s, [CallTextClassification "I am lost"])
    /\ s = "confused".
Proof.
  destruct (analyzeSentiment_thresholds
              (Sample.enabled Sample.half_failing_client)
              Sample.half_failing_client "I am lost"
              {| label := "NEGATIVE"; score := 9 # 10 |} [])
    as (s & Hrun & Hconfused & _); try reflexivity.
  exists s. split; [exact Hrun|]. apply Hconfused.
  split; [reflexivity | reflexivity].
Defined.

(** With the service enabled and an answer that has a first label and a
    first score, the category is the first word of that label in lower
    case, whatever the score: it holds no space, and for each of the
    candidate labels the call sends it is one of the six categories. The
    trace holds the one call. *)
Theorem categorizeQuestion_remote_label (cfg : Config) (client : HfInference)
    (text top : string) (more : list string) (confidence : Q)
    (others : list Q) :
  EnhancedAI.AI_ENABLED cfg = true -> hf cfg = Some client ->
  zeroShotClassification client text
  = inr {| labels := top :: more; scores := confidence :: others |} ->
  Js.run (EnhancedAI.categorizeQuestion cfg text)
  = (inr (EnhancedAI.first_word (toLowerCase top)), [CallZeroShot text])
  /\ includes (EnhancedAI.first_word (toLowerCase top)) " " = false
  /\ (In (toLowerCase top) candidate_labels ->
      In (EnhancedAI.first_word (toLowerCase top)) RuleTable.categories).
Proof.
  intros Hon Hhf Hans. split; [|split].
  - ClassifyFacts.run_js. rewrite Hon, Hhf. simpl. rewrite Hans. reflexivity.
  - apply first_word_no_space.
  - intros Hin. unfold candidate_labels in Hin. simpl in Hin.
    repeat (destruct Hin as [<-|Hin]; [vm_compute; tauto|]). destruct Hin.
Qed.

Lemma categorizeQuestion_remote_label_witness :
  Js.run (EnhancedAI.categorizeQuestion
            (Sample.enabled Sample.answering_client) "Tell me about bonds")
  = (inr "definition", [CallZeroShot "Tell me about bonds"]).
Proof.
  apply (categorizeQuestion_remote_label
           (Sample.enabled Sample.answering_client) Sample.answering_client
           "Tell me about bonds" "definition and explanation"
           ["general question"] (9 # 10) [1 # 10]);
    reflexivity.
Defined.

(** An answer without a label, or with a label and without a score, is
    handled as a failed call: the category is the rule-based one. *)
Theorem categorizeQuestion_malformed_answer (cfg : Config)
    (client : HfInference) (text : string) (answer : zeroShot) :
  EnhancedAI.AI_ENABLED cfg = true -> hf cfg = Some client ->
  zeroShotClassification client text = inr answer ->
  labels answer = [] \/ scores answer = [] ->
  Js.run (EnhancedAI.categorizeQuestion cfg text)
  = (inr (FreeAI.categorizeQuestion text), [CallZeroShot text]).
Proof.
  intros Hon Hhf Hans Hbad. ClassifyFacts.run_js. rewrite Hon, Hhf. simpl.
  rewrite Hans. destruct answer as [ls ss]. simpl in *.
  destruct Hbad as [->| ->]; [reflexivity|]. destruct ls; reflexivity.
Qed.

Lemma categorizeQuestion_malformed_answer_witness :
  Js.run (EnhancedAI.categorizeQuestion
            (Sample.enabled
               {| zeroShotClassification :=
                    fun _ => inr {| labels := ["process and procedures"];
                                    scores := [] |};
                  textClassification := fun _ => inl "down" |})
            "Why does this happen")
  = (inr "reasoning", [CallZeroShot "Why does this happen"]).
Proof.
  apply (categorizeQuestion_malformed_answer _
           {| zeroShotClassification :=
                fun _ => inr {| labels := ["process and procedures"];
                                scores := [] |};
              textClassification := fun _ => inl "down" |}
           "Why does this happen"
           {| labels := ["process and procedures"]; scores := [] |});
    try reflexivity.
  right. reflexivity.
Defined.

(** With the service enabled, [classify] makes the two remote calls, once
    each and in this order, whatever either call answers: the sentiment
    call is made after a failed category call too, and no call is
    retried. *)
Theorem classify_calls_both_once (cfg : Config) (client : HfInference)
    (text : string) :
  EnhancedAI.AI_ENABLED cfg = true -> hf cfg = Some client ->
  snd (Js.run (Server.classify cfg text))
  = [CallZeroShot text; CallTextClassification text].
Proof.
  intros Hon Hhf. ClassifyFacts.run_js. rewrite Hon, Hhf. simpl.
  destruct (zeroShotClassification client text) as [e1|[ls ss]]; simpl;
    [|destruct ls as [|l ls]; [|destruct ss as [|s ss]]; simpl];
    (destruct (textClassification client text) as [e2|cs]; simpl;
     [|destruct cs as [|[lb sc] cs]; simpl;
       [|destruct (_ && _); [|destruct (_ && _)]]]);
    reflexivity.
Qed.

Lemma classify_calls_both_once_witness :
  snd (Js.run (Server.classify (Sample.enabled Sample.failing_client)
                 "What is ROI?"))
  = [CallZeroShot "What is ROI?"; CallTextClassification "What is ROI?"].
Proof.
  apply (classify_calls_both_once (Sample.enabled Sample.failing_client)
           Sample.failing_client "What is ROI?");
    reflexivity.
Defined.

End OrchestratorFacts.

(** ** The run of the handler *)

Module HandlerFacts.

Lemma classify_calls_at_most_two (cfg : Config) (text : string) :
  length (snd (Js.run (Server.classify cfg text))) <= 2.
Proof.
  ClassifyFacts.run_js.
  destruct (EnhancedAI.AI_ENABLED cfg); simpl; [|lia].
  destruct (hf cfg) as [client|]; simpl; [|lia].
  destruct (zeroShotClassification client text) as [e1|[ls ss]]; simpl;
    [|destruct ls as [|l ls]; [|destruct ss as [|s ss]]; simpl];
    (destruct (textClassification client text) as [e2|cs]; simpl;
     [|destruct cs as [|[lb sc] cs]; simpl;
       [|destruct (_ && _); [|destruct (_ && _)]]]);
    simpl; lia.
Qed.

(** The handler never throws. After at most two remote calls it reads
    the corpus of the room once and issues one insert, with the drawn
    identifier. It broadcasts exactly when that insert succeeded, once
    and to the room of the payload; a failed insert ends the run with
    nothing sent. The record that is broadcast and the row agree on the
    identifier, the room, the student, the text and the topic label, and
    the record starts with no upvote. *)
Theorem broadcast_follows_insert (nlp : Tagger) (cfg : Config) (w : World)
    (data : submission) :
  exists calls row emitted,
    Js.run (Server.submit_question nlp cfg w data)
    = (inr tt, calls ++ DbAll (sessionCode data) :: DbRun row :: emitted)
    /\ Js.remote_calls calls = length calls
    /\ length calls <= 2
    /\ ins_id row = uuid w
    /\ (insert_question w row <> None -> emitted = [])
    /\ (insert_question w row = None ->
        exists record,
          emitted = [Emit (sessionCode data) record]
          /\ qd_id record = ins_id row
          /\ qd_sessionId record = ins_session_id row
          /\ qd_studentName record = ins_student_name row
          /\ qd_questionText record = ins_question_text row
          /\ qd_topicCluster record = ins_topic_cluster row
          /\ qd_upvotes record = 0).
Proof.
  destruct (PipelineFacts.submit_question_trace nlp cfg w data)
    as (category & analyzed & calls & E & R).
  cbv zeta in R. rewrite R.
  eexists calls, _, _. split; [reflexivity|].
  split; [apply (PipelineFacts.classify_calls_remote _ _ _ _ _ E)|].
  split.
  { pose proof (classify_calls_at_most_two cfg (questionText data)) as H.
    now rewrite E in H. }
  split; [reflexivity|]. split.
  - intros H. destruct (insert_question w _); [reflexivity | contradiction].
  - intros H. rewrite H. eexists. split; [reflexivity|]. repeat split.
Qed.

End HandlerFacts.

(** * The pages *)

(** ** The socket service *)

Module SocketFacts.

Import SocketService.

Lemma invoke_tracked (url : string) (s : service) (m : method)
    (open : list nat) :
  tracked s open ->
  tracked (fst (invoke url s m)) (fold_left live_after (snd (invoke url s m)) open).
Proof.
  intros [Hopen Hlt]. unfold invoke.
  destruct m, (socket s) as [h|] eqn:E; simpl;
    try (split; [rewrite ?E; assumption | rewrite ?E; assumption]);
    subst open.
  - split; [reflexivity|]. intros h [= <-]. simpl. lia.
  - split; [|discriminate]. simpl. now rewrite Nat.eqb_refl.
Qed.

Lemma invoke_all_tracked (url : string) (ms : list method) (s : service)
    (open : list nat) :
  tracked s open ->
  tracked (fst (invoke_all url s ms))
    (fold_left live_after (snd (invoke_all url s ms)) open).
Proof.
  revert s open. induction ms as [|m ms IH]; intros s open H; [exact H|].
  simpl. pose proof (invoke_tracked url s m open H) as H1.
  destruct (invoke url s m) as [s1 done1]. simpl in H1.
  specialize (IH s1 _ H1).
  destruct (invoke_all url s1 ms) as [s2 done2]. simpl in *.
  now rewrite fold_left_app.
Qed.

(** Whatever methods are called, in whatever order, the service leaves
    at most one socket open, and it is the one it holds: a second
    [connect] opens nothing, and [disconnect] closes the socket made. *)
Theorem one_socket_open (url : string) (ms : list method) :
  live (snd (invoke_all url initial ms))
  = match socket (fst (invoke_all url initial ms)) with
    | Some h => [h]
    | None => []
    end.
Proof.
  assert (H0 : tracked initial []) by (split; [reflexivity | discriminate]).
  destruct (invoke_all_tracked url ms initial [] H0) as [H _].
  exact H.
Qed.

(** While the service holds no socket every method but [connect] does
    nothing: no socket is opened and nothing is sent, so that questions
    submitted before [connect] or after [disconnect] are dropped. *)
Theorem nothing_done_without_socket (url : string) (s : service)
    (ms : list method) :
  socket s = None -> ~ In connect ms -> invoke_all url s ms = (s, []).
Proof.
  intros Hs. induction ms as [|m ms IH]; intros Hc; [reflexivity|].
  simpl. assert (H1 : invoke url s m = (s, [])).
  { unfold invoke. rewrite Hs. destruct m; try reflexivity.
    exfalso. apply Hc. now left. }
  rewrite H1, IH; [reflexivity|]. intros H. apply Hc. now right.
Qed.

Lemma nothing_done_without_socket_witness :
  invoke_all "http://localhost:5001" initial
    [ joinSession "101";
      submitQuestion {| pd_sessionCode := "101"; pd_studentName := "Ann";
                        pd_questionText := "What is ROI?";
                        pd_sentiment := "neutral"; pd_timestamp := 0 |};
      disconnect; onNewQuestion; off "new-question" ]
  = (initial, []).
Proof.
  apply nothing_done_without_socket; [reflexivity|].
  simpl. intuition discriminate.
Defined.

End SocketFacts.

(** ** The student page *)

Module RoomFacts.

Import Page.

Lemma trimStart_cases (s : string) :
  (trimStart s = "" /\ all_white s = true)
  \/ exists c rest, trimStart s = String c rest /\ is_white c = false
                    /\ all_white s = false.
Proof.
  induction s as [|c s IH]; [left; split; reflexivity|]. simpl.
  destruct (is_white c) eqn:E; simpl.
  - exact IH.
  - right. exists c, s. repeat split. exact E.
Qed.

Lemma trimEnd_keeps (c : ascii) (s : string) :
  is_white c = false -> trimEnd (String c s) <> "".
Proof.
  intros E. simpl. destruct (trimEnd s); [rewrite E|]; discriminate.
Qed.

(** [trim] gives the empty string exactly for the strings made of white
    space alone. *)
Lemma trim_empty (s : string) : trim s = "" <-> all_white s = true.
Proof.
  unfold trim. destruct (trimStart_cases s) as [[H1 H2]|(c & r & H1 & H2 & H3)].
  - rewrite H1. simpl. tauto.
  - rewrite H1, H3. split; [|discriminate].
    intros H. now apply trimEnd_keeps in H.
Qed.

Lemma trim_eqb (s : string) : String.eqb (trim s) "" = all_white s.
Proof.
  apply eq_true_iff_eq. rewrite String.eqb_eq. apply trim_empty.
Qed.

(** A form whose question or whose name is empty or white space only is
    not submitted: the page alerts, keeps its state and sends nothing. *)
Theorem blank_form_not_submitted (url room_id : string) (date now : nat)
    (svc : SocketService.service) (st : room) :
  all_white (question st) = true \/ all_white (Page.studentName st) = true ->
  submitQuestion url room_id date now svc st
  = (st, [Alert "Please enter both name and question"]).
Proof.
  intros H. unfold submitQuestion. rewrite !trim_eqb.
  destruct H as [-> | ->]; [reflexivity | now rewrite orb_true_r].
Qed.

Lemma blank_form_not_submitted_witness :
  submitQuestion "http://localhost:5001" "101" 7 8
    {| SocketService.socket := Some 0; SocketService.created := 1 |}
    {| Page.studentName := "Ann"; question := "  "; myQuestions := [] |}
  = ({| Page.studentName := "Ann"; question := "  "; myQuestions := [] |},
     [Alert "Please enter both name and question"]).
Proof.
  apply (blank_form_not_submitted "http://localhost:5001" "101" 7 8).
  left. reflexivity.
Defined.

(** A form with a name and a question is recorded in the list of the
    student as [submitted] and the question field is emptied, whether
    the service holds a socket or not. With a socket, one
    [submit-question] goes out, for the room of the page, with the text
    as typed (not trimmed) and the sentiment [neutral]; without one,
    nothing goes out. *)
Theorem filled_form_submitted (url room_id : string) (date now : nat)
    (svc : SocketService.service) (st : room) :
  all_white (question st) = false ->
  all_white (Page.studentName st) = false ->
  let data :=
    {| SocketService.pd_sessionCode := room_id;
       SocketService.pd_studentName := Page.studentName st;
       SocketService.pd_questionText := question st;
       SocketService.pd_sentiment := "neutral";
       SocketService.pd_timestamp := date |} in
  let st' := fst (submitQuestion url room_id date now svc st) in
  myQuestions st'
  = myQuestions st
    ++ [ {| mq_data := data; mq_status := "submitted"; mq_id := now |} ]
  /\ question st' = ""
  /\ Page.studentName st' = Page.studentName st
  /\ snd (submitQuestion url room_id date now svc st)
     = match SocketService.socket svc with
       | Some h => [Socket (SocketService.Send h (SocketService.SubmitQuestion data))]
       | None => []
       end.
Proof.
  intros Hq Hn data st'. subst st'. unfold submitQuestion.
  rewrite !trim_eqb, Hq, Hn. simpl.
  repeat split. unfold SocketService.invoke.
  destruct (SocketService.socket svc); reflexivity.
Qed.

Lemma filled_form_submitted_witness :
  snd (submitQuestion "http://localhost:5001" "101" 7 8 SocketService.initial
         {| Page.studentName := "Ann"; question := " What is ROI? ";
            myQuestions := [] |})
  = [].
Proof.
  apply (filled_form_submitted "http://localhost:5001" "101" 7 8
           SocketService.initial
           {| Page.studentName := "Ann"; question := " What is ROI? ";
              myQuestions := [] |});
    reflexivity.
Defined.

(** From the page to the teacher: whatever the student types and whatever
    the analysis of the server finds, every [new-question] the server
    broadcasts for a question sent by the page goes to the room of the
    page and carries the sentiment [neutral]. *)
Theorem page_question_broadcast_neutral (url room_id : string)
    (date now : nat) (svc : SocketService.service) (st : room) (h : nat)
    (data : SocketService.question_data) (nlp : Tagger) (cfg : Config)
    (w : World) (to : string) (record : questionData) :
  In (Socket (SocketService.Send h (SocketService.SubmitQuestion data)))
     (snd (submitQuestion url room_id date now svc st)) ->
  In (Emit to record)
     (snd (Js.run (Server.submit_question nlp cfg w (received data)))) ->
  to = room_id /\ qd_sentiment record = "neutral"
  /\ qd_questionText record = question st.
Proof.
  unfold submitQuestion.
  destruct (String.eqb (trim (question st)) ""
            || String.eqb (trim (Page.studentName st)) "").
  { simpl. intros [H|[]]. discriminate H. }
  cbn [snd]. unfold SocketService.invoke.
  destruct (SocketService.socket svc) as [h'|]; [|intros []].
  intros [H|[]]. injection H as _ <-.
  destruct (PipelineFacts.submit_question_trace nlp cfg w
              (received
                 {| SocketService.pd_sessionCode := room_id;
                    SocketService.pd_studentName := Page.studentName st;
                    SocketService.pd_questionText := question st;
                    SocketService.pd_sentiment := "neutral";
                    SocketService.pd_timestamp := date |}))
    as (category & analyzed & calls & E & R).
  cbv zeta in R. rewrite R. cbn [snd].
  pose proof (PipelineFacts.classify_calls_remote _ _ _ _ _ E) as Hremote.
  intros Hin. apply in_app_or in Hin. destruct Hin as [Hin|Hin].
  - exfalso. clear - Hremote Hin.
    induction calls as [|c calls IH]; [destruct Hin|].
    unfold Js.remote_calls in *. simpl in Hremote.
    pose proof (filter_length_le
                  (fun ev => match ev with
                             | CallZeroShot _ | CallTextClassification _ => true
                             | _ => false
                             end) calls) as Hle.
    destruct Hin as [->|Hin]; simpl in Hremote; [lia|].
    destruct c; simpl in Hremote; try lia; apply IH; try assumption; lia.
  - destruct Hin as [Hin|[Hin|Hin]]; try discriminate.
    destruct (insert_question w _); [destruct Hin|].
    destruct Hin as [Hin|[]]. injection Hin as <- <-.
    repeat split.
Qed.

Lemma page_question_broadcast_neutral_witness :
  exists record,
    In (Emit "101" record)
       (snd (Js.run (Server.submit_question WordTagger.tagger
                       (Sample.enabled Sample.answering_client)
                       (Sample.room_with [])
                       (received
                          {| SocketService.pd_sessionCode := "101";
                             SocketService.pd_studentName := "Ann";
                             SocketService.pd_questionText := "What is ROI?";
                             SocketService.pd_sentiment := "neutral";
                             SocketService.pd_timestamp := 7 |}))))
    /\ qd_sentiment record = "neutral".
Proof.
  eexists. split.
  - cbv. do 4 right. left. reflexivity.
  - apply (page_question_broadcast_neutral "http://localhost:5001" "101" 7 8
             {| SocketService.socket := Some 0; SocketService.created := 1 |}
             {| Page.studentName := "Ann"; question := "What is ROI?";
                myQuestions := [] |} 0
             {| SocketService.pd_sessionCode := "101";
                SocketService.pd_studentName := "Ann";
                SocketService.pd_questionText := "What is ROI?";
                SocketService.pd_sentiment := "neutral";
                SocketService.pd_timestamp := 7 |}
             WordTagger.tagger (Sample.enabled Sample.answering_client)
             (Sample.room_with []) "101").
    + left. reflexivity.
    + cbv. do 4 right. left. reflexivity.
Defined.

Lemma split_from_plain (sep : ascii) (piece s : string) :
  has_unit sep s = false -> split_from sep piece s = [(piece ++ s)%string].
Proof.
  revert piece. induction s as [|c s IH]; intros piece H; simpl.
  - f_equal. induction piece as [|d piece IHp]; simpl; congruence.
  - simpl in H. apply orb_false_iff in H. destruct H as [Hc Hs].
    rewrite Hc, IH by assumption. f_equal.
    induction piece as [|d piece IHp]; simpl; congruence.
Qed.

Lemma split_from_piece (sep : ascii) (piece s rest : string) :
  has_unit sep s = false ->
  split_from sep piece (s ++ String sep rest)
  = (piece ++ s)%string :: split_from sep "" rest.
Proof.
  revert piece. induction s as [|c s IH]; intros piece H; simpl.
  - rewrite Ascii.eqb_refl. f_equal.
    induction piece as [|d piece IHp]; simpl; congruence.
  - simpl in H. apply orb_false_iff in H. destruct H as [Hc Hs].
    rewrite Hc, IH by assumption. f_equal.
    induction piece as [|d piece IHp]; simpl; congruence.
Qed.

(** The room of a page is the second segment of its path: for the paths
    [/room/<id>] and [/teacher/<id>] of the routes, and for the links
    the server makes, it is [<id>], as long as [<id>] holds no slash. *)
Theorem roomId_of_route (kind id : string) :
  has_unit "/" kind = false -> has_unit "/" id = false ->
  roomId ("/" ++ kind ++ "/" ++ id) = Some id.
Proof.
  intros Hk Hi. unfold roomId, split. simpl.
  rewrite split_from_piece by assumption.
  rewrite split_from_plain by assumption. reflexivity.
Qed.

Lemma roomId_of_route_witness : roomId "/teacher/101" = Some "101".
Proof.
  apply (roomId_of_route "teacher" "101"); reflexivity.
Defined.

End RoomFacts.

(** ** The teacher page *)

Module TeacherFacts.

Import Page.

Lemma own_group_map (f : string -> list listed) (l : list string)
    (key : string) :
  own_group (map (fun c => (c, f c)) l) key
  = if JaccardSpec.member key l then Some (f key) else None.
Proof.
  induction l as [|k l IH]; simpl; [reflexivity|].
  destruct (String.eqb_spec k key) as [->|Hne].
  - unfold JaccardSpec.member.
    destruct (in_dec string_dec key (key :: l)) as [_|H]; [reflexivity|].
    exfalso. apply H. now left.
  - rewrite IH. unfold JaccardSpec.member.
    destruct (in_dec string_dec key l), (in_dec string_dec key (k :: l));
      simpl in *; try reflexivity; intuition congruence.
Qed.

Lemma push_to_map (f : string -> list listed) (l : list string)
    (key : string) (q : listed) :
  NoDup l ->
  push_to (map (fun c => (c, f c)) l) key q
  = map (fun c => (c, if String.eqb c key then f c ++ [q] else f c)) l.
Proof.
  induction l as [|k l IH]; intros Hnd; [reflexivity|].
  inversion Hnd as [|? ? Hk Hnd']; subst. simpl.
  destruct (String.eqb_spec k key) as [->|Hne].
  - f_equal. apply map_ext_in. intros c Hc.
    destruct (String.eqb_spec c key); [congruence | reflexivity].
  - f_equal. now apply IH.
Qed.

Lemma filter_snoc (c : string) (seen : list listed) (q : listed) :
  filter (fun q' => String.eqb (category_of q') c) (seen ++ [q])
  = filter (fun q' => String.eqb (category_of q') c) seen
    ++ (if String.eqb (category_of q) c then [q] else []).
Proof.
  rewrite filter_app. simpl. now destruct (String.eqb (category_of q) c).
Qed.

(** One round of the [reduce] on the groups of the questions seen. *)
Lemma group_step_grouped (seen : list listed) (q : listed) :
  group_step (grouped seen) q
  = if JsObject.inherited (category_of q)
       && negb (JaccardSpec.member (category_of q) (map category_of seen))
    then inl "TypeError"
    else inr (grouped (seen ++ [q])).
Proof.
  unfold group_step, grouped. rewrite own_group_map.
  replace (map category_of (seen ++ [q]))
    with (map category_of seen ++ [category_of q])
    by (now rewrite map_app).
  rewrite TableFacts.first_seen_snoc.
  replace (JaccardSpec.member (category_of q)
             (TopicSpec.first_seen (map category_of seen)))
    with (JaccardSpec.member (category_of q) (map category_of seen))
    by (apply eq_true_iff_eq;
        now rewrite !SetFacts.member_In, TableFacts.first_seen_In).
  destruct (JaccardSpec.member (category_of q) (map category_of seen)) eqn:E.
  - rewrite andb_false_r, app_nil_r.
    rewrite push_to_map by apply TableFacts.first_seen_NoDup.
    f_equal. apply map_ext. intros c. rewrite filter_snoc.
    rewrite (String.eqb_sym c).
    destruct (String.eqb (category_of q) c); [reflexivity|].
    now rewrite app_nil_r.
  - rewrite andb_true_r.
    destruct (JsObject.inherited (category_of q)); [reflexivity|].
    apply f_equal. rewrite map_app. cbn [map]. apply f_equal2.
    + apply map_ext_in. intros c Hc. rewrite filter_snoc.
      rewrite TableFacts.first_seen_In in Hc.
      destruct (String.eqb_spec (category_of q) c) as [<-|];
        [|now rewrite app_nil_r].
      rewrite <- SetFacts.member_In in Hc. congruence.
    + rewrite filter_snoc, String.eqb_refl.
      assert (Hnone : forall l,
                ~ In (category_of q) (map category_of l) ->
                filter (fun q' => String.eqb (category_of q') (category_of q)) l
                = []).
      { induction l as [|x l IHl]; intros Hout; [reflexivity|]. simpl.
        destruct (String.eqb_spec (category_of x) (category_of q)) as [Heq|].
        - exfalso. apply Hout. left. exact Heq.
        - apply IHl. intros H. apply Hout. now right. }
      rewrite Hnone; [reflexivity|].
      intros H. apply SetFacts.member_In in H. congruence.
Qed.

(** The [reduce] from the groups of questions whose categories are not
    inherited names: it ends with the groups of all the questions, or
    throws at a question whose category is an inherited name. *)
Lemma reduce_grouped (questions seen : list listed) :
  Forall (fun q => JsObject.inherited (category_of q) = false) seen ->
  match reduce_groups (grouped seen) questions with
  | inr g =>
      Forall (fun q => JsObject.inherited (category_of q) = false) questions
      /\ g = grouped (seen ++ questions)
  | inl _ =>
      Exists (fun q => JsObject.inherited (category_of q) = true) questions
  end.
Proof.
  revert seen. induction questions as [|q questions IH]; intros seen Hseen.
  - simpl. split; [constructor | now rewrite app_nil_r].
  - simpl. rewrite group_step_grouped.
    destruct (JsObject.inherited (category_of q)) eqn:Hq.
    + assert (E : JaccardSpec.member (category_of q) (map category_of seen)
                  = false).
      { apply not_true_iff_false. intros E.
        apply SetFacts.member_In, in_map_iff in E.
        destruct E as (x & Hx & Hin). rewrite Forall_forall in Hseen.
        specialize (Hseen x Hin). congruence. }
      rewrite E. simpl. now left.
    + simpl. assert (Hseen' : Forall
                 (fun q => JsObject.inherited (category_of q) = false)
                 (seen ++ [q])).
      { apply Forall_app. split; [assumption|]. now constructor. }
      specialize (IH (seen ++ [q]) Hseen').
      destruct (reduce_groups (grouped (seen ++ [q])) questions) as [e|g].
      * now right.
      * destruct IH as [Hall ->]. split; [now constructor|].
        now rewrite <- app_assoc.
Qed.

Lemma push_to_total (g : groups) (key : string) (q : listed)
    (members : list listed) :
  own_group g key = Some members -> total (push_to g key q) = S (total g).
Proof.
  unfold total. induction g as [|[k m] g IH]; [discriminate|]. simpl.
  destruct (String.eqb k key).
  - intros _. simpl. rewrite length_app. simpl. lia.
  - intros H. simpl. rewrite (IH H). lia.
Qed.

Lemma reduce_total (questions : list listed) (g0 g : groups) :
  reduce_groups g0 questions = inr g -> total g = total g0 + length questions.
Proof.
  revert g0. induction questions as [|q questions IH]; intros g0 H; simpl in *.
  - injection H as <-. lia.
  - destruct (group_step g0 q) as [e|g1] eqn:E; [discriminate|].
    rewrite (IH g1 H). unfold group_step in E.
    destruct (own_group g0 (category_of q)) as [m|] eqn:O.
    + injection E as <-. rewrite (push_to_total _ _ _ _ O). lia.
    + destruct (JsObject.inherited (category_of q)); [discriminate|].
      injection E as <-. unfold total. rewrite map_app, list_sum_app.
      simpl. lia.
Qed.

(** The grouping of the teacher page either throws, for a question whose
    category is the name of a member plain objects inherit, or makes a
    partition of the questions: one group per category, in the order in
    which the categories were first seen, each with the questions of that
    category in the order of arrival; no group is empty and the sizes of
    the groups add up to the number of questions. *)
Theorem groupedQuestions_partition (questions : list listed) :
  match groupedQuestions questions with
  | inr g =>
      Forall (fun q => JsObject.inherited (category_of q) = false) questions
      /\ map fst g = TopicSpec.first_seen (map category_of questions)
      /\ (forall c members, In (c, members) g ->
            members = filter (fun q => String.eqb (category_of q) c) questions
            /\ members <> [])
      /\ total g = length questions
  | inl _ =>
      Exists (fun q => JsObject.inherited (category_of q) = true) questions
  end.
Proof.
  unfold groupedQuestions.
  pose proof (reduce_grouped questions [] (Forall_nil _)) as H.
  pose proof (reduce_total questions []) as Ht.
  change (grouped []) with (@nil (string * list listed)) in H.
  destruct (reduce_groups [] questions) as [e|g]; [exact H|].
  destruct H as [Hall ->]. simpl app. split; [exact Hall|]. split.
  - unfold grouped. rewrite map_map. simpl. apply map_id.
  - split; [|exact (Ht _ eq_refl)].
    intros c members Hin. unfold grouped in Hin. apply in_map_iff in Hin.
    destruct Hin as (c' & [= <- <-] & Hc). split; [reflexivity|].
    apply TableFacts.first_seen_In, in_map_iff in Hc.
    destruct Hc as (q & Hq & Hin). intros Hnil.
    assert (Hq' : In q (filter (fun q' => String.eqb (category_of q') c')
                           questions)).
    { apply filter_In. split; [assumption|]. rewrite Hq.
      apply String.eqb_refl. }
    rewrite Hnil in Hq'. destruct Hq'.
Qed.

Lemma reduce_loaded (questions members : list listed) :
  forallb is_loaded questions = true ->
  reduce_groups [("general", members)] questions
  = inr [("general", members ++ questions)].
Proof.
  revert members. induction questions as [|q questions IH]; intros members H.
  - simpl. now rewrite app_nil_r.
  - simpl in H. apply andb_true_iff in H. destruct H as [Hq Hqs].
    destruct q; [|discriminate]. simpl.
    rewrite IH by assumption. now rewrite <- app_assoc.
Qed.

(** Questions loaded from the database have no category: when the list
    of the teacher holds loaded rows only, as after a reload of the page,
    they all fall in the one group [general], in their order. *)
Theorem loaded_questions_all_general (questions : list listed) :
  questions <> [] -> forallb is_loaded questions = true ->
  groupedQuestions questions = inr [("general", questions)].
Proof.
  intros Hne H. destruct questions as [|q questions]; [contradiction|].
  simpl in H. apply andb_true_iff in H. destruct H as [Hq Hqs].
  destruct q; [|discriminate]. unfold groupedQuestions. simpl.
  now rewrite reduce_loaded.
Qed.

Lemma loaded_questions_all_general_witness :
  groupedQuestions
    [ Loaded "q1" "Ann" "What is ROI?"; Loaded "q2" "Bob" "Why does this happen" ]
  = inr [("general",
          [ Loaded "q1" "Ann" "What is ROI?";
            Loaded "q2" "Bob" "Why does this happen" ])].
Proof.
  apply loaded_questions_all_general; [discriminate | reflexivity].
Defined.

Lemma group_entries_perm (g : groups) : Permutation (group_entries g) g.
Proof.
  unfold group_entries. rewrite SortFacts.sort_perm.
  induction g as [|p g IH]; simpl; [reflexivity|].
  destruct (group_is_index p); simpl.
  - now constructor.
  - rewrite <- Permutation_middle. now constructor.
Qed.

(** The category shown as the most common one is a category of a group
    of maximal size: no group holds more questions than its group. *)
Theorem mostCommonCategory_largest (g : groups) :
  g <> [] ->
  exists top,
    In (mostCommonCategory g, top) g
    /\ forall c members, In (c, members) g -> length members <= length top.
Proof.
  intros Hne.
  assert (Hperm : Permutation (displayed g) g).
  { unfold displayed. rewrite SortFacts.sort_perm. apply group_entries_perm. }
  assert (Hsorted : StronglySorted
                      (fun p r => length (snd r) <= length (snd p))
                      (displayed g)).
  { unfold displayed.
    apply SortFacts.sort_sorted with (ok := fun _ => True).
    - intros p r _ _ H. unfold by_size_desc in H.
      destruct (Nat.compare_spec (length (snd r)) (length (snd p)));
        try lia. congruence.
    - intros p r _ _ H. unfold by_size_desc in H.
      apply Nat.compare_gt_iff in H. lia.
    - intros; lia.
    - apply Forall_forall. auto. }
  unfold mostCommonCategory.
  destruct (displayed g) as [|[c0 top] rest] eqn:E.
  - apply Permutation_nil in Hperm. contradiction.
  - exists top. split.
    + apply (Permutation_in _ Hperm). now left.
    + intros c members Hin.
      apply (Permutation_in _ (Permutation_sym Hperm)) in Hin.
      inversion Hsorted as [|? ? _ Hall]; subst.
      destruct Hin as [[= -> ->]|Hin]; [lia|].
      rewrite Forall_forall in Hall. apply (Hall _ Hin).
Qed.

Lemma mostCommonCategory_largest_witness :
  exists top,
    In (mostCommonCategory
          [("general", [Loaded "q1" "Ann" "Tell me about bonds"]);
           ("definition", [Loaded "q2" "Bob" "a"; Loaded "q3" "Cy" "b"])],
        top)
       [("general", [Loaded "q1" "Ann" "Tell me about bonds"]);
        ("definition", [Loaded "q2" "Bob" "a"; Loaded "q3" "Cy" "b"])]
    /\ length top = 2.
Proof.
  destruct (mostCommonCategory_largest
              [("general", [Loaded "q1" "Ann" "Tell me about bonds"]);
               ("definition", [Loaded "q2" "Bob" "a"; Loaded "q3" "Cy" "b"])])
    as (top & Hin & Hmax); [discriminate|].
  exists top. split; [exact Hin|].
  destruct Hin as [Hin|[Hin|[]]]; [discriminate Hin|].
  injection Hin as <-. reflexivity.
Defined.

End TeacherFacts.

(** * The server on its database *)

(** ** The tables *)

Module StoreFacts.

Import Sqlite.

Lemma mentions_In (x : string) (l : list string) :
  mentions x l = true <-> In x l.
Proof.
  unfold mentions. rewrite existsb_exists. split.
  - intros (y & Hy & E). apply String.eqb_eq in E. now subst.
  - intros H. exists x. split; [assumption | apply String.eqb_refl].
Qed.

Lemma mentions_false (x : string) (l : list string) :
  mentions x l = false <-> ~ In x l.
Proof.
  rewrite <- mentions_In. destruct (mentions x l); split; intros H;
    congruence.
Qed.

Lemma upvote_ids (db : Db) (id : string) :
  map q_id (questions (fst (upvote db id))) = map q_id (questions db).
Proof.
  simpl. rewrite map_map. apply map_ext. intros q.
  now destruct (String.eqb (q_id q) id).
Qed.

End StoreFacts.

(** ** The handler of [submit-question] on the database *)

Module SubmitFacts.

(** The calls the classification makes leave the database as it is. *)
Lemma after_calls (clock : nat) (calls : list event) (db : Sqlite.Db) :
  Js.remote_calls calls = length calls ->
  fold_left (Backend.after clock) calls db = db.
Proof.
  induction calls as [|c calls IH]; intros H; [reflexivity|].
  unfold Js.remote_calls in *. simpl in H.
  pose proof (filter_length_le
                (fun ev => match ev with
                           | CallZeroShot _ | CallTextClassification _ => true
                           | _ => false
                           end) calls) as Hle.
  destruct c; simpl in H; try lia; simpl; apply IH; lia.
Qed.

(** The database after a run of the handler of [submit-question]: the
    one insert of the run, when it succeeds. *)
Lemma submit_question_db (nlp : Tagger) (cfg : Config) (db : Sqlite.Db)
    (clock : nat) (id : string) (data : submission) :
  exists category analyzed calls,
    Js.run (Server.classify cfg (questionText data))
    = (inr (category, analyzed), calls)
    /\ Js.remote_calls calls = length calls
    /\ let rows :=
         map Backend.as_question (Sqlite.questions_of db (sessionCode data)) in
       let found := FreeAI.findSimilarQuestions nlp (questionText data) rows in
       let topic := Server.topicSummary nlp (questionText data) rows in
       let cluster := Server.topicCluster category topic in
       let row := Server.inserted_row data id analyzed cluster in
       Backend.submit_question nlp cfg db clock id data
       = match Sqlite.insert_question db clock row with
         | inl _ =>
             (db, calls ++ [DbAll (sessionCode data); DbRun row])
         | inr db' =>
             (db',
              calls ++ [DbAll (sessionCode data); DbRun row;
                        Emit (sessionCode data)
                          (Server.broadcast_record
                             (Backend.world_of db clock id) data id category
                             cluster found topic)])
         end.
Proof.
  destruct (PipelineFacts.submit_question_trace nlp cfg
              (Backend.world_of db clock id) data)
    as (category & analyzed & calls & E & R).
  pose proof (PipelineFacts.classify_calls_remote _ _ _ _ _ E) as Hremote.
  exists category, analyzed, calls. split; [exact E|]. split; [exact Hremote|].
  cbv zeta in R |- *. unfold Backend.submit_question. rewrite R. cbn [snd].
  cbn [Backend.world_of select_questions Server.corpus_of uuid
         insert_question].
  rewrite fold_left_app, (after_calls clock calls db Hremote).
  destruct (Sqlite.insert_question db clock _) eqn:I; simpl; rewrite I;
    reflexivity.
Qed.

End SubmitFacts.

(** ** Questions from one submission to the next *)

Module StoredFacts.

Lemma questions_of_snoc (db : Sqlite.Db) (q : Sqlite.question_row)
    (session : string) :
  filter (fun r => String.eqb (Sqlite.q_session_id r) session)
    (Sqlite.questions db ++ [q])
  = Sqlite.questions_of db session
    ++ (if String.eqb (Sqlite.q_session_id q) session then [q] else []).
Proof.
  unfold Sqlite.questions_of. rewrite filter_app. simpl.
  now destruct (String.eqb (Sqlite.q_session_id q) session).
Qed.

(** A submission whose drawn identifier is not in the table is stored:
    the table of questions grows by one row, last in its room, with the
    room, the student and the text of the payload, the analyzed
    sentiment, no upvote and the time of the insert; the other tables are
    left as they are, and the record broadcast has the identifier of the
    row. *)
Theorem question_stored (nlp : Tagger) (cfg : Config) (db : Sqlite.Db)
    (clock : nat) (id : string) (data : submission) :
  Sqlite.mentions id (map Sqlite.q_id (Sqlite.questions db)) = false ->
  let out := Backend.submit_question nlp cfg db clock id data in
  exists category analyzed calls stored row record,
    Js.run (Server.classify cfg (questionText data))
    = (inr (category, analyzed), calls)
    /\ Sqlite.questions (fst out) = Sqlite.questions db ++ [stored]
    /\ Sqlite.questions_of (fst out) (sessionCode data)
       = Sqlite.questions_of db (sessionCode data) ++ [stored]
    /\ Sqlite.sessions (fst out) = Sqlite.sessions db
    /\ Sqlite.sentiments (fst out) = Sqlite.sentiments db
    /\ Sqlite.q_id stored = id
    /\ Sqlite.q_session_id stored = sessionCode data
    /\ Sqlite.q_student_name stored = studentName data
    /\ Sqlite.q_question_text stored = questionText data
    /\ Sqlite.q_sentiment stored = analyzed
    /\ Sqlite.q_upvotes stored = 0
    /\ Sqlite.q_timestamp stored = clock
    /\ snd out = calls ++ [DbAll (sessionCode data); DbRun row;
                           Emit (sessionCode data) record]
    /\ qd_id record = id.
Proof.
  intros Hfresh out. subst out.
  destruct (SubmitFacts.submit_question_db nlp cfg db clock id data)
    as (category & analyzed & calls & E & _ & R).
  cbv zeta in R. rewrite R. unfold Sqlite.insert_question.
  cbn [Server.inserted_row ins_id]. rewrite Hfresh.
  exists category, analyzed, calls. eexists. eexists. eexists.
  split; [exact E|]. cbn [fst snd Sqlite.questions Sqlite.sessions
                            Sqlite.sentiments].
  split; [reflexivity|]. split.
  { unfold Sqlite.questions_of at 1. cbn [Sqlite.questions].
    rewrite questions_of_snoc. cbn [Sqlite.q_session_id ins_session_id].
    now rewrite String.eqb_refl. }
  repeat split.
Qed.

Lemma question_stored_witness :
  exists stored,
    Sqlite.questions
      (fst (Backend.submit_question WordTagger.tagger Sample.disabled
              Sqlite.empty 5 "id-1" (Sample.asks "What is ROI?")))
    = [stored]
    /\ Sqlite.q_sentiment stored = "neutral"
    /\ Sqlite.q_upvotes stored = 0.
Proof.
  destruct (question_stored WordTagger.tagger Sample.disabled Sqlite.empty
              5 "id-1" (Sample.asks "What is ROI?"))
    as (category & analyzed & calls & stored & row & record & E & Hq & _ & _
        & _ & _ & _ & _ & _ & Hs & Hu & _);
    [reflexivity|].
  exists stored. split; [exact Hq|]. split; [|exact Hu].
  rewrite Hs. vm_compute in E. now injection E as _ <- _.
Defined.

(** The one result for a corpus that holds the text of the new question,
    when the text has a keyword. *)
Lemma same_text_found (nlp : Tagger) (newText : string) (i : option string) :
  JaccardSpec.keywords_of nlp newText <> [] ->
  FreeAI.findSimilarQuestions nlp newText
    [ {| id := i; question_text := newText |} ]
  = [ {| questionId := i; similarity := JsNumber.Fin 1; text := newText |} ].
Proof.
  intros Hne.
  rewrite SimilarityFacts.findSimilarQuestions_sorted_matches.
  set (a := JaccardSpec.keywords_of nlp newText) in *.
  assert (Hc : JaccardSpec.common a a = JaccardSpec.distinct a).
  { unfold JaccardSpec.common. apply MatcherFacts.distinct_same. intros y.
    rewrite filter_In, SetFacts.member_In. tauto. }
  assert (He : JaccardSpec.either a a = JaccardSpec.distinct a).
  { unfold JaccardSpec.either. apply MatcherFacts.distinct_same. intros y.
    rewrite in_app_iff. tauto. }
  pose proof (MatcherFacts.distinct_positive a Hne) as Hpos.
  assert (Hth : JaccardSpec.above_threshold a a = true).
  { unfold JaccardSpec.above_threshold. apply Nat.ltb_lt. lia. }
  unfold JaccardSpec.matches. cbn [filter question_text]. fold a.
  rewrite Hth. cbn [map JsArray.sort JsArray.insert].
  unfold JaccardSpec.result_of. cbn [id question_text]. fold a.
  rewrite MatcherFacts.ratio_one; [reflexivity | lia | lia].
Qed.

(** The end-to-end scenario of a repeated question. In a room without
    questions, a text with a keyword is submitted twice, with two
    identifiers not yet in the table: the second submission is broadcast
    with one similar question, the first one, at the score 1, and with a
    summary of 2 questions of urgency [medium]. *)
Theorem repeated_question_is_clustered (nlp : Tagger) (cfg1 cfg2 : Config)
    (db : Sqlite.Db) (clock1 clock2 : nat)
    (id1 id2 room name1 name2 text sent1 sent2 : string) :
  Sqlite.questions_of db room = [] ->
  Sqlite.mentions id1 (map Sqlite.q_id (Sqlite.questions db)) = false ->
  Sqlite.mentions id2 (map Sqlite.q_id (Sqlite.questions db)) = false ->
  id1 <> id2 ->
  JaccardSpec.keywords_of nlp text <> [] ->
  let first := {| sessionCode := room; studentName := name1;
                  questionText := text; sentiment := sent1 |} in
  let second := {| sessionCode := room; studentName := name2;
                   questionText := text; sentiment := sent2 |} in
  let db1 := fst (Backend.submit_question nlp cfg1 db clock1 id1 first) in
  exists record t,
    In (Emit room record)
       (snd (Backend.submit_question nlp cfg2 db1 clock2 id2 second))
    /\ qd_similarQuestions record
       = [ {| questionId := Some id1; similarity := JsNumber.Fin 1;
              text := text |} ]
    /\ qd_topicSummary record = Some t
    /\ questionCount t = 2
    /\ urgency t = "medium".
Proof.
  intros Hroom H1 H2 Hne Hkw first second db1.
  assert (Hdb1 : exists stored,
            Sqlite.questions db1 = Sqlite.questions db ++ [stored]
            /\ Sqlite.questions_of db1 room = [stored]
            /\ Sqlite.q_id stored = id1
            /\ Sqlite.q_question_text stored = text).
  { subst db1.
    destruct (SubmitFacts.submit_question_db nlp cfg1 db clock1 id1 first)
      as (category & analyzed & calls & E & _ & R).
    cbv zeta in R. rewrite R. unfold Sqlite.insert_question.
    cbn [Server.inserted_row ins_id]. rewrite H1. eexists.
    cbn [fst Sqlite.questions]. split; [reflexivity|]. split.
    - unfold Sqlite.questions_of at 1. cbn [Sqlite.questions].
      rewrite questions_of_snoc, Hroom.
      cbn [Sqlite.q_session_id ins_session_id first sessionCode].
      now rewrite String.eqb_refl.
    - split; reflexivity. }
  destruct Hdb1 as (stored & Hq1 & Hroom1 & Hid & Htext).
  destruct (SubmitFacts.submit_question_db nlp cfg2 db1 clock2 id2 second)
    as (category & analyzed & calls & E & _ & R).
  cbv zeta in R. rewrite R. clear R.
  cbn [second sessionCode questionText]. rewrite Hroom1.
  cbn [map]. unfold Backend.as_question. rewrite Hid, Htext.
  unfold Sqlite.insert_question at 1. cbn [Server.inserted_row ins_id].
  assert (Hfresh : Sqlite.mentions id2 (map Sqlite.q_id (Sqlite.questions db1))
                   = false).
  { rewrite Hq1, map_app. apply StoreFacts.mentions_false.
    intros Hin. apply in_app_or in Hin. destruct Hin as [Hin|[Hin|[]]].
    - apply StoreFacts.mentions_false in H2. contradiction.
    - simpl in Hin. congruence. }
  rewrite Hfresh. cbn [snd].
  unfold Server.topicSummary.
  rewrite (same_text_found nlp text (Some id1) Hkw).
  eexists. eexists. split.
  { apply in_or_app. right. right. right. left. reflexivity. }
  cbn [Server.broadcast_record qd_similarQuestions qd_topicSummary].
  split; [reflexivity|].
  unfold Server.relatedQuestions, Server.refers_to. simpl filter.
  rewrite String.eqb_refl. simpl.
  split; [reflexivity|]. split; reflexivity.
Qed.

Lemma repeated_question_is_clustered_witness :
  exists record t,
    In (Emit "101" record)
       (snd (Backend.submit_question WordTagger.tagger Sample.disabled
               (fst (Backend.submit_question WordTagger.tagger Sample.disabled
                       Sqlite.empty 5 "id-1"
                       {| sessionCode := "101"; studentName := "Ann";
                          questionText := "What does ROI mean?";
                          sentiment := "neutral" |}))
               6 "id-2"
               {| sessionCode := "101"; studentName := "Bob";
                  questionText := "What does ROI mean?";
                  sentiment := "neutral" |}))
    /\ qd_similarQuestions record
       = [ {| questionId := Some "id-1"; similarity := JsNumber.Fin 1;
              text := "What does ROI mean?" |} ]
    /\ qd_topicSummary record = Some t
    /\ questionCount t = 2
    /\ urgency t = "medium".
Proof.
  apply (repeated_question_is_clustered WordTagger.tagger Sample.disabled
           Sample.disabled Sqlite.empty 5 6 "id-1" "id-2" "101" "Ann" "Bob"
           "What does ROI mean?" "neutral" "neutral");
    try reflexivity; discriminate.
Defined.

End StoredFacts.

(** ** Upvotes *)

Module UpvoteFacts.

Lemma find_unique (l : list Sqlite.question_row) (q : Sqlite.question_row) :
  NoDup (map Sqlite.q_id l) -> In q l ->
  find (fun r => String.eqb (Sqlite.q_id r) (Sqlite.q_id q)) l = Some q.
Proof.
  induction l as [|r l IH]; intros Hnd Hin; [destruct Hin|].
  simpl in Hnd. inversion Hnd as [|? ? Hr Hl]; subst. simpl.
  destruct (String.eqb_spec (Sqlite.q_id r) (Sqlite.q_id q)) as [E|E].
  - destruct Hin as [->|Hin]; [reflexivity|].
    exfalso. apply Hr. rewrite E. now apply in_map.
  - destruct Hin as [->|Hin]; [congruence|]. now apply IH.
Qed.

Lemma count_unique (l : list Sqlite.question_row) (q : Sqlite.question_row) :
  NoDup (map Sqlite.q_id l) -> In q l ->
  length (filter (fun r => String.eqb (Sqlite.q_id r) (Sqlite.q_id q)) l) = 1.
Proof.
  induction l as [|r l IH]; intros Hnd Hin; [destruct Hin|].
  simpl in Hnd. inversion Hnd as [|? ? Hr Hl]; subst. simpl.
  destruct (String.eqb_spec (Sqlite.q_id r) (Sqlite.q_id q)) as [E|E].
  - simpl. f_equal.
    assert (Hnone : forall l',
              ~ In (Sqlite.q_id q) (map Sqlite.q_id l') ->
              filter (fun r' => String.eqb (Sqlite.q_id r') (Sqlite.q_id q)) l'
              = []).
    { induction l' as [|x l' IHl']; intros Hout; [reflexivity|]. simpl.
      destruct (String.eqb_spec (Sqlite.q_id x) (Sqlite.q_id q)) as [Ex|Ex].
      - exfalso. apply Hout. left. exact Ex.
      - apply IHl'. intros H. apply Hout. now right. }
    rewrite Hnone; [reflexivity|]. now rewrite <- E.
  - destruct Hin as [->|Hin]; [congruence|]. now apply IH.
Qed.

(** One upvote of a stored question. *)
Lemma upvote_stored (db : Sqlite.Db) (q : Sqlite.question_row) :
  Sqlite.consistent db -> In q (Sqlite.questions db) ->
  let db' := fst (Sqlite.upvote db (Sqlite.q_id q)) in
  snd (Sqlite.upvote db (Sqlite.q_id q)) = 1
  /\ Sqlite.consistent db'
  /\ In (Sqlite.upvoted q) (Sqlite.questions db')
  /\ forall r, In r (Sqlite.questions db) ->
               Sqlite.q_id r <> Sqlite.q_id q -> In r (Sqlite.questions db').
Proof.
  intros (H1 & H2 & H3 & H4) Hin db'. subst db'. split; [|split; [|split]].
  - simpl. now apply count_unique.
  - repeat split; try assumption. now rewrite StoreFacts.upvote_ids.
  - simpl. apply in_map_iff. exists q. now rewrite String.eqb_refl.
  - intros r Hr Hne. simpl. apply in_map_iff. exists r.
    split; [|assumption].
    destruct (String.eqb_spec (Sqlite.q_id r) (Sqlite.q_id q)); congruence.
Qed.

Lemma upvote_times_S (n : nat) (db : Sqlite.Db)
    (data : SocketService.upvote_data) :
  Backend.upvote_times (S n) db data
  = (fst (Backend.upvote_times n
            (fst (Sqlite.upvote db (SocketService.ud_questionId data))) data),
     Backend.Broadcast (SocketService.ud_sessionCode data)
       (Backend.QuestionUpvoted (SocketService.ud_questionId data)
          (snd (Sqlite.upvote db (SocketService.ud_questionId data))))
     :: snd (Backend.upvote_times n
               (fst (Sqlite.upvote db (SocketService.ud_questionId data)))
               data)).
Proof.
  cbn [Backend.upvote_times]. unfold Backend.upvote_question.
  destruct (Sqlite.upvote db (SocketService.ud_questionId data)) as [db1 c].
  cbn [fst snd]. destruct (Backend.upvote_times n db1 data). reflexivity.
Qed.

(** In a table whose ids are pairwise distinct, [n] upvotes of a stored
    question raise its stored count by [n] and leave the other questions
    as they are, while each of the [n] events broadcast carries the count
    1: the number of rows the statement changed, not the upvotes of the
    question. *)
Theorem upvote_event_carries_one (n : nat) (db : Sqlite.Db)
    (data : SocketService.upvote_data) (q : Sqlite.question_row) :
  Sqlite.consistent db ->
  In q (Sqlite.questions db) ->
  Sqlite.q_id q = SocketService.ud_questionId data ->
  let db' := fst (Backend.upvote_times n db data) in
  Backend.stored_upvotes db' (SocketService.ud_questionId data)
  = Some (Sqlite.q_upvotes q + n)
  /\ snd (Backend.upvote_times n db data)
     = repeat (Backend.Broadcast (SocketService.ud_sessionCode data)
                 (Backend.QuestionUpvoted (SocketService.ud_questionId data) 1))
         n
  /\ forall r, In r (Sqlite.questions db) ->
               Sqlite.q_id r <> Sqlite.q_id q -> In r (Sqlite.questions db').
Proof.
  revert db q. induction n as [|n IH]; intros db q Hc Hin Hid db'; subst db'.
  - simpl. split; [|split; [reflexivity | auto]].
    unfold Backend.stored_upvotes. rewrite <- Hid.
    destruct Hc as (_ & _ & H3 & _).
    rewrite (find_unique _ _ H3 Hin). simpl. f_equal. lia.
  - destruct (upvote_stored db q Hc Hin) as (Hone & Hc1 & Hin1 & Hrest1).
    rewrite upvote_times_S. cbn [fst snd]. rewrite <- Hid, Hone.
    assert (Hid1 : Sqlite.q_id (Sqlite.upvoted q)
                   = SocketService.ud_questionId data)
      by (simpl; congruence).
    destruct (IH (fst (Sqlite.upvote db (Sqlite.q_id q))) (Sqlite.upvoted q)
                Hc1 Hin1 Hid1) as (Hs & Ho & Hr).
    rewrite <- Hid in Hs, Ho. split; [|split].
    + rewrite Hs. simpl. f_equal. lia.
    + rewrite Ho. reflexivity.
    + intros r Hrin Hne. apply Hr; [now apply Hrest1 | simpl; congruence].
Qed.

Lemma upvote_event_carries_one_witness :
  snd (Backend.upvote_times 3
         {| Sqlite.sessions := [];
            Sqlite.questions :=
              [ {| Sqlite.q_id := "id-1"; Sqlite.q_session_id := "101";
                   Sqlite.q_student_name := "Ann";
                   Sqlite.q_question_text := "What is ROI?";
                   Sqlite.q_sentiment := "neutral"; Sqlite.q_timestamp := 5;
                   Sqlite.q_upvotes := 0;
                   Sqlite.q_topic_cluster := "What & ROI?" |} ];
            Sqlite.sentiments := [] |}
         {| SocketService.ud_questionId := "id-1";
            SocketService.ud_sessionCode := "101" |})
  = repeat (Backend.Broadcast "101" (Backend.QuestionUpvoted "id-1" 1)) 3.
Proof.
  apply (upvote_event_carries_one 3 _
           {| SocketService.ud_questionId := "id-1";
              SocketService.ud_sessionCode := "101" |}
           {| Sqlite.q_id := "id-1"; Sqlite.q_session_id := "101";
              Sqlite.q_student_name := "Ann";
              Sqlite.q_question_text := "What is ROI?";
              Sqlite.q_sentiment := "neutral"; Sqlite.q_timestamp := 5;
              Sqlite.q_upvotes := 0;
              Sqlite.q_topic_cluster := "What & ROI?" |}).
  - repeat split; simpl; repeat constructor; intros [].
  - left. reflexivity.
  - reflexivity.
Defined.

(** An upvote of a question that is not stored changes no row and is
    broadcast all the same, with the count 0. *)
Theorem upvote_unknown_question (db : Sqlite.Db)
    (data : SocketService.upvote_data) :
  ~ In (SocketService.ud_questionId data) (map Sqlite.q_id (Sqlite.questions db)) ->
  Backend.upvote_question db data
  = (db, [Backend.Broadcast (SocketService.ud_sessionCode data)
            (Backend.QuestionUpvoted (SocketService.ud_questionId data) 0)]).
Proof.
  intros Hout. unfold Backend.upvote_question, Sqlite.upvote.
  assert (Hmap : forall l,
            ~ In (SocketService.ud_questionId data) (map Sqlite.q_id l) ->
            map (fun q => if String.eqb (Sqlite.q_id q)
                               (SocketService.ud_questionId data)
                          then Sqlite.upvoted q else q) l = l
            /\ filter (fun q => String.eqb (Sqlite.q_id q)
                                  (SocketService.ud_questionId data)) l = []).
  { induction l as [|r l IH]; intros H; [split; reflexivity|]. simpl.
    destruct (String.eqb_spec (Sqlite.q_id r) (SocketService.ud_questionId data))
      as [E|E].
    - exfalso. apply H. left. exact E.
    - destruct IH as [IH1 IH2]; [intros Hin; apply H; now right|].
      now rewrite IH1, IH2. }
  destruct (Hmap _ Hout) as [-> ->]. destruct db; reflexivity.
Qed.

Lemma upvote_unknown_question_witness :
  Backend.upvote_question Sqlite.empty
    {| SocketService.ud_questionId := "id-9";
       SocketService.ud_sessionCode := "101" |}
  = (Sqlite.empty,
     [Backend.Broadcast "101" (Backend.QuestionUpvoted "id-9" 0)]).
Proof.
  apply (upvote_unknown_question Sqlite.empty
           {| SocketService.ud_questionId := "id-9";
              SocketService.ud_sessionCode := "101" |}).
  intros [].
Defined.

End UpvoteFacts.

(** ** Sessions, sentiments and the tables as a whole *)

Module SessionFacts.

Lemma find_last {A : Type} (p : A -> bool) (l : list A) (x : A) :
  (forall a, In a l -> p a = false) -> p x = true ->
  find p (l ++ [x]) = Some x.
Proof.
  intros Hl Hx. induction l as [|a l IH]; simpl.
  - now rewrite Hx.
  - rewrite (Hl a) by now left. apply IH. intros b Hb. apply Hl. now right.
Qed.

Lemma substring_length (n m : nat) (s : string) :
  String.length (String.substring n m s) <= m.
Proof.
  revert n m. induction s as [|c s IH]; intros n m.
  - destruct n, m; simpl; lia.
  - destruct n as [|n]; simpl.
    + destruct m as [|m]; simpl; [lia|]. specialize (IH 0 m). lia.
    + apply IH.
Qed.

Lemma substring_numeral (n m : nat) (s : string) :
  Backend.numeral s = true -> Backend.numeral (String.substring n m s) = true.
Proof.
  revert n m. induction s as [|c s IH]; intros n m H.
  - destruct n, m; reflexivity.
  - simpl in H. apply andb_true_iff in H. destruct H as [Hc Hs].
    destruct n as [|n]; simpl.
    + destruct m as [|m]; simpl; [reflexivity|]. now rewrite Hc, IH.
    + now apply IH.
Qed.

Lemma upper_unit_code (c : ascii) :
  Backend.numeral_unit c = true -> Backend.code_unit (Backend.upper_unit c) = true.
Proof.
  destruct c as [[] [] [] [] [] [] [] []]; simpl; intros H;
    try discriminate H; reflexivity.
Qed.

Lemma toUpperCase_code (s : string) :
  Backend.numeral s = true -> Backend.code_text (Backend.toUpperCase s) = true.
Proof.
  induction s as [|c s IH]; intros H; [reflexivity|].
  simpl in H. apply andb_true_iff in H. destruct H as [Hc Hs].
  simpl. now rewrite upper_unit_code, IH.
Qed.

Lemma toUpperCase_length (s : string) :
  String.length (Backend.toUpperCase s) = String.length s.
Proof.
  induction s as [|c s IH]; simpl; congruence.
Qed.

(** A session code has at most 6 characters, fewer when the numeral is
    short, and they are digits, capital letters or a point. When its
    identifier and its code are not in the table, the session is created:
    the answer carries the identifier, the code and the two links that
    end with the code; the route [/api/session/<code>] then finds this
    session, and a sentiment sent for this code is stored under the
    identifier of the session and broadcast to the room of the code. When
    the identifier or the code is in the table, the answer is an error
    500 and the database is left as it is. *)
Theorem create_session_round_trip (db : Sqlite.Db) (clock : nat)
    (id random36 teacherName className : string) :
  let code := Backend.generateSessionCode random36 in
  String.length code <= 6
  /\ (Backend.numeral random36 = true -> Backend.code_text code = true)
  /\ (Sqlite.mentions id (map Sqlite.s_id (Sqlite.sessions db)) = false ->
      Sqlite.mentions code (map Sqlite.s_code (Sqlite.sessions db)) = false ->
      exists db' session,
        Backend.create_session db clock id random36 teacherName className
        = (db',
           [Backend.Respond 200
              (Backend.Created id code
                 ("http://localhost:3000/teacher/" ++ code)
                 ("http://localhost:3000/student/" ++ code))])
        /\ Sqlite.sessions db' = Sqlite.sessions db ++ [session]
        /\ Sqlite.questions db' = Sqlite.questions db
        /\ Sqlite.s_id session = id
        /\ Sqlite.s_teacher_name session = teacherName
        /\ Sqlite.s_class_name session = className
        /\ Backend.get_session db' code
           = [Backend.Respond 200 (Backend.Found session)]
        /\ forall clock2 id2 student kind,
             Sqlite.mentions id2 (map Sqlite.t_id (Sqlite.sentiments db))
             = false ->
             exists db2 stored,
               Backend.submit_sentiment db' clock2 id2
                 {| SocketService.sd_sessionCode := code;
                    SocketService.sd_sentimentType := kind;
                    SocketService.sd_studentId := student |}
               = (db2, [Backend.Broadcast code
                          (Backend.SentimentUpdate kind clock2)])
               /\ Sqlite.sentiments db2 = Sqlite.sentiments db ++ [stored]
               /\ Sqlite.t_session_id stored = id
               /\ Sqlite.t_sentiment_type stored = kind
               /\ Sqlite.t_student_id stored = student)
  /\ (Sqlite.mentions id (map Sqlite.s_id (Sqlite.sessions db)) = true
      \/ Sqlite.mentions code (map Sqlite.s_code (Sqlite.sessions db)) = true ->
      exists err,
        Backend.create_session db clock id random36 teacherName className
        = (db, [Backend.Respond 500 (Backend.Failed err)])).
Proof.
  intros code. split; [|split; [|split]].
  - subst code. unfold Backend.generateSessionCode.
    rewrite toUpperCase_length. apply substring_length.
  - intros H. subst code. unfold Backend.generateSessionCode.
    now apply toUpperCase_code, substring_numeral.
  - intros Hid Hcode.
    unfold Backend.create_session, Sqlite.insert_session. fold code.
    rewrite Hid, Hcode. eexists. eexists. split; [reflexivity|].
    cbn [Sqlite.sessions Sqlite.questions Sqlite.s_id Sqlite.s_teacher_name
           Sqlite.s_class_name].
    split; [reflexivity|]. split; [reflexivity|]. split; [reflexivity|].
    split; [reflexivity|]. split; [reflexivity|].
    assert (Hold : forall s, In s (Sqlite.sessions db) ->
                   String.eqb (Sqlite.s_code s) code = false).
    { intros s Hs. apply String.eqb_neq. intros E.
      apply StoreFacts.mentions_false in Hcode. apply Hcode.
      rewrite <- E. now apply in_map. }
    split.
    + unfold Backend.get_session, Sqlite.active_session.
      cbn [Sqlite.sessions]. rewrite find_last; [reflexivity | |].
      * intros s Hs. now rewrite (Hold s Hs).
      * cbn [Sqlite.s_code Sqlite.s_is_active]. now rewrite String.eqb_refl.
    + intros clock2 id2 student kind Hfresh.
      unfold Backend.submit_sentiment, Sqlite.session_id.
      cbn [Sqlite.sessions SocketService.sd_sessionCode].
      rewrite find_last;
        [|exact Hold | cbn [Sqlite.s_code]; apply String.eqb_refl].
      cbn [option_map Sqlite.s_id]. unfold Sqlite.insert_sentiment.
      cbn [Sqlite.sentiments]. rewrite Hfresh.
      eexists. eexists. split; [reflexivity|]. repeat split.
  - intros H. unfold Backend.create_session, Sqlite.insert_session. fold code.
    destruct (Sqlite.mentions id (map Sqlite.s_id (Sqlite.sessions db)));
      [eexists; reflexivity|].
    destruct H as [H|H]; [discriminate|]. rewrite H. eexists; reflexivity.
Qed.

(** The statements of the other requests leave the table of sessions as
    it is. *)
Lemma serve_sessions (nlp : Tagger) (db : Sqlite.Db) (r : Backend.request) :
  Backend.is_create r = false ->
  Sqlite.sessions (Backend.serve nlp db r) = Sqlite.sessions db.
Proof.
  destruct r as [| room course | cfg clock id data | clock id data | data];
    intros H; [discriminate| | | |]; cbn [Backend.serve].
  - reflexivity.
  - destruct (SubmitFacts.submit_question_db nlp cfg db clock id data)
      as (category & analyzed & calls & _ & _ & R).
    cbv zeta in R. rewrite R. unfold Sqlite.insert_question.
    destruct (Sqlite.mentions _ _); reflexivity.
  - unfold Backend.submit_sentiment.
    destruct (Sqlite.session_id db _); [|reflexivity].
    unfold Sqlite.insert_sentiment. destruct (Sqlite.mentions _ _); reflexivity.
  - reflexivity.
Qed.

(** Sessions are made by [/api/create-session] alone. After any requests
    other than this one on an empty database, as the pages make them for
    a room opened by its address, a sentiment is neither stored nor
    broadcast. *)
Theorem sentiment_without_session (nlp : Tagger) (rs : list Backend.request)
    (clock : nat) (id : string) (data : SocketService.sentiment_data) :
  forallb (fun r => negb (Backend.is_create r)) rs = true ->
  let db := fold_left (Backend.serve nlp) rs Sqlite.empty in
  Sqlite.sessions db = []
  /\ Backend.submit_sentiment db clock id data = (db, []).
Proof.
  intros H db.
  assert (Hs : forall db0, Sqlite.sessions db0 = [] ->
                 Sqlite.sessions (fold_left (Backend.serve nlp) rs db0) = []).
  { induction rs as [|r rs IH]; intros db0 H0; [exact H0|].
    simpl in H. apply andb_true_iff in H. destruct H as [Hr Hrs].
    simpl. apply IH; [exact Hrs|].
    rewrite serve_sessions; [exact H0|]. now apply negb_true_iff. }
  specialize (Hs Sqlite.empty eq_refl). fold db in Hs. split; [exact Hs|].
  unfold Backend.submit_sentiment, Sqlite.session_id. now rewrite Hs.
Qed.

Lemma sentiment_without_session_witness :
  Backend.submit_sentiment
    (fold_left (Backend.serve WordTagger.tagger)
       [ Backend.SubmitQuestion Sample.disabled 5 "id-1"
           (Sample.asks "What is ROI?");
         Backend.UpvoteQuestion
           {| SocketService.ud_questionId := "id-1";
              SocketService.ud_sessionCode := "ROOM42" |} ]
       Sqlite.empty)
    6 "id-2"
    {| SocketService.sd_sessionCode := "ROOM42";
       SocketService.sd_sentimentType := "confused";
       SocketService.sd_studentId := "s1" |}
  = (fold_left (Backend.serve WordTagger.tagger)
       [ Backend.SubmitQuestion Sample.disabled 5 "id-1"
           (Sample.asks "What is ROI?");
         Backend.UpvoteQuestion
           {| SocketService.ud_questionId := "id-1";
              SocketService.ud_sessionCode := "ROOM42" |} ]
       Sqlite.empty,
     []).
Proof.
  apply (sentiment_without_session WordTagger.tagger
           [ Backend.SubmitQuestion Sample.disabled 5 "id-1"
               (Sample.asks "What is ROI?");
             Backend.UpvoteQuestion
               {| SocketService.ud_questionId := "id-1";
                  SocketService.ud_sessionCode := "ROOM42" |} ]).
  reflexivity.
Defined.

Lemma room_cleared (l : list Sqlite.question_row) (room : string) :
  filter (fun q => String.eqb (Sqlite.q_session_id q) room)
    (filter (fun q => negb (String.eqb (Sqlite.q_session_id q) room)) l)
  = [].
Proof.
  induction l as [|q l IH]; [reflexivity|]. simpl.
  destruct (String.eqb (Sqlite.q_session_id q) room) eqn:E; simpl;
    [exact IH | now rewrite E].
Qed.

Lemma other_rooms_kept (l : list Sqlite.question_row) (room other : string) :
  other <> room ->
  filter (fun q => String.eqb (Sqlite.q_session_id q) other)
    (filter (fun q => negb (String.eqb (Sqlite.q_session_id q) room)) l)
  = filter (fun q => String.eqb (Sqlite.q_session_id q) other) l.
Proof.
  intros Hne. induction l as [|q l IH]; [reflexivity|]. simpl.
  destruct (String.eqb_spec (Sqlite.q_session_id q) room) as [E|E]; simpl.
  - destruct (String.eqb_spec (Sqlite.q_session_id q) other) as [E'|E'];
      [congruence | exact IH].
  - destruct (String.eqb (Sqlite.q_session_id q) other); now rewrite IH.
Qed.

(** [/api/clear-session/<room>] deletes the questions of the room and no
    other row, tells the room, and answers with the number of questions
    it deleted. The next question submitted to the room is then broadcast
    with an empty similarity set and a summary of 1 question of urgency
    [low]. *)
Theorem clear_session_empties_room (nlp : Tagger) (db : Sqlite.Db)
    (roomId courseName : string) :
  let db' := fst (Backend.clear_session db roomId courseName) in
  Sqlite.questions_of db' roomId = []
  /\ (forall other, other <> roomId ->
        Sqlite.questions_of db' other = Sqlite.questions_of db other)
  /\ Sqlite.sessions db' = Sqlite.sessions db
  /\ Sqlite.sentiments db' = Sqlite.sentiments db
  /\ snd (Backend.clear_session db roomId courseName)
     = [Backend.Broadcast roomId (Backend.SessionCleared roomId courseName);
        Backend.Respond 200
          (Backend.Cleared true ("Session cleared for " ++ courseName)
             (length (Sqlite.questions_of db roomId)))]
  /\ forall cfg clock id data to record,
       sessionCode data = roomId ->
       In (Emit to record)
          (snd (Backend.submit_question nlp cfg db' clock id data)) ->
       qd_similarQuestions record = []
       /\ exists t, qd_topicSummary record = Some t
                    /\ questionCount t = 1 /\ urgency t = "low".
Proof.
  intros db'. subst db'. unfold Backend.clear_session, Sqlite.delete_questions.
  cbn [fst snd].
  set (db1 := {| Sqlite.sessions := Sqlite.sessions db;
                 Sqlite.questions :=
                   filter (fun q => negb (String.eqb
                                            (Sqlite.q_session_id q) roomId))
                     (Sqlite.questions db);
                 Sqlite.sentiments := Sqlite.sentiments db |}).
  assert (Hroom : Sqlite.questions_of db1 roomId = []).
  { unfold Sqlite.questions_of, db1. cbn [Sqlite.questions].
    apply room_cleared. }
  split; [exact Hroom|]. split; [|split; [reflexivity|split; [reflexivity|]]].
  - intros other Hne. unfold Sqlite.questions_of, db1. cbn [Sqlite.questions].
    now apply other_rooms_kept.
  - split; [reflexivity|].
    intros cfg clock id data to record Hdata.
    destruct (SubmitFacts.submit_question_db nlp cfg db1 clock id data)
      as (category & analyzed & calls & E & Hremote & R).
    cbv zeta in R. rewrite R. clear R. rewrite Hdata, Hroom.
    cbn [map].
    assert (Hcalls : ~ In (Emit to record) calls).
    { clear - Hremote. induction calls as [|c calls IH]; [intros []|].
      unfold Js.remote_calls in *. simpl in Hremote.
      pose proof (filter_length_le
                    (fun ev => match ev with
                               | CallZeroShot _
                               | CallTextClassification _ => true
                               | _ => false
                               end) calls) as Hle.
      intros [->|Hin]; simpl in Hremote; [lia|].
      destruct c; simpl in Hremote; try lia; apply IH; try assumption; lia. }
    destruct (Sqlite.insert_question db1 clock _) as [e|db2]; cbn [snd];
      intros Hin; apply in_app_or in Hin;
      destruct Hin as [Hin|Hin]; try contradiction.
    + destruct Hin as [Hin|[Hin|[]]]; discriminate.
    + destruct Hin as [Hin|[Hin|[Hin|[]]]]; try discriminate.
      injection Hin as _ <-. cbn [Server.broadcast_record qd_similarQuestions
                                    qd_topicSummary].
      split; [reflexivity|]. eexists. split; [reflexivity|].
      split; reflexivity.
Qed.

End SessionFacts.
